(** * tm_dedimania: deduplication, scoring, ranking and rivalry analytics

    A shallow embedding of the record-analytics core of the repository:
    - [backend/Final_Weekly_stats/gaming_leaderboard.py]
      ([deduplicate_player_records], [get_competition_multiplier],
      [calculate_points], the leaderboard sort), module [Leaderboard]; the
      date ranges ([get_weekly_date_range], [get_previous_week_date_range],
      [get_specific_past_week_range], [calculate_weeks_back_dates]), module
      [LeaderboardDates]; the rows of the table, the previous positions and
      the trend, module [LeaderboardTable];
    - [backend/Final_Weekly_stats/weekly_team_stats.py]
      ([WeeklyStatsGenerator]: [format_time], [deduplicate_records],
      [get_all_latest_nicknames], [detect_rivalries], the weekend-warrior part
      of [analyze_time_masters]), module [WeeklyStats]; the daily grinder of
      [analyze_time_masters], module [TimeMasters];
      [analyze_volume_champions], module [VolumeChampions];
      [analyze_performance_elite], module [PerformanceElite];
      [analyze_track_ownership], module [TrackOwnership].

    Modelling conventions.
    - A Python [str] is a [string]; the text is taken in ASCII (the database
      columns are TEXT filled from scraped table cells).  A TEXT column value is
      an [option string], [None] being SQL NULL / Python [None] (for the
      dictionaries of gaming_leaderboard.py: the key is absent and [.get]
      falls back to its default).
    - A Python [dict] is an association list kept in insertion order
      ([ODict]): the code iterates over [.values()], [.items()] and [.keys()]
      and the order is observable.
    - An exception is [None] in the [option] monad; a bare [try/except] is a
      [match] on that result.
    - A Python [float] holding tenths or a percentage is an exact rational
      ([Q]); [float('inf')] and the result of [float(str)] are kept abstract.
    - The instance attribute [_latest_nicks_cache] is threaded explicitly.
    - [datetime.now()] is the parameter [today], the ordinal of the current
      date, read once per call.  A date written by [strftime('%Y-%m-%d')] is
      kept as its ordinal, and [strptime] reads it back.
    - What a query of the database returns is a parameter of the function
      that runs it. *)

From Stdlib Require Import ZArith QArith Qround List String Ascii Bool Lia.
From Stdlib Require Import Permutation Sorted DecimalString Lqa.
From Stdlib Require OrderedTypeEx.
Import ListNotations.

Local Open Scope string_scope.
Local Open Scope Z_scope.

(* ================================================================== *)
(** * Python built-ins used by the code *)
(* ================================================================== *)

Module Py.

(** [bool(v)] for a TEXT value: [None] and the empty string are falsy. *)
Definition truthy (v : option string) : bool :=
  match v with
  | Some s => negb (s =? "")%string
  | None => false
  end.

(** [d.get(key, default)] on a record whose key may be absent. *)
Definition get (v : option string) (default : string) : string :=
  match v with
  | Some s => s
  | None => default
  end.

Definition code (c : ascii) : Z := Z.of_N (N_of_ascii c).

Definition is_digit_char (c : ascii) : bool :=
  (48 <=? code c) && (code c <=? 57).

Definition digit_value (c : ascii) : Z := code c - 48.

(** [str.isdigit()]: non-empty and every character a decimal digit. *)
Definition isdigit (s : string) : bool :=
  match list_ascii_of_string s with
  | [] => false
  | l => forallb is_digit_char l
  end.

(** The characters [int()] skips around a literal (C [isspace]). *)
Definition is_space (c : ascii) : bool :=
  ((9 <=? code c) && (code c <=? 13)) || (code c =? 32).

Fixpoint lstrip (l : list ascii) : list ascii :=
  match l with
  | c :: t => if is_space c then lstrip t else l
  | [] => []
  end.

Definition strip (l : list ascii) : list ascii :=
  rev (lstrip (rev (lstrip l))).

(** Decimal digits with single underscores between them, as [int()] reads
    them: [prev] says that the previous character was a digit. *)
Fixpoint int_digits (acc : Z) (prev : bool) (l : list ascii) : option Z :=
  match l with
  | [] => if prev then Some acc else None
  | c :: t =>
      if is_digit_char c then int_digits (10 * acc + digit_value c) true t
      else if (code c =? 95) && prev then int_digits acc false t
      else None
  end.

(** [int(s)] in base 10: surrounding white space, an optional sign, digits.
    [None] is [ValueError].  (The interpreter's cap on the number of digits
    of a literal, 4300 by default, is not modelled.) *)
Definition int (s : string) : option Z :=
  match strip (list_ascii_of_string s) with
  | c :: t =>
      if code c =? 45 then option_map Z.opp (int_digits 0 false t)
      else if code c =? 43 then int_digits 0 false t
      else int_digits 0 false (c :: t)
  | [] => None
  end.

(** The value of a string of digits. *)
Definition digits_value (s : string) : Z :=
  fold_left (fun acc c => 10 * acc + digit_value c) (list_ascii_of_string s) 0.


(** [s.split(c)] for a one-character separator: the pieces between the
    occurrences of [c], in order (always at least one piece). *)
Fixpoint split (c : ascii) (s : string) : list string :=
  match s with
  | EmptyString => [""]
  | String a t =>
      if Ascii.eqb a c then "" :: split c t
      else match split c t with
           | p :: ps => String a p :: ps
           | [] => [String a ""]
           end
  end.

(** [max(l, key=f)]: the first element whose key no later element exceeds
    strictly; [None] on the empty list ([ValueError]). *)
Fixpoint max_by {A : Type} (f : A -> Z) (l : list A) : option A :=
  match l with
  | [] => None
  | x :: t =>
      match max_by f t with
      | Some y => if f x <? f y then Some y else Some x
      | None => Some x
      end
  end.

End Py.

(* ================================================================== *)
(** * Insertion-ordered dictionaries *)
(* ================================================================== *)

Module ODict.
Section Ops.
Context {K V : Type}.
Variable eqb : K -> K -> bool.

(** [d.get(k)] / [k in d]. *)
Fixpoint lookup (d : list (K * V)) (k : K) : option V :=
  match d with
  | [] => None
  | (k', v) :: t => if eqb k' k then Some v else lookup t k
  end.

(** [d[k] = v]: an existing key keeps its place, a new key goes last. *)
Fixpoint set (d : list (K * V)) (k : K) (v : V) : list (K * V) :=
  match d with
  | [] => [(k, v)]
  | (k', v') :: t => if eqb k' k then (k', v) :: t else (k', v') :: set t k v
  end.

Definition mem (d : list (K * V)) (k : K) : bool :=
  match lookup d k with Some _ => true | None => false end.

Definition keys (d : list (K * V)) : list K := map fst d.
Definition values (d : list (K * V)) : list V := map snd d.

End Ops.
End ODict.

Definition odict (K V : Type) : Type := list (K * V).

(** [list.sort(key=..., reverse=True)] and [sorted(..., reverse=True)]:
    Python's sort is stable, also when reversed, so the result is the one
    arrangement that is descending in the key and keeps elements of equal
    key in their input order; [lt a b] says that the key of [a] is smaller
    than the key of [b].  An element goes behind the sorted rest's elements
    of greater key and in front of the others. *)
Module PySort.
Section Sort.
Context {A : Type}.
Variable lt : A -> A -> bool.

Fixpoint insert_desc (x : A) (l : list A) : list A :=
  match l with
  | [] => [x]
  | y :: t => if lt x y then y :: insert_desc x t else x :: y :: t
  end.

Definition sort_desc (l : list A) : list A := fold_right insert_desc [] l.

(** Two elements have the same key. *)
Definition same_key (a b : A) : bool := negb (lt a b) && negb (lt b a).

End Sort.
End PySort.

(* ================================================================== *)
(** * gaming_leaderboard.py *)
(* ================================================================== *)

Module Leaderboard.

(** A row of [dedimania_records] as [get_player_records_from_db] returns it:
    a dictionary with these eight keys. *)
Record record_dict : Type := mkRecord {
  Login : option string;
  NickName : option string;
  Challenge : option string;
  Record_ : option string;
  Rank : option string;
  RecordDate : option string;
  Envir : option string;
  Mode : option string
}.

Definition key_eqb (a b : string * string) : bool :=
  (fst a =? fst b)%string && (snd a =? snd b)%string.

(** The rank used for comparison in [deduplicate_player_records]:
    [try: int(rank_str) if rank_str.isdigit() else 999 / except: 999]. *)
Definition comparison_rank (rank_str : string) : Z :=
  match (if Py.isdigit rank_str then Py.int rank_str else Some 999) with
  | Some rank => rank
  | None => 999
  end.

(** One iteration of the loop of [deduplicate_player_records]. *)
Definition dedup_step (track_records : odict (string * string) record_dict)
    (record : record_dict) : odict (string * string) record_dict :=
  let login := Py.get (Login record) "" in
  let track := Py.get (Challenge record) "" in
  let rank_str := Py.get (Rank record) "" in
  if (login =? "")%string || (track =? "")%string then track_records
  else
    let rank := comparison_rank rank_str in
    let key := (login, track) in
    match ODict.lookup key_eqb track_records key with
    | None => ODict.set key_eqb track_records key record
    | Some existing =>
        let existing_rank := comparison_rank (Py.get (Rank existing) "") in
        if rank <? existing_rank
        then ODict.set key_eqb track_records key record
        else track_records
    end.

Definition deduplicate_player_records (records : list record_dict) : list record_dict :=
  ODict.values (fold_left dedup_step records []).

(** [get_competition_multiplier]: [None] is Python's [None]. *)
Definition get_competition_multiplier (total_records : option Z) : Q :=
  match total_records with
  | None => 0.5
  | Some n =>
      if n <=? 0 then 0.5
      else if n =? 1 then 0.1
      else if n <? 5 then 0.2
      else if n <? 10 then 0.4
      else if n <? 15 then 0.6
      else if n <? 20 then 0.8
      else 1.0
  end.

(** The base points of one record in [calculate_points]; [None] when
    [int(rank_str)] raises. *)
Definition base_points (rank_str : string) : option Z :=
  if Py.isdigit rank_str then
    match Py.int rank_str with
    | Some rank =>
        Some (if rank =? 1 then 5
              else if rank <=? 3 then 3
              else if rank <=? 5 then 2
              else 1)
    | None => None
    end
  else if negb (rank_str =? "")%string then Some 1
  else Some 0.






(** A row of [player_table]:
    [(nickname, top5, top3, top1, total_records, avg_rank, points, login)]. *)
Record row : Type := mkRow {
  nickname : string;
  top5 : Z;
  top3 : Z;
  top1 : Z;
  total_records : Z;
  avg_rank : Q;
  points : Q;
  login : string
}.

(** Comparison of the sort keys [(x[6], x[3], x[2], x[1])] as tuples. *)
Definition key_compare (a b : row) : comparison :=
  match Qcompare (points a) (points b) with
  | Eq =>
      match Z.compare (top1 a) (top1 b) with
      | Eq =>
          match Z.compare (top3 a) (top3 b) with
          | Eq => Z.compare (top5 a) (top5 b)
          | c => c
          end
      | c => c
      end
  | c => c
  end.

Definition key_lt (a b : row) : bool :=
  match key_compare a b with Lt => true | _ => false end.

(** [player_table.sort(key=lambda x: (x[6], x[3], x[2], x[1]), reverse=True)] *)
Definition sort_player_table (player_table : list row) : list row :=
  PySort.sort_desc key_lt player_table.

End Leaderboard.

(* ================================================================== *)
(** * weekly_team_stats.py *)
(* ================================================================== *)

Module WeeklyStats.

(** A row as [get_latest_data] returns it; every method unpacks it as
    [login, nick, track, time, rank, date, envir, mode, server = record]. *)
Record record_tuple : Type := mkTuple {
  login : option string;
  nick : option string;
  track : option string;
  time : option string;
  rank : option string;
  date : option string;
  envir : option string;
  mode : option string;
  server : option string
}.

(** [==] on values that are a string or [None]. *)
Definition opt_eqb (a b : option string) : bool :=
  match a, b with
  | Some x, Some y => (x =? y)%string
  | None, None => true
  | _, _ => false
  end.

Definition key_eqb (a b : option string * option string) : bool :=
  opt_eqb (fst a) (fst b) && opt_eqb (snd a) (snd b).

(** [int(rank) if rank else 999]; [None] when [int] raises. *)
Definition int_or_999 (rank : option string) : option Z :=
  match rank with
  | Some s => if (s =? "")%string then Some 999 else Py.int s
  | None => Some 999
  end.

(** The same under [try: ... except: rank_int = 999]. *)
Definition rank_int (rank : option string) : Z :=
  match int_or_999 rank with
  | Some n => n
  | None => 999
  end.

(** ** [format_time]

    [float] is Python's [float(str)] ([None] when it raises), [inf] is
    [float('inf')]; the arithmetic of [float] is left abstract. *)
Section FormatTime.
Variable F : Type.
Variable float : string -> option F.
Variable inf : F.
Variable sixty : F.
Variables fmul fadd : F -> F -> F.



End FormatTime.

(** ** [deduplicate_records] *)

Definition dedup_step
    (track_records : odict (option string * option string) record_tuple)
    (record : record_tuple)
    : odict (option string * option string) record_tuple :=
  if negb (Py.truthy (login record)) || negb (Py.truthy (track record))
  then track_records
  else
    let rank_int' := rank_int (rank record) in
    let key := (login record, track record) in
    match ODict.lookup key_eqb track_records key with
    | None => ODict.set key_eqb track_records key record
    | Some existing_record =>
        let existing_rank_int := rank_int (rank existing_record) in
        if rank_int' <? existing_rank_int
        then ODict.set key_eqb track_records key record
        else track_records
    end.

Definition deduplicate_records (records : list record_tuple)
    : list record_tuple :=
  ODict.values (fold_left dedup_step records []).

(** ** [get_all_latest_nicknames] and the instance's cache *)

Definition nick_map : Type := odict (option string) string.

(** The mutable part of a [WeeklyStatsGenerator]. *)
Record generator : Type := mkGenerator {
  latest_nicks_cache : option nick_map
}.

(** [WeeklyStatsGenerator(...)]: [self._latest_nicks_cache = None]. *)
Definition new_generator : generator := mkGenerator None.

(** A loop that stops at the first exception. *)
Fixpoint loop {S A : Type} (body : S -> A -> option S) (l : list A) (s : S)
    : option S :=
  match l with
  | [] => Some s
  | x :: t =>
      match body s x with
      | Some s' => loop body t s'
      | None => None
      end
  end.

(** One iteration of the loop of [get_all_latest_nicknames] over
    [(login_to_nick, login_to_latest_date)]; [date > ...] raises
    [TypeError] unless both dates are strings. *)
Definition nick_step
    (st : nick_map * odict (option string) (option string))
    (record : record_tuple)
    : option (nick_map * odict (option string) (option string)) :=
  let (login_to_nick, login_to_latest_date) := st in
  match nick record with
  | Some n =>
      if (n =? "")%string then Some st
      else
        let updated :=
          (ODict.set opt_eqb login_to_nick (login record) n,
           ODict.set opt_eqb login_to_latest_date (login record) (date record)) in
        match ODict.lookup opt_eqb login_to_latest_date (login record) with
        | None => Some updated
        | Some latest =>
            match date record, latest with
            | Some d, Some d0 =>
                if (d0 <? d)%string then Some updated else Some st
            | _, _ => None
            end
        end
  | None => Some st
  end.

(** The mapping a call computes when the cache is empty. *)
Definition latest_nicknames (records : list record_tuple) : option nick_map :=
  option_map fst (loop nick_step records ([], [])).

(** [get_all_latest_nicknames]: the result ([None] when it raises) and the
    instance afterwards. *)
Definition get_all_latest_nicknames (records : list record_tuple)
    (self : generator) : option nick_map * generator :=
  match latest_nicks_cache self with
  | Some cached => (Some cached, self)
  | None =>
      match latest_nicknames records with
      | Some login_to_nick => (Some login_to_nick, mkGenerator (Some login_to_nick))
      | None => (None, self)
      end
  end.

(** ** [detect_rivalries] *)

(** The dictionaries appended to [track_records[track]]. *)
Record entry : Type := mkEntry {
  e_login : option string;
  e_nick : option string;
  e_rank : Z;
  e_time : option string
}.

(** [track_records[track].append(e)] on a [defaultdict(list)]. *)
Definition append_to (d : odict (option string) (list entry))
    (k : option string) (e : entry) : odict (option string) (list entry) :=
  match ODict.lookup opt_eqb d k with
  | Some l => ODict.set opt_eqb d k (l ++ [e])%list
  | None => ODict.set opt_eqb d k [e]
  end.

(** The first loop: a record whose rank makes [int] raise is skipped. *)
Definition group_step (track_records : odict (option string) (list entry))
    (record : record_tuple) : odict (option string) (list entry) :=
  match int_or_999 (rank record) with
  | Some rank_int =>
      append_to track_records (track record)
        (mkEntry (login record) (nick record) rank_int (time record))
  | None => track_records
  end.

Definition group_by_track (records : list record_tuple)
    : odict (option string) (list entry) :=
  fold_left group_step records [].

(** [player_best] of one track. *)
Definition best_step (player_best : odict (option string) entry)
    (record : entry) : odict (option string) entry :=
  match ODict.lookup opt_eqb player_best (e_login record) with
  | None => ODict.set opt_eqb player_best (e_login record) record
  | Some best =>
      if e_rank record <? e_rank best
      then ODict.set opt_eqb player_best (e_login record) record
      else player_best
  end.

Definition player_best (records_list : list entry)
    : odict (option string) entry :=
  fold_left best_step records_list [].

(** The login left out of every rivalry. *)
Definition excluded_login : string := "yogeshdeshwari".

Definition players_of (best : odict (option string) entry)
    : list (option string) :=
  filter (fun login => negb (opt_eqb login (Some excluded_login)))
    (ODict.keys best).

(** [(players[i], players[j])] for [i < j], in the order of the two loops. *)
Fixpoint pairs {A : Type} (l : list A) : list (A * A) :=
  match l with
  | [] => []
  | x :: t => (map (pair x) t ++ pairs t)%list
  end.

(** [rivalry_data]: rivalry key -> track -> login -> wins. *)
Definition wins_map : Type := odict string Z.
Definition track_map : Type := odict (option string) wins_map.
Definition rivalry_map : Type := odict (string * string) track_map.

Definition pair_eqb (a b : string * string) : bool :=
  (fst a =? fst b)%string && (snd a =? snd b)%string.

(** [rivalry_data[rivalry_key][track][login] += 1] on the nested
    [defaultdict]: each level is created when it is first read. *)
Definition award (rivalry_data : rivalry_map) (rivalry_key : string * string)
    (track : option string) (login : string) : rivalry_map :=
  let track_data :=
    match ODict.lookup pair_eqb rivalry_data rivalry_key with
    | Some td => td
    | None => []
    end in
  let track_wins :=
    match ODict.lookup opt_eqb track_data track with
    | Some tw => tw
    | None => []
    end in
  let wins :=
    match ODict.lookup String.eqb track_wins login with
    | Some n => n
    | None => 0
    end in
  ODict.set pair_eqb rivalry_data rivalry_key
    (ODict.set opt_eqb track_data track
       (ODict.set String.eqb track_wins login (wins + 1))).

(** The body of the two loops over player pairs.  [sorted([p1, p2])] raises
    [TypeError] unless both logins are strings. *)
Definition compare_pair (track : option string)
    (best : odict (option string) entry) (rivalry_data : rivalry_map)
    (p : option string * option string) : option rivalry_map :=
  let (p1_login, p2_login) := p in
  match ODict.lookup opt_eqb best p1_login,
        ODict.lookup opt_eqb best p2_login with
  | Some p1_record, Some p2_record =>
      match p1_login, p2_login with
      | Some l1, Some l2 =>
          let rivalry_key := if (l2 <? l1)%string then (l2, l1) else (l1, l2) in
          if e_rank p1_record <? e_rank p2_record
          then Some (award rivalry_data rivalry_key track l1)
          else if e_rank p2_record <? e_rank p1_record
          then Some (award rivalry_data rivalry_key track l2)
          else Some rivalry_data
      | _, _ => None
      end
  | _, _ => None
  end.

(** The body of the loop over [track_records.items()]. *)
Definition track_step (rivalry_data : rivalry_map)
    (item : option string * list entry) : option rivalry_map :=
  let (track, records_list) := item in
  if (2 <=? Z.of_nat (List.length records_list)) then
    let best := player_best records_list in
    loop (compare_pair track best) (pairs (players_of best)) rivalry_data
  else Some rivalry_data.

Definition head_to_head (track_records : odict (option string) (list entry))
    : option rivalry_map :=
  loop track_step track_records [].

(** An element of the returned list. *)
Record rivalry : Type := mkRivalry {
  player1 : string;
  player2 : string;
  shared_tracks : Z;
  p1_wins : Z;
  p2_wins : Z;
  leader : string;
  score : string;
  tracks : list (option string)
}.

(** [sum(track_wins.get(login, 0) for track_wins in track_data.values())] *)
Definition total_wins (track_data : track_map) (login : string) : Z :=
  fold_left Z.add
    (map (fun track_wins =>
            match ODict.lookup String.eqb track_wins login with
            | Some n => n
            | None => 0
            end)
         (ODict.values track_data))
    0.

(** [str(n)] for an integer. *)
Definition str_of_Z (n : Z) : string := NilZero.string_of_int (Z.to_int n).

(** [login_to_nick.get(login, login)] *)
Definition nick_of (login_to_nick : nick_map) (login : string) : string :=
  match ODict.lookup opt_eqb login_to_nick (Some login) with
  | Some n => n
  | None => login
  end.

(** The body of the loop over [rivalry_data.items()]: the rivalry appended,
    if any. *)
Definition rivalry_of (login_to_nick : nick_map)
    (item : (string * string) * track_map) : option rivalry :=
  let '((login1, login2), track_data) := item in
  let total_wins_login1 := total_wins track_data login1 in
  let total_wins_login2 := total_wins track_data login2 in
  let shared := Z.of_nat (List.length track_data) in
  if 3 <=? shared then
    let nick1 := nick_of login_to_nick login1 in
    let nick2 := nick_of login_to_nick login2 in
    let '(leader_name, loser_name, leader', player1_wins, player2_wins) :=
      if total_wins_login2 <? total_wins_login1
      then (nick1, nick2, nick1, total_wins_login1, total_wins_login2)
      else if total_wins_login1 <? total_wins_login2
      then (nick2, nick1, nick2, total_wins_login2, total_wins_login1)
      else if (nick1 <? nick2)%string
      then (nick1, nick2, "Tied", total_wins_login1, total_wins_login2)
      else (nick2, nick1, "Tied", total_wins_login2, total_wins_login1) in
    Some (mkRivalry leader_name loser_name shared player1_wins player2_wins
            leader' (str_of_Z player1_wins ++ "-" ++ str_of_Z player2_wins)%string
            (ODict.keys track_data))
  else None.

Fixpoint filter_map {A B : Type} (f : A -> option B) (l : list A) : list B :=
  match l with
  | [] => []
  | x :: t =>
      match f x with
      | Some y => y :: filter_map f t
      | None => filter_map f t
      end
  end.

Definition fewer_shared (a b : rivalry) : bool :=
  shared_tracks a <? shared_tracks b.

(** [detect_rivalries]: the result ([None] when an exception propagates)
    and the instance afterwards. *)
Definition detect_rivalries (records : list record_tuple) (self : generator)
    : option (list rivalry) * generator :=
  match get_all_latest_nicknames records self with
  | (Some login_to_nick, self') =>
      match head_to_head (group_by_track records) with
      | Some rivalry_data =>
          (Some (PySort.sort_desc fewer_shared
                   (filter_map (rivalry_of login_to_nick) rivalry_data)),
           self')
      | None => (None, self')
      end
  | (None, self') => (None, self')
  end.

(** ** [analyze_time_masters]: the weekend warrior *)

(** Calendar arithmetic of [datetime.date]: proleptic Gregorian ordinals,
    day 1 being 0001-01-01, a Monday. *)
Definition is_leap (y : Z) : bool :=
  (y mod 4 =? 0) && (negb (y mod 100 =? 0) || (y mod 400 =? 0)).

Definition days_in_month (y m : Z) : Z :=
  if m =? 2 then (if is_leap y then 29 else 28)
  else if (m =? 4) || (m =? 6) || (m =? 9) || (m =? 11) then 30
  else 31.

Definition days_before_year (y : Z) : Z :=
  let p := y - 1 in p * 365 + p / 4 - p / 100 + p / 400.

Definition days_before_month (y m : Z) : Z :=
  fold_left Z.add
    (map (days_in_month y) (map Z.of_nat (seq 1 (Z.to_nat (m - 1))))) 0.

Definition toordinal (y m d : Z) : Z :=
  days_before_year y + days_before_month y m + d.

(** [date.weekday()]: Monday is 0, Sunday is 6. *)
Definition weekday (ordinal : Z) : Z := (ordinal + 6) mod 7.

(** [date(y, m, d)]; [None] is [ValueError]. *)
Definition make_date (y m d : Z) : option Z :=
  if (1 <=? y) && (y <=? 9999) && (1 <=? m) && (m <=? 12)
     && (1 <=? d) && (d <=? days_in_month y m)
  then Some (toordinal y m d)
  else None.

(** [datetime.strptime] for the two formats the code uses.  A directive
    reads a run of one or two digits whose value lies in its range ([%Y]:
    exactly four digits; [%d] also a space and one digit); the formats'
    blank matches a run of white space. *)
Fixpoint span_digits (l : list ascii) : list ascii * list ascii :=
  match l with
  | c :: t =>
      if Py.is_digit_char c
      then let (ds, rest) := span_digits t in (c :: ds, rest)
      else ([], l)
  | [] => ([], [])
  end.

Definition number (ds : list ascii) : Z :=
  fold_left (fun acc c => 10 * acc + Py.digit_value c) ds 0.

Definition directive (lo hi : Z) (ds : list ascii) : option Z :=
  let n := List.length ds in
  if ((n =? 1)%nat || (n =? 2)%nat) && (lo <=? number ds) && (number ds <=? hi)
  then Some (number ds)
  else None.

Definition expect (c : Z) (l : list ascii) : option (list ascii) :=
  match l with
  | a :: t => if Py.code a =? c then Some t else None
  | [] => None
  end.

(** [%Y-%m-%d]: the date read and the text left. *)
Definition read_ymd (l : list ascii) : option ((Z * Z * Z) * list ascii) :=
  let (ys, r1) := span_digits l in
  if negb (List.length ys =? 4)%nat then None
  else
    match expect 45 r1 with
    | Some r2 =>
        let (ms, r3) := span_digits r2 in
        match directive 1 12 ms, expect 45 r3 with
        | Some m, Some r4 =>
            match r4 with
            | sp :: c :: r5 =>
                if (Py.code sp =? 32) then
                  if (49 <=? Py.code c) && (Py.code c <=? 57)
                  then Some ((number ys, m, Py.digit_value c), r5)
                  else None
                else
                  let (ds, r6) := span_digits r4 in
                  match directive 1 31 ds with
                  | Some d => Some ((number ys, m, d), r6)
                  | None => None
                  end
            | _ =>
                let (ds, r6) := span_digits r4 in
                match directive 1 31 ds with
                | Some d => Some ((number ys, m, d), r6)
                | None => None
                end
            end
        | _, _ => None
        end
    | None => None
    end.

(** White space as the regular expression's [\s] sees it. *)
Definition is_blank (c : ascii) : bool :=
  ((9 <=? Py.code c) && (Py.code c <=? 13))
  || ((28 <=? Py.code c) && (Py.code c <=? 32)).

Fixpoint skip_blanks (l : list ascii) : list ascii :=
  match l with
  | c :: t => if is_blank c then skip_blanks t else l
  | [] => []
  end.

(** [%H:%M:%S] up to the end of the text; the seconds 60 and 61 match the
    directive and are refused by [datetime]. *)
Definition read_hms (l : list ascii) : option (Z * Z * Z) :=
  let (hs, r1) := span_digits l in
  match directive 0 23 hs, expect 58 r1 with
  | Some h, Some r2 =>
      let (ms, r3) := span_digits r2 in
      match directive 0 59 ms, expect 58 r3 with
      | Some m, Some r4 =>
          let (ss, r5) := span_digits r4 in
          match directive 0 61 ss, r5 with
          | Some s, [] => if s <=? 59 then Some (h, m, s) else None
          | _, _ => None
          end
      | _, _ => None
      end
  | _, _ => None
  end.

(** [datetime.strptime(s, '%Y-%m-%d')]: the ordinal of the date. *)
Definition strptime_date (s : string) : option Z :=
  match read_ymd (list_ascii_of_string s) with
  | Some ((y, m, d), []) => make_date y m d
  | _ => None
  end.

(** [datetime.strptime(s, '%Y-%m-%d %H:%M:%S')]: the ordinal of its date. *)
Definition strptime_datetime (s : string) : option Z :=
  match read_ymd (list_ascii_of_string s) with
  | Some ((y, m, d), c :: rest) =>
      if is_blank c then
        match read_hms (skip_blanks rest) with
        | Some _ => make_date y m d
        | None => None
        end
      else None
  | _ => None
  end.

(** [date.split(' ', 1)]: the text before and after the first space. *)
Fixpoint split_first_space (s : string) : option (string * string) :=
  match s with
  | EmptyString => None
  | String a t =>
      if Py.code a =? 32 then Some ("", t)
      else match split_first_space t with
           | Some (p, q) => Some (String a p, q)
           | None => None
           end
  end.

(** The parsing at the head of the loop body: the ordinal of
    [record_datetime.date()], [None] when the [try] block raises. *)
Definition record_date (date : option string) : option Z :=
  match date with
  | None => None
  | Some d =>
      match split_first_space d with
      | Some (date_part, time_part) =>
          strptime_datetime (date_part ++ " " ++ time_part)%string
      | None => strptime_date d
      end
  end.

(** [get_weekly_date_range] as the dates it denotes, [today] being the
    date of [datetime.now()]. *)
Definition get_weekly_date_range (today : Z) : Z * Z :=
  let start_date :=
    if weekday today =? 3 then today - 7
    else today - ((weekday today - 3) mod 7) in
  (start_date, today).

(** [time_stats['weekend_warrior'][login] += 1] on a [defaultdict(int)]. *)
Definition increment (d : odict (option string) Z) (k : option string)
    : odict (option string) Z :=
  match ODict.lookup opt_eqb d k with
  | Some n => ODict.set opt_eqb d k (n + 1)
  | None => ODict.set opt_eqb d k 1
  end.

(** The loop body as far as [time_stats['weekend_warrior']] goes. *)
Definition weekend_step (today : Z) (weekend_warrior : odict (option string) Z)
    (record : record_tuple) : odict (option string) Z :=
  match record_date (date record) with
  | Some day =>
      let (start_date, end_date) := get_weekly_date_range today in
      if negb ((start_date <=? day) && (day <=? end_date)) then weekend_warrior
      else if (weekday day =? 5) || (weekday day =? 6)
      then increment weekend_warrior (login record)
      else weekend_warrior
  | None => weekend_warrior
  end.

Definition weekend_counts (today : Z) (records : list record_tuple)
    : odict (option string) Z :=
  fold_left (weekend_step today) records [].

(** [sum(1 for r in records if r[0] == login)] *)
Definition total_records_of (records : list record_tuple)
    (l : option string) : Z :=
  Z.of_nat (List.length (filter (fun r => opt_eqb (login r) l) records)).

(** The tuples of [weekend_totals]. *)
Definition weekend_total (records : list record_tuple)
    (item : option string * Z) : option string * Z * Q :=
  let (login, weekend_count) := item in
  let total_records := total_records_of records login in
  let percentage :=
    if 0 <? total_records
    then (inject_Z weekend_count / inject_Z total_records * 100)%Q
    else 0%Q in
  (login, weekend_count, percentage).

(** [results['weekend_warrior']] *)
Record weekend_result : Type := mkWeekend {
  w_player : option string;
  w_count : Z;
  w_percentage : Q
}.

(** [player_nicks.get(login, login)] *)
Definition nick_or_login (player_nicks : nick_map) (l : option string)
    : option string :=
  match ODict.lookup opt_eqb player_nicks l with
  | Some n => Some n
  | None => l
  end.

(** [best_weekend = max(weekend_totals, key=lambda x: x[1])] *)
Definition best_weekend (today : Z) (records : list record_tuple)
    : option (option string * Z * Q) :=
  Py.max_by (fun x => snd (fst x))
    (map (weekend_total records) (weekend_counts today records)).

(** The weekend-warrior entry of [analyze_time_masters(records)]: [None]
    when the call raises, [Some None] when the entry is absent. *)
Definition weekend_warrior (today : Z) (records : list record_tuple)
    (self : generator) : option (option weekend_result) * generator :=
  match get_all_latest_nicknames records self with
  | (Some player_nicks, self') =>
      (Some
         (match best_weekend today records with
          | Some (l, c, p) => Some (mkWeekend (nick_or_login player_nicks l) c p)
          | None => None
          end),
       self')
  | (None, self') => (None, self')
  end.

End WeeklyStats.

(* ================================================================== *)
(** * The loop shared by the three best-of selections

    [deduplicate_player_records], [deduplicate_records] and [player_best]
    run the same loop: a record with no key is skipped, the first record of
    a key is stored, a later one replaces it only when its rank is strictly
    smaller. *)
(* ================================================================== *)

Module BestOf.
Section BestOf.
Context {R K : Type}.
Variable eqb : K -> K -> bool.
Variable key : R -> option K.
Variable rank : R -> Z.

Definition step (d : odict K R) (r : R) : odict K R :=
  match key r with
  | None => d
  | Some k =>
      match ODict.lookup eqb d k with
      | None => ODict.set eqb d k r
      | Some e => if rank r <? rank e then ODict.set eqb d k r else d
      end
  end.

Definition run (l : list R) : odict K R := fold_left step l [].

(** The records of [l] that have a key, each under its key. *)
Definition tag (l : list R) : odict K R :=
  flat_map (fun r => match key r with Some k => [(k, r)] | None => [] end) l.

(** The record stored under [k] after the loop has read [l]: it beats
    strictly the records of [k] before it and is not beaten after it. *)
Definition first_best (l : list R) (k : K) (r : R) : Prop :=
  key r = Some k /\
  exists l1 l2,
    l = (l1 ++ r :: l2)%list /\
    (forall x, In x l1 -> key x = Some k -> rank r < rank x) /\
    (forall x, In x l2 -> key x = Some k -> rank r <= rank x).

(** The invariant of the loop after it has read [l]: the keys of [d] are
    distinct, each stored record is the first best of its key, and every
    key read is stored. *)
Definition inv (l : list R) (d : odict K R) : Prop :=
  NoDup (ODict.keys d) /\
  (forall k r, ODict.lookup eqb d k = Some r -> first_best l k r) /\
  (forall x k, In x l -> key x = Some k -> ODict.lookup eqb d k <> None).

End BestOf.
End BestOf.

(** What the claims say of a deduplication of [records] into [kept], for
    records identified by [pair_of] and compared by [rank_of]: no two kept
    records have the same pair, and a kept record is a record of the input
    that beats strictly every record of its pair before it and is not
    beaten by any after it. *)
Definition keeps_first_best {R P : Type} (pair_of : R -> P) (rank_of : R -> Z)
    (records kept : list R) : Prop :=
  NoDup (map pair_of kept) /\
  forall r, In r kept ->
    exists before after,
      records = (before ++ r :: after)%list /\
      (forall x, In x before -> pair_of x = pair_of r -> rank_of r < rank_of x) /\
      (forall x, In x after -> pair_of x = pair_of r -> rank_of r <= rank_of x).

Module LeaderboardSpec.
Import Leaderboard.

(** The (player, track) pair of a record and its rank for comparison. *)
Definition pair_of (r : record_dict) : string * string :=
  (Py.get (Login r) "", Py.get (Challenge r) "").

Definition rank_of (r : record_dict) : Z :=
  comparison_rank (Py.get (Rank r) "").

(** The dictionary key of a record, when the loop does not skip it. *)
Definition key_of (r : record_dict) : option (string * string) :=
  if (fst (pair_of r) =? "")%string || (snd (pair_of r) =? "")%string
  then None else Some (pair_of r).

End LeaderboardSpec.

Module WeeklyStatsSpec.
Import WeeklyStats.

Definition pair_of (r : record_tuple) : option string * option string :=
  (login r, track r).

Definition rank_of (r : record_tuple) : Z := rank_int (rank r).

Definition key_of (r : record_tuple) : option (option string * option string) :=
  if negb (Py.truthy (login r)) || negb (Py.truthy (track r))
  then None else Some (pair_of r).

(** The record of gaming_leaderboard.py with the same field values. *)
Definition to_dict (r : record_tuple) : Leaderboard.record_dict :=
  Leaderboard.mkRecord (login r) (nick r) (track r) (time r) (rank r)
    (date r) (envir r) (mode r).

End WeeklyStatsSpec.

(* ================================================================== *)
(** * Specifications and sample data *)
(* ================================================================== *)

Module ScorerSpec.
Import Leaderboard.

(** The base points of a rank string (0 where [base_points] would raise,
    which [base_points_total] excludes). *)
Definition award (rank_str : string) : Z :=
  match base_points rank_str with
  | Some base => base
  | None => 0
  end.

(** The value of one record: base points times the multiplier of its
    track's entry in the competition table. *)
Definition record_points (challenge_cache : odict string Z) (r : record_dict)
    : Q :=
  (inject_Z (award (Py.get (Rank r) ""))
   * get_competition_multiplier
       (ODict.lookup String.eqb challenge_cache (Py.get (Challenge r) "")))%Q.


End ScorerSpec.

Module RankerSpec.
Import Leaderboard.

(** The key of [a] is at least the key of [b], component by component in
    the order points, top1, top3, top5. *)
Definition key_ge (a b : row) : Prop :=
  (points b < points a)%Q \/
  ((points a == points b)%Q /\
   (top1 b < top1 a \/
    (top1 a = top1 b /\
     (top3 b < top3 a \/
      (top3 a = top3 b /\ top5 b <= top5 a))))).

(** The keys of [a] and [b] are equal as tuples. *)
Definition key_eq (a b : row) : Prop :=
  (points a == points b)%Q /\ top1 a = top1 b /\ top3 a = top3 b
  /\ top5 a = top5 b.

Definition key_eqb (a b : row) : bool :=
  match key_compare a b with Eq => true | _ => false end.

End RankerSpec.

Module WeekendSpec.
Import WeeklyStats.

(** The record counts for the weekend: its date parses, lies in the
    reporting window and is a Saturday or a Sunday. *)
Definition in_weekend (today : Z) (r : record_tuple) : bool :=
  match record_date (date r) with
  | Some day =>
      (fst (get_weekly_date_range today) <=? day)
      && (day <=? snd (get_weekly_date_range today))
      && ((weekday day =? 5) || (weekday day =? 6))
  | None => false
  end.

(** The number of weekend records of a player. *)
Definition weekend_count (today : Z) (records : list record_tuple)
    (l : option string) : Z :=
  Z.of_nat (List.length
              (filter (fun r => in_weekend today r && opt_eqb (login r) l)
                 records)).


Definition rec (l n d : string) : record_tuple :=
  mkTuple (Some l) (Some n) (Some "A01") (Some "0:45.10") (Some "7") (Some d)
    (Some "Stadium") (Some "TA") None.

(** Sunday 2025-08-10; the window opens on Thursday 2025-08-07. *)
Definition sunday : Z := toordinal 2025 8 10.

(** Alice has four records, two of them on Saturday; Bob has one record,
    on Sunday. *)
Definition week : list record_tuple :=
  [ rec "alice" "Alice" "2025-08-07 20:00:00";
    rec "alice" "Alice" "2025-08-08 20:00:00";
    rec "alice" "Alice" "2025-08-09 10:00:00";
    rec "alice" "Alice" "2025-08-09 11:00:00";
    rec "bob" "Bob" "2025-08-10 09:30:00" ].

End WeekendSpec.

Module RivalrySpec.
Import WeeklyStats.

(** [int] accepts the rank of the record, or the rank is empty or missing. *)
Definition rank_readable (r : record_tuple) : bool :=
  match int_or_999 (rank r) with Some _ => true | None => false end.

(** The entries of the records of track [t] whose rank is readable, in
    input order. *)
Definition entries_on (records : list record_tuple) (t : option string)
    : list entry :=
  flat_map
    (fun r =>
       if opt_eqb (track r) t then
         match int_or_999 (rank r) with
         | Some n => [mkEntry (login r) (nick r) n (time r)]
         | None => []
         end
       else [])
    records.

(** The tracks under a rivalry key. *)
Definition tracks_of (rivalry_data : rivalry_map) (k : string * string)
    : list (option string) :=
  match ODict.lookup pair_eqb rivalry_data k with
  | Some td => ODict.keys td
  | None => []
  end.

(** [tuple(sorted([l1, l2]))] *)
Definition sorted_key (l1 l2 : string) : string * string :=
  if (l2 <? l1)%string then (l2, l1) else (l1, l2).


Definition rec (l n t k : string) : record_tuple :=
  mkTuple (Some l) (Some n) (Some t) (Some "0:45.10") (Some k)
    (Some "2025-08-08 18:00:00") (Some "Stadium") (Some "TA") None.

(** Alice and Bob on three tracks; Bob's ranks are the text ["DNF"]. *)
Definition dnf_week : list record_tuple :=
  [ rec "alice" "Alice" "B01" "1"; rec "bob" "Bob" "B01" "DNF";
    rec "alice" "Alice" "B02" "2"; rec "bob" "Bob" "B02" "DNF";
    rec "alice" "Alice" "B03" "4"; rec "bob" "Bob" "B03" "DNF" ].

(** Alice and Bob on three tracks, with equal ranks on the third. *)
Definition tied_week : list record_tuple :=
  [ rec "alice" "Alice" "B01" "1"; rec "bob" "Bob" "B01" "2";
    rec "alice" "Alice" "B02" "3"; rec "bob" "Bob" "B02" "2";
    rec "alice" "Alice" "B03" "4"; rec "bob" "Bob" "B03" "4" ].

(** Alice and Bob on three tracks, all three decided. *)
Definition decided_week : list record_tuple :=
  [ rec "alice" "Alice" "B01" "1"; rec "bob" "Bob" "B01" "2";
    rec "alice" "Alice" "B02" "3"; rec "bob" "Bob" "B02" "2";
    rec "alice" "Alice" "B03" "4"; rec "bob" "Bob" "B03" "5" ].

(** Alice and the excluded login on three tracks, all three decided. *)
Definition excluded_week : list record_tuple :=
  [ rec "alice" "Alice" "B01" "1"; rec "yogeshdeshwari" "Yogesh" "B01" "2";
    rec "alice" "Alice" "B02" "3"; rec "yogeshdeshwari" "Yogesh" "B02" "2";
    rec "alice" "Alice" "B03" "4"; rec "yogeshdeshwari" "Yogesh" "B03" "5" ].

(** The dictionaries of [rivalry_data] have no repeated key. *)
Definition wf_rivalries (rd : rivalry_map) : Prop :=
  NoDup (ODict.keys rd) /\
  forall k td, ODict.lookup pair_eqb rd k = Some td -> NoDup (ODict.keys td).

(** Both logins of the pair are strings with a best record. *)
Definition comparable (best : odict (option string) entry)
    (p : option string * option string) : Prop :=
  exists l1 l2 r1 r2,
    p = (Some l1, Some l2) /\
    ODict.lookup opt_eqb best (Some l1) = Some r1 /\
    ODict.lookup opt_eqb best (Some l2) = Some r2.

(** The pair [p] has the rivalry key [k] and best ranks that differ. *)
Definition decided (best : odict (option string) entry)
    (p : option string * option string) (k : string * string) : Prop :=
  exists l1 l2 r1 r2,
    p = (Some l1, Some l2) /\
    ODict.lookup opt_eqb best (Some l1) = Some r1 /\
    ODict.lookup opt_eqb best (Some l2) = Some r2 /\
    k = sorted_key l1 l2 /\
    e_rank r1 <> e_rank r2.

(** A track with the entries [es] awards a win under the key [k]. *)
Definition track_decided (es : list entry) (k : string * string) : Prop :=
  (2 <= List.length es)%nat /\
  exists p, In p (pairs (players_of (player_best es)))
            /\ decided (player_best es) p k.

(** The player has a record on the track. *)
Definition on_track (records : list record_tuple) (a : string)
    (t : option string) : Prop :=
  exists r, In r records /\ login r = Some a /\ track r = t.

(** Both players have a record of readable rank on the track, and the two
    ranks differ. *)
Definition decided_on (records : list record_tuple) (a b : string)
    (t : option string) : Prop :=
  exists ra rb x y,
    In ra records /\ In rb records /\
    login ra = Some a /\ track ra = t /\
    login rb = Some b /\ track rb = t /\
    int_or_999 (rank ra) = Some x /\ int_or_999 (rank rb) = Some y /\
    x <> y.

(** The rivalry names the two players, in either order. *)
Definition names (nicks : nick_map) (r : rivalry) (a b : string) : Prop :=
  (player1 r = nick_of nicks a /\ player2 r = nick_of nicks b) \/
  (player1 r = nick_of nicks b /\ player2 r = nick_of nicks a).

End RivalrySpec.

Module CacheExample.
Import WeeklyStats.

Definition rec (l n t k d : string) : record_tuple :=
  mkTuple (Some l) (Some n) (Some t) (Some "0:45.10") (Some k) (Some d)
    (Some "Stadium") (Some "TA") None.

(** Last week's records: the two players under their old nicknames. *)
Definition week1 : list record_tuple :=
  [ rec "alice" "Al" "A01" "2" "2025-08-01 18:00:00";
    rec "bob" "Bobby" "A01" "1" "2025-08-01 19:00:00" ].

(** This week's records: new nicknames, three tracks shared. *)
Definition week2 : list record_tuple :=
  [ rec "alice" "Alice" "B01" "1" "2025-08-08 18:00:00";
    rec "bob" "Bob" "B01" "2" "2025-08-08 19:00:00";
    rec "alice" "Alice" "B02" "1" "2025-08-08 18:10:00";
    rec "bob" "Bob" "B02" "3" "2025-08-08 19:10:00";
    rec "alice" "Alice" "B03" "4" "2025-08-08 18:20:00";
    rec "bob" "Bob" "B03" "2" "2025-08-08 19:20:00" ].

End CacheExample.

(** [player_best] is the best-of loop keyed by the entry's login (a login
    that is [None] is a key like any other). *)
Definition login_key (e : WeeklyStats.entry) : option (option string) :=
  Some (WeeklyStats.e_login e).

(** The entries' logins are strings. *)
Definition logins_are_strings (es : list WeeklyStats.entry) : Prop :=
  forall e, In e es -> exists l, WeeklyStats.e_login e = Some l.

(** The logins of the records are strings. *)
Definition logins_present (records : list WeeklyStats.record_tuple) : Prop :=
  forall r, In r records -> exists l, WeeklyStats.login r = Some l.

(** Every date stored in [login_to_latest_date] is a string. *)
Definition dates_are_strings
    (st : WeeklyStats.nick_map * odict (option string) (option string))
    : Prop :=
  forall l d, ODict.lookup WeeklyStats.opt_eqb (snd st) l = Some d -> d <> None.

(** Two records of one player on one track, ranks ["5"] and ["+3"]. *)
Definition plus_rank_records : list WeeklyStats.record_tuple :=
  [ WeeklyStats.mkTuple (Some "alice") (Some "Alice") (Some "A01")
      (Some "0:41.25") (Some "5") (Some "2025-08-08 20:15:00")
      (Some "Stadium") (Some "TA") None;
    WeeklyStats.mkTuple (Some "alice") (Some "Alice") (Some "A01")
      (Some "0:40.90") (Some "+3") (Some "2025-08-09 21:30:00")
      (Some "Stadium") (Some "TA") None ].

(* ================================================================== *)
(** * Specifications and sample data for the further properties *)
(* ================================================================== *)

Module RivalryInv.
Import WeeklyStats.

(** A track's dictionary of wins holds one login of the key, with one win. *)
Definition one_win (k : string * string) (item : option string * wins_map)
    : Prop :=
  exists l, snd item = [(l, 1)] /\ (l = fst k \/ l = snd k).

(** Every track of every key records exactly one win. *)
Definition wins_recorded (rd : rivalry_map) : Prop :=
  Forall (fun kd => Forall (one_win (fst kd)) (snd kd)) rd.

(** The two logins of every key are in strictly ascending order. *)
Definition keys_ordered (rd : rivalry_map) : Prop :=
  forall a b, In (a, b) (ODict.keys rd) -> (a <? b)%string = true.

(** The invariant of [rivalry_data] through the head-to-head loops. *)
Definition inv (rd : rivalry_map) : Prop :=
  RivalrySpec.wf_rivalries rd /\ wins_recorded rd /\ keys_ordered rd.

(** Two pairs of logins do not make the same rivalry key. *)
Definition distinct_pair (q p : option string * option string) : Prop :=
  forall a b c d,
    q = (Some a, Some b) -> p = (Some c, Some d) ->
    RivalrySpec.sorted_key a b <> RivalrySpec.sorted_key c d.

(** Alice meets Bob on four tracks and Carol on three; Bob and Carol meet
    on three. *)
Definition three_way_week : list record_tuple :=
  [ RivalrySpec.rec "alice" "Alice" "B01" "1";
    RivalrySpec.rec "bob" "Bob" "B01" "2";
    RivalrySpec.rec "carol" "Carol" "B01" "3";
    RivalrySpec.rec "carol" "Carol" "B02" "1";
    RivalrySpec.rec "alice" "Alice" "B02" "2";
    RivalrySpec.rec "bob" "Bob" "B02" "5";
    RivalrySpec.rec "bob" "Bob" "B03" "1";
    RivalrySpec.rec "carol" "Carol" "B03" "4";
    RivalrySpec.rec "alice" "Alice" "B03" "6";
    RivalrySpec.rec "alice" "Alice" "B04" "2";
    RivalrySpec.rec "bob" "Bob" "B04" "3" ].

End RivalryInv.

(* ================================================================== *)
(** * gaming_leaderboard.py: the date ranges *)
(* ================================================================== *)

Module LeaderboardDates.

(** The strings the functions return: the text [strftime('%Y-%m-%d')]
    writes for a date, kept as the date's ordinal, or a string taken
    verbatim from the command line. *)
Inductive date_text : Type :=
| Formatted (ordinal : Z)
| Verbatim (s : string).

(** [date.max.toordinal()] and the ordinal of 1970-01-01. *)
Definition max_ordinal : Z := 3652059.
Definition epoch : Z := 719163.

(** [d + timedelta(days=n)] on the ordinal of [d]; [None] is the
    [OverflowError] of a result outside [date.min .. date.max] (an [n]
    beyond the range of [timedelta] gives such a result). *)
Definition plus_days (d n : Z) : option Z :=
  if (1 <=? d + n) && (d + n <=? max_ordinal) then Some (d + n) else None.

(** [bool(v)] for a global that is [None] or a date string. *)
Definition truthy (v : option date_text) : bool :=
  match v with
  | Some (Formatted _) => true
  | Some (Verbatim s) => negb (s =? "")%string
  | None => false
  end.

(** [datetime.strptime(s, '%Y-%m-%d')]: it reads back what [strftime]
    wrote. *)
Definition strptime (t : date_text) : option Z :=
  match t with
  | Formatted o => Some o
  | Verbatim s => WeeklyStats.strptime_date s
  end.

(** [get_weekly_date_range]; the two globals are parameters. *)
Definition get_weekly_date_range (CUSTOM_START_DATE CUSTOM_END_DATE
    : option date_text) (today : Z) : option (date_text * date_text) :=
  let current_week :=
    match (if WeeklyStats.weekday today =? 6
           then plus_days today (- 7)
           else plus_days today (- ((WeeklyStats.weekday today + 1) mod 7)))
    with
    | Some start_date => Some (Formatted start_date, Formatted today)
    | None => None
    end in
  match CUSTOM_START_DATE, CUSTOM_END_DATE with
  | Some s, Some e =>
      if truthy CUSTOM_START_DATE && truthy CUSTOM_END_DATE
      then Some (s, e)
      else current_week
  | _, _ => current_week
  end.

(** [get_previous_week_date_range] *)
Definition get_previous_week_date_range (CUSTOM_START_DATE CUSTOM_END_DATE
    : option date_text) (today : Z) : option (date_text * date_text) :=
  match get_weekly_date_range CUSTOM_START_DATE CUSTOM_END_DATE today with
  | Some (current_start, current_end) =>
      match strptime current_start with
      | Some current_start_dt =>
          match plus_days current_start_dt (- 7),
                plus_days current_start_dt (- 1) with
          | Some prev_start_dt, Some prev_end_dt =>
              Some (Formatted prev_start_dt, Formatted prev_end_dt)
          | _, _ => None
          end
      | None => None
      end
  | None => None
  end.

(** [get_specific_past_week_range] *)
Definition get_specific_past_week_range (weeks_back : Z) (today : Z)
    : option (date_text * date_text) :=
  match (if WeeklyStats.weekday today =? 6 then Some today
         else plus_days today (- ((WeeklyStats.weekday today + 1) mod 7))) with
  | Some most_recent_sunday =>
      match plus_days most_recent_sunday (- (7 * weeks_back)) with
      | Some target_week_start =>
          match plus_days target_week_start 6 with
          | Some target_week_end =>
              Some (Formatted target_week_start, Formatted target_week_end)
          | None => None
          end
      | None => None
      end
  | None => None
  end.

(** [get_custom_week_range] *)
Definition get_custom_week_range (start_date_str end_date_str : date_text)
    : date_text * date_text :=
  (start_date_str, end_date_str).

(** [calculate_weeks_back_dates] *)
Definition calculate_weeks_back_dates (weeks_back : Z) (today : Z)
    : option (date_text * date_text) :=
  match (if WeeklyStats.weekday today =? 6 then Some today
         else plus_days today (- ((WeeklyStats.weekday today + 1) mod 7))) with
  | Some most_recent_sunday =>
      match plus_days most_recent_sunday (- (7 * weeks_back)) with
      | Some target_week_start =>
          match plus_days target_week_start 6 with
          | Some target_week_end =>
              Some (Formatted target_week_start, Formatted target_week_end)
          | None => None
          end
      | None => None
      end
  | None => None
  end.

(** The globals after the start-up code, from the parsed arguments
    ([--start] and [--end] come together or not at all; [--weeks-back]
    excludes [--start]). *)
Definition startup_dates (args_start args_end : option string)
    (args_weeks_back : option Z) (today : Z)
    : option (option date_text * option date_text) :=
  if Py.truthy args_start && Py.truthy args_end then
    Some (option_map Verbatim args_start, option_map Verbatim args_end)
  else
    match args_weeks_back with
    | Some n =>
        if n =? 0 then Some (None, None)
        else
          match calculate_weeks_back_dates n today with
          | Some (s, e) => Some (Some s, Some e)
          | None => None
          end
    | None => Some (None, None)
    end.

(** A date [datetime.now()] can give, a week or more before [date.max]. *)
Definition current (today : Z) : Prop := epoch <= today <= max_ordinal - 6.

End LeaderboardDates.

(* ================================================================== *)
(** * weekly_team_stats.py: the daily grinder of [analyze_time_masters] *)
(* ================================================================== *)

Module TimeMasters.
Import WeeklyStats.

(** [time_stats['daily_grinder'][login].add(day_key)]: the set of day keys
    as the list of the days' ordinals, in the order they came in; its
    length is the size of the set. *)
Definition add_day (days : list Z) (day : Z) : list Z :=
  if existsb (Z.eqb day) days then days else (days ++ [day])%list.

(** The loop body as far as [time_stats['daily_grinder']] goes. *)
Definition grinder_step (today : Z)
    (daily_grinder : odict (option string) (list Z)) (record : record_tuple)
    : odict (option string) (list Z) :=
  match record_date (date record) with
  | Some day =>
      let (start_date, end_date) := get_weekly_date_range today in
      if negb ((start_date <=? day) && (day <=? end_date)) then daily_grinder
      else
        let days :=
          match ODict.lookup opt_eqb daily_grinder (login record) with
          | Some s => s
          | None => []
          end in
        ODict.set opt_eqb daily_grinder (login record) (add_day days day)
  | None => daily_grinder
  end.

Definition grinder_days (today : Z) (records : list record_tuple)
    : odict (option string) (list Z) :=
  fold_left (grinder_step today) records [].

(** [results['daily_grinder']] *)
Record grinder_result : Type := mkGrinder {
  g_player : option string;
  days_played : Z
}.

(** [best_grinder = max(..., key=lambda x: len(x[1]))] *)
Definition best_grinder (today : Z) (records : list record_tuple)
    : option (option string * list Z) :=
  Py.max_by (fun x => Z.of_nat (List.length (snd x)))
    (grinder_days today records).

(** The daily-grinder entry of [analyze_time_masters(records)]: [None]
    when the call raises, [Some None] when the entry is absent. *)
Definition daily_grinder (today : Z) (records : list record_tuple)
    (self : generator) : option (option grinder_result) * generator :=
  match get_all_latest_nicknames records self with
  | (Some player_nicks, self') =>
      (Some
         (match best_grinder today records with
          | Some (l, days) =>
              Some (mkGrinder (nick_or_login player_nicks l)
                      (Z.of_nat (List.length days)))
          | None => None
          end),
       self')
  | (None, self') => (None, self')
  end.

(** The player has a record on the day, inside the reporting window. *)
Definition played (today : Z) (records : list record_tuple)
    (l : option string) (day : Z) : Prop :=
  exists r, In r records /\ login r = l /\
            record_date (date r) = Some day /\
            fst (get_weekly_date_range today) <= day
            <= snd (get_weekly_date_range today).

(** Thursday 2025-08-14; the window opens on Thursday 2025-08-07. *)
Definition thursday : Z := toordinal 2025 8 14.

(** Alice has a record on each day from Thursday to Thursday. *)
Definition every_day : list record_tuple :=
  [ WeekendSpec.rec "alice" "Alice" "2025-08-07 20:00:00";
    WeekendSpec.rec "alice" "Alice" "2025-08-08 20:00:00";
    WeekendSpec.rec "alice" "Alice" "2025-08-09 20:00:00";
    WeekendSpec.rec "alice" "Alice" "2025-08-10 20:00:00";
    WeekendSpec.rec "alice" "Alice" "2025-08-11 20:00:00";
    WeekendSpec.rec "alice" "Alice" "2025-08-12 20:00:00";
    WeekendSpec.rec "alice" "Alice" "2025-08-13 20:00:00";
    WeekendSpec.rec "alice" "Alice" "2025-08-14 09:00:00";
    WeekendSpec.rec "bob" "Bob" "2025-08-14 09:30:00" ].

End TimeMasters.

(* ================================================================== *)
(** * gaming_leaderboard.py: the rows of the table and the trend *)
(* ================================================================== *)

Module LeaderboardTable.
Import Leaderboard.

(** One iteration of the loop of [get_latest_nickname_for_login] over
    [(latest_nick, latest_date)]. *)
Definition nickname_step (state : string * string) (r : record_dict)
    : string * string :=
  let (latest_nick, latest_date) := state in
  match NickName r with
  | Some n =>
      if negb (n =? "")%string
         && (latest_date <? Py.get (RecordDate r) "")%string
      then (n, Py.get (RecordDate r) "")
      else state
  | None => state
  end.

Definition get_latest_nickname_for_login (login : string)
    (records : list record_dict) : string :=
  fst (fold_left nickname_step records (login, "")).















(** The record has a nickname and a date. *)
Definition dated_nick (r : record_dict) : bool :=
  Py.truthy (NickName r) && negb (Py.get (RecordDate r) "" =? "")%string.

Definition rec (l n c k d : string) : record_dict :=
  mkRecord (Some l) (Some n) (Some c) (Some "0:45.10") (Some k) (Some d)
    (Some "Stadium") (Some "TA").


Definition this_week (login : string) : list record_dict :=
  if (login =? "alice")%string then
    [rec "alice" "Alicia" "A01" "1" "2025-08-12";
     rec "alice" "Alice" "A02" "2" "2025-08-11"]
  else if (login =? "bob")%string then [rec "bob" "Bob" "A01" "3" "2025-08-12"]
  else if (login =? "carol")%string then [rec "carol" "" "A02" "9" "2025-08-12"]
  else [].

End LeaderboardTable.

Module LeaderboardTableSpec.
Import Leaderboard.




End LeaderboardTableSpec.

Module NicknameSpec.
Import WeeklyStats.

(** The record is of the login and has a nickname. *)
Definition named (l : option string) (r : record_tuple) : bool :=
  opt_eqb (login r) l && Py.truthy (nick r).

Definition date_text (r : record_tuple) : string := Py.get (date r) "".

(** [r] is the first record with the latest date among the selected
    records. *)
Definition first_latest (sel : record_tuple -> bool)
    (records : list record_tuple) (r : record_tuple) : Prop :=
  exists before after,
    records = (before ++ r :: after)%list /\ sel r = true /\
    (forall x, In x before -> sel x = true ->
       (date_text x <? date_text r)%string = true) /\
    (forall x, In x after -> sel x = true ->
       (date_text r <? date_text x)%string = false).

(** [r] is the first record with the latest date among the records of the
    login that have a nickname. *)
Definition latest_for (records : list record_tuple) (l : option string)
    (r : record_tuple) : Prop :=
  first_latest (named l) records r.

End NicknameSpec.

(* ================================================================== *)
(** * weekly_team_stats.py: the per-player statistics *)
(* ================================================================== *)

(** The loop shared by the analyzers that keep statistics per player: a
    record that is not selected is skipped, a selected one updates the
    statistics stored under its login, those of a new login starting from
    a default. *)
Module Tally.
Section Tally.
Context {R V : Type}.
Variable key : R -> option string.
Variable sel : R -> bool.
Variable upd : V -> R -> V.
Variable v0 : V.

Definition step (d : odict (option string) V) (r : R)
    : odict (option string) V :=
  if sel r then
    ODict.set WeeklyStats.opt_eqb d (key r)
      (upd match ODict.lookup WeeklyStats.opt_eqb d (key r) with
           | Some v => v
           | None => v0
           end r)
  else d.

Definition run (l : list R) : odict (option string) V := fold_left step l [].

(** The selected records of a login. *)
Definition mine (k : option string) (l : list R) : list R :=
  filter (fun r => sel r && WeeklyStats.opt_eqb (key r) k) l.

End Tally.
End Tally.

Module VolumeChampions.
Import WeeklyStats.

(** An entry of [player_stats]. *)
Record volume_stats : Type := mkVolume {
  total_records : Z;
  ranks : list Z;
  nick : option string
}.

(** The value the [defaultdict] makes for a new login. *)
Definition new_stats : volume_stats := mkVolume 0 [] (Some "").

(** The loop body: a record whose rank makes [int] raise is skipped. *)
Definition volume_step (latest_nicks : nick_map)
    (player_stats : odict (option string) volume_stats)
    (record : record_tuple) : odict (option string) volume_stats :=
  match int_or_999 (rank record) with
  | Some rank_int =>
      let stats :=
        match ODict.lookup opt_eqb player_stats (login record) with
        | Some s => s
        | None => new_stats
        end in
      ODict.set opt_eqb player_stats (login record)
        (mkVolume (total_records stats + 1)
           (ranks stats ++ [rank_int])%list
           (nick_or_login latest_nicks (login record)))
  | None => player_stats
  end.

(** [results['no_lifer']] *)
Record no_lifer : Type := mkNoLifer {
  player : option string;
  total_dedi : Z
}.

(** [analyze_volume_champions]: the no-lifer entry of the result ([None]
    when the call raises, [Some None] when the entry is absent) and the
    instance afterwards. *)
Definition analyze_volume_champions (records : list record_tuple)
    (self : generator) : option (option no_lifer) * generator :=
  match get_all_latest_nicknames records self with
  | (Some latest_nicks, self') =>
      (Some
         (match Py.max_by (fun x => total_records (snd x))
                  (fold_left (volume_step latest_nicks) records []) with
          | Some (_, stats) => Some (mkNoLifer (nick stats) (total_records stats))
          | None => None
          end),
       self')
  | (None, self') => (None, self')
  end.

(** The number of records of a login whose rank is empty, missing or
    accepted by [int]. *)
Definition readable_count (records : list record_tuple) (l : option string)
    : Z :=
  Z.of_nat (List.length
              (filter (fun r => RivalrySpec.rank_readable r
                                && opt_eqb (login r) l) records)).

(** Alice has three records, one with an unreadable rank; Bob has two. *)
Definition week : list record_tuple :=
  [ RivalrySpec.rec "alice" "Alice" "A01" "1";
    RivalrySpec.rec "bob" "Bob" "A01" "2";
    RivalrySpec.rec "alice" "Alice" "A02" "DNF";
    RivalrySpec.rec "bob" "Bob" "A02" "1";
    RivalrySpec.rec "alice" "Alice" "A03" "1" ].

End VolumeChampions.

Module PerformanceElite.
Import WeeklyStats.

Section Elite.

(** Python's [float], and [rank_int / min(total_players / 10.0, 2.0)] for
    [total_players >= 3]: [None] is the [OverflowError] of an integer too
    large for a [float]. *)
Variable float : Type.
Variable weighted_rank : Z -> Z -> option float.

(** An entry of [player_stats]. *)
Record elite_stats : Type := mkElite {
  total_records : Z;
  rank_1 : Z;
  rank_2 : Z;
  rank_3 : Z;
  top_3 : Z;
  ranks : list Z;
  weighted_ranks : list float;
  competitive_records : Z;
  nick : option string
}.

(** The value the [defaultdict] makes for a new login. *)
Definition new_stats : elite_stats := mkElite 0 0 0 0 0 [] [] 0 (Some "").

(** The statements of the loop body from the count of ranks on. *)
Definition count_rank (rank_int : Z) (s : elite_stats) : elite_stats :=
  let s1 :=
    if rank_int =? 1 then
      mkElite (total_records s) (rank_1 s + 1) (rank_2 s) (rank_3 s) (top_3 s)
        (ranks s) (weighted_ranks s) (competitive_records s) (nick s)
    else if rank_int =? 2 then
      mkElite (total_records s) (rank_1 s) (rank_2 s + 1) (rank_3 s) (top_3 s)
        (ranks s) (weighted_ranks s) (competitive_records s) (nick s)
    else if rank_int =? 3 then
      mkElite (total_records s) (rank_1 s) (rank_2 s) (rank_3 s + 1) (top_3 s)
        (ranks s) (weighted_ranks s) (competitive_records s) (nick s)
    else s in
  if rank_int <=? 3 then
    mkElite (total_records s1) (rank_1 s1) (rank_2 s1) (rank_3 s1)
      (top_3 s1 + 1) (ranks s1) (weighted_ranks s1) (competitive_records s1)
      (nick s1)
  else s1.

(** The statistics of the record's player after the loop body; an exception
    leaves them as they are when it is raised. *)
Definition update (latest_nicks : nick_map) (challenge_cache : odict (option string) Z)
    (stats : elite_stats) (record : record_tuple) (rank_int : Z)
    : elite_stats :=
  let s1 :=
    mkElite (total_records stats + 1) (rank_1 stats) (rank_2 stats)
      (rank_3 stats) (top_3 stats) (ranks stats ++ [rank_int])%list
      (weighted_ranks stats) (competitive_records stats)
      (nick_or_login latest_nicks (login record)) in
  let total_players :=
    match ODict.lookup opt_eqb challenge_cache (track record) with
    | Some n => n
    | None => 1
    end in
  if 3 <=? total_players then
    let s2 :=
      mkElite (total_records s1) (rank_1 s1) (rank_2 s1) (rank_3 s1) (top_3 s1)
        (ranks s1) (weighted_ranks s1) (competitive_records s1 + 1) (nick s1) in
    match weighted_rank rank_int total_players with
    | Some w =>
        count_rank rank_int
          (mkElite (total_records s2) (rank_1 s2) (rank_2 s2) (rank_3 s2)
             (top_3 s2) (ranks s2) (weighted_ranks s2 ++ [w])%list
             (competitive_records s2) (nick s2))
    | None => s2
    end
  else count_rank rank_int s1.

(** The loop body: a record whose rank makes [int] raise is skipped. *)
Definition elite_step (latest_nicks : nick_map)
    (challenge_cache : odict (option string) Z)
    (player_stats : odict (option string) elite_stats)
    (record : record_tuple) : odict (option string) elite_stats :=
  match int_or_999 (rank record) with
  | Some rank_int =>
      let stats :=
        match ODict.lookup opt_eqb player_stats (login record) with
        | Some s => s
        | None => new_stats
        end in
      ODict.set opt_eqb player_stats (login record)
        (update latest_nicks challenge_cache stats record rank_int)
  | None => player_stats
  end.

(** [max(player_stats.items(), key=...)] and the test [> 0]: the player
    and the count of one entry of the result. *)
Definition most (count : elite_stats -> Z)
    (player_stats : odict (option string) elite_stats)
    : option (option string * Z) :=
  match Py.max_by (fun x => count (snd x)) player_stats with
  | Some (_, stats) =>
      if 0 <? count stats then Some (nick stats, count stats) else None
  | None => None
  end.

(** The result: each entry is the player and the count, if present. *)
Record elite_results : Type := mkResults {
  lucky_number : option (option string * Z);
  always_the_bridesmaid : option (option string * Z);
  third_times_the_charm : option (option string * Z)
}.

(** [analyze_performance_elite], given the table
    [get_challenge_info_cache] returns; the loop over the steady
    candidates computes an average that is dropped. *)
Definition analyze_performance_elite
    (challenge_cache : odict (option string) Z)
    (records : list record_tuple) (self : generator)
    : option elite_results * generator :=
  match get_all_latest_nicknames records self with
  | (Some latest_nicks, self') =>
      let player_stats :=
        fold_left (elite_step latest_nicks challenge_cache) records [] in
      (Some (mkResults (most rank_1 player_stats) (most rank_2 player_stats)
               (most rank_3 player_stats)),
       self')
  | (None, self') => (None, self')
  end.

(** No record makes the weighting overflow. *)
Definition no_overflow (challenge_cache : odict (option string) Z)
    (records : list record_tuple) : Prop :=
  forall r rank_int total_players,
    In r records -> int_or_999 (rank r) = Some rank_int ->
    ODict.lookup opt_eqb challenge_cache (track r) = Some total_players ->
    3 <= total_players ->
    weighted_rank rank_int total_players <> None.

End Elite.

(** The number of records of a login whose rank reads as [k]. *)
Definition rank_count (k : Z) (records : list record_tuple)
    (l : option string) : Z :=
  Z.of_nat (List.length
              (filter (fun r => match int_or_999 (rank r) with
                                | Some n => n =? k
                                | None => false
                                end && opt_eqb (login r) l) records)).

(** An entry of the result names a player with the most records of rank
    [k], and is absent when nobody has one. *)
Definition most_of_rank (k : Z) (records : list record_tuple)
    (nicks : nick_map) (entry : option (option string * Z)) : Prop :=
  match entry with
  | Some (p, c) =>
      exists l, c = rank_count k records l /\ 0 < c /\
                (forall l', rank_count k records l' <= c) /\
                p = nick_or_login nicks l
  | None => forall l, rank_count k records l = 0
  end.

(** The weighting in exact arithmetic, for an example. *)
Definition exact_weighted (rank_int total_players : Z) : option Q :=
  let competition_weight :=
    if Qle_bool (inject_Z total_players / 10) 2
    then (inject_Z total_players / 10)%Q else 2%Q in
  Some (inject_Z rank_int / competition_weight)%Q.

End PerformanceElite.

(* ================================================================== *)
(** * weekly_team_stats.py: [analyze_track_ownership] *)
(* ================================================================== *)

Module TrackOwnership.
Import WeeklyStats.

(** A value of [track_owners]. *)
Record owner_info : Type := mkOwner {
  owner : option string;
  o_login : option string;
  o_time : option string;
  o_envir : option string;
  o_date : option string
}.

(** The dictionary stored for a record. *)
Definition owner_of (latest_nicks : nick_map) (record : record_tuple)
    : owner_info :=
  mkOwner (nick_or_login latest_nicks (login record)) (login record)
    (time record) (envir record) (date record).

(** [rank == '1'] *)
Definition world_record (record : record_tuple) : bool :=
  match rank record with
  | Some s => (s =? "1")%string
  | None => false
  end.

(** The loop body; [date > track_owners[track]['date']] raises [TypeError]
    unless both dates are strings. *)
Definition ownership_step (latest_nicks : nick_map)
    (track_owners : odict (option string) owner_info) (record : record_tuple)
    : option (odict (option string) owner_info) :=
  if world_record record then
    match ODict.lookup opt_eqb track_owners (track record) with
    | None =>
        Some (ODict.set opt_eqb track_owners (track record)
                (owner_of latest_nicks record))
    | Some existing =>
        match date record, o_date existing with
        | Some d, Some d0 =>
            if (d0 <? d)%string
            then Some (ODict.set opt_eqb track_owners (track record)
                         (owner_of latest_nicks record))
            else Some track_owners
        | _, _ => None
        end
    end
  else Some track_owners.

(** [analyze_track_ownership]: the result ([None] when an exception
    propagates) and the instance afterwards. *)
Definition analyze_track_ownership (records : list record_tuple)
    (self : generator)
    : option (odict (option string) owner_info) * generator :=
  match get_all_latest_nicknames records self with
  | (Some latest_nicks, self') =>
      (loop (ownership_step latest_nicks) records [], self')
  | (None, self') => (None, self')
  end.

(** The record is a first place on the track. *)
Definition wins_on (t : option string) (r : record_tuple) : bool :=
  world_record r && opt_eqb (track r) t.

Definition rec (l n t k d : string) : record_tuple :=
  mkTuple (Some l) (Some n) (Some t) (Some "0:45.10") (Some k) (Some d)
    (Some "Stadium") (Some "TA") None.

(** Alice takes the first place on A01, then Bob does; Bob is second on
    B02. *)
Definition week : list record_tuple :=
  [ rec "alice" "Alice" "A01" "1" "2025-08-08 20:00:00";
    rec "bob" "Bob" "A01" "1" "2025-08-09 10:00:00";
    rec "bob" "Bob" "B02" "2" "2025-08-09 11:00:00" ].

End TrackOwnership.

Module NicknameErrors.
Import WeeklyStats.

(** Two records of one login that both have a nickname, one of them
    without a date. *)
Definition undated_pair (records : list record_tuple) : Prop :=
  exists before r1 mid r2 after,
    records = (before ++ r1 :: mid ++ r2 :: after)%list /\
    Py.truthy (nick r1) = true /\ Py.truthy (nick r2) = true /\
    login r1 = login r2 /\
    (date r1 = None \/ date r2 = None).

End NicknameErrors.

Module RivalryErrors.
Import WeeklyStats.

(** On one track, a record without a login and a record of a player other
    than the excluded login, both of a rank that is empty, missing or
    accepted by [int]. *)
Definition anonymous_meeting (records : list record_tuple) : Prop :=
  exists r1 r2 l,
    In r1 records /\ In r2 records /\ track r1 = track r2 /\
    RivalrySpec.rank_readable r1 = true /\
    RivalrySpec.rank_readable r2 = true /\
    login r1 = None /\ login r2 = Some l /\ l <> excluded_login.

(** The pair holds a login that is not a string. *)
Definition anonymous (p : option string * option string) : Prop :=
  fst p = None \/ snd p = None.

End RivalryErrors.

(* ================================================================== *)
(** * Facts about ordered dictionaries *)
(* ================================================================== *)

Section ODictFacts.
Context {K V : Type}.
Variable eqb : K -> K -> bool.
Hypothesis eqb_eq : forall a b, eqb a b = true <-> a = b.

Lemma eqb_refl' : forall a, eqb a a = true.
Proof. intro a. now apply eqb_eq. Qed.

Lemma eqb_neq : forall a b, a <> b -> eqb a b = false.
Proof.
  intros a b Hab. destruct (eqb a b) eqn:E; [|reflexivity].
  apply eqb_eq in E. contradiction.
Qed.

Lemma lookup_set_same : forall (d : odict K V) k v,
  ODict.lookup eqb (ODict.set eqb d k v) k = Some v.
Proof.
  induction d as [|[k' v'] d IH]; intros k v; simpl.
  - now rewrite eqb_refl'.
  - destruct (eqb k' k) eqn:E; simpl; rewrite E; auto.
Qed.

Lemma lookup_set_other : forall (d : odict K V) k v k',
  k <> k' -> ODict.lookup eqb (ODict.set eqb d k v) k' = ODict.lookup eqb d k'.
Proof.
  induction d as [|[k0 v0] d IH]; intros k v k' Hne; simpl.
  - now rewrite (eqb_neq _ _ Hne).
  - destruct (eqb k0 k) eqn:E; simpl.
    + apply eqb_eq in E. subst k0. now rewrite (eqb_neq _ _ Hne).
    + destruct (eqb k0 k'); auto.
Qed.

Lemma lookup_In : forall (d : odict K V) k v,
  ODict.lookup eqb d k = Some v -> In (k, v) d.
Proof.
  induction d as [|[k0 v0] d IH]; intros k v; simpl; [discriminate|].
  destruct (eqb k0 k) eqn:E.
  - intros [= <-]. apply eqb_eq in E. subst. now left.
  - intro H. right. now apply IH.
Qed.

Lemma lookup_None_keys : forall (d : odict K V) k,
  ODict.lookup eqb d k = None <-> ~ In k (ODict.keys d).
Proof.
  induction d as [|[k0 v0] d IH]; intros k; simpl.
  - tauto.
  - destruct (eqb k0 k) eqn:E.
    + apply eqb_eq in E. subst. split; [discriminate | intros H; exfalso; auto].
    + rewrite IH. split.
      * intros H [H1|H1]; [subst; rewrite eqb_refl' in E; discriminate | auto].
      * intros H H1. apply H. now right.
Qed.

Lemma In_lookup : forall (d : odict K V) k v,
  NoDup (ODict.keys d) -> In (k, v) d -> ODict.lookup eqb d k = Some v.
Proof.
  induction d as [|[k0 v0] d IH]; intros k v Hnd Hin; simpl in *; [contradiction|].
  inversion Hnd as [|? ? Hnotin Hnd']; subst.
  destruct Hin as [[= -> ->]|Hin].
  - now rewrite eqb_refl'.
  - destruct (eqb k0 k) eqn:E.
    + apply eqb_eq in E. subst. exfalso. apply Hnotin.
      change k with (fst (k, v)). now apply in_map.
    + now apply IH.
Qed.

Lemma set_absent : forall (d : odict K V) k v,
  ODict.lookup eqb d k = None -> ODict.set eqb d k v = (d ++ [(k, v)])%list.
Proof.
  induction d as [|[k0 v0] d IH]; intros k v; simpl; [reflexivity|].
  destruct (eqb k0 k); [discriminate|]. intro H. now rewrite IH.
Qed.

Lemma keys_set_present : forall (d : odict K V) k v e,
  ODict.lookup eqb d k = Some e -> ODict.keys (ODict.set eqb d k v) = ODict.keys d.
Proof.
  induction d as [|[k0 v0] d IH]; intros k v e; simpl; [discriminate|].
  destruct (eqb k0 k) eqn:E; simpl; [reflexivity|].
  intro H. f_equal. now apply (IH _ _ e).
Qed.

Lemma keys_set : forall (d : odict K V) k v,
  ODict.keys (ODict.set eqb d k v)
  = if ODict.mem eqb d k then ODict.keys d else (ODict.keys d ++ [k])%list.
Proof.
  intros d k v. unfold ODict.mem.
  destruct (ODict.lookup eqb d k) eqn:E.
  - now apply keys_set_present with (e := v0).
  - rewrite (set_absent _ _ _ E). unfold ODict.keys. now rewrite map_app.
Qed.

Lemma NoDup_snoc : forall (A : Type) (l : list A) (a : A),
  NoDup l -> ~ In a l -> NoDup (l ++ [a]).
Proof.
  intros A l a Hnd Hin. apply NoDup_rev in Hnd.
  rewrite <- (rev_involutive (l ++ [a])). apply NoDup_rev.
  rewrite rev_app_distr. simpl. constructor; [|assumption].
  now rewrite <- in_rev.
Qed.

Lemma NoDup_keys_set : forall (d : odict K V) k v,
  NoDup (ODict.keys d) -> NoDup (ODict.keys (ODict.set eqb d k v)).
Proof.
  intros d k v Hnd. rewrite keys_set. unfold ODict.mem.
  destruct (ODict.lookup eqb d k) eqn:E; [assumption|].
  apply NoDup_snoc; [assumption|]. now apply lookup_None_keys.
Qed.

Lemma In_keys_set : forall (d : odict K V) k v k',
  In k' (ODict.keys (ODict.set eqb d k v)) <-> k' = k \/ In k' (ODict.keys d).
Proof.
  intros d k v k'. rewrite keys_set. unfold ODict.mem.
  destruct (ODict.lookup eqb d k) eqn:E.
  - split; [tauto|]. intros [->|H]; [|assumption].
    apply lookup_In in E. change k with (fst (k, v0)). now apply in_map.
  - rewrite in_app_iff. simpl. split; intros H; intuition auto.
Qed.

End ODictFacts.

(* ================================================================== *)
(** * Facts about the best-of loop *)
(* ================================================================== *)

Lemma fold_left_ext_eq : forall (A B : Type) (f g : A -> B -> A),
  (forall a b, f a b = g a b) ->
  forall l a, fold_left f l a = fold_left g l a.
Proof.
  intros A B f g Hfg l. induction l as [|b l IH]; intro a; simpl.
  - reflexivity.
  - now rewrite Hfg, IH.
Qed.

Lemma NoDup_map_Some : forall (A : Type) (l : list A),
  NoDup l -> NoDup (map Some l).
Proof.
  intros A l H. induction H as [|a l Hin Hnd IH]; simpl; constructor; auto.
  rewrite in_map_iff. intros [y [[= ->] Hy]]. contradiction.
Qed.

Section BestOfFacts.
Context {R K : Type}.
Variable eqb : K -> K -> bool.
Hypothesis eqb_eq : forall a b, eqb a b = true <-> a = b.
Variable key : R -> option K.
Variable rank : R -> Z.

Local Abbreviation step := (BestOf.step eqb key rank).
Local Abbreviation run := (BestOf.run eqb key rank).
Local Abbreviation tag := (BestOf.tag key).
Local Abbreviation first_best := (BestOf.first_best key rank).
Local Abbreviation inv := (BestOf.inv eqb key rank).

Lemma first_best_later : forall l k r x,
  first_best l k r ->
  (key x = Some k -> rank r <= rank x) ->
  first_best (l ++ [x]) k r.
Proof.
  intros l k r x [Hk (l1 & l2 & -> & H1 & H2)] Hx. split; [assumption|].
  exists l1, (l2 ++ [x])%list. split; [now rewrite <- app_assoc|].
  split; [assumption|].
  intros y Hy Hky. apply in_app_or in Hy. destruct Hy as [Hy|[<-|[]]]; auto.
Qed.

Lemma first_best_new : forall l k x,
  key x = Some k ->
  (forall y, In y l -> key y = Some k -> rank x < rank y) ->
  first_best (l ++ [x]) k x.
Proof.
  intros l k x Hk Hall. split; [assumption|].
  exists l, []. split; [reflexivity|]. split; [assumption|].
  intros y [].
Qed.

Lemma first_best_bound : forall l k e y,
  first_best l k e -> In y l -> key y = Some k -> rank e <= rank y.
Proof.
  intros l k e y [_ (l1 & l2 & -> & H1 & H2)] Hy Hky.
  apply in_app_or in Hy. destruct Hy as [Hy|[<-|Hy]].
  - specialize (H1 _ Hy Hky). lia.
  - lia.
  - now apply H2.
Qed.

Lemma step_inv : forall l d x, inv l d -> inv (l ++ [x]) (step d x).
Proof.
  intros l d x (Hnd & Hbest & Hall). unfold BestOf.step.
  destruct (key x) as [k0|] eqn:Hkx.
  - destruct (ODict.lookup eqb d k0) as [e|] eqn:Hlk.
    + destruct (rank x <? rank e) eqn:Hlt.
      * apply Z.ltb_lt in Hlt. split; [now apply NoDup_keys_set|]. split.
        -- intros k r Hr. destruct (eqb k0 k) eqn:E.
           ++ apply eqb_eq in E. subst k.
              rewrite lookup_set_same in Hr by assumption. injection Hr as <-.
              apply first_best_new; [assumption|].
              intros y Hy Hky.
              pose proof (first_best_bound _ _ _ _ (Hbest _ _ Hlk) Hy Hky). lia.
           ++ assert (Hne : k0 <> k) by (intro; subst; rewrite eqb_refl' in E; auto; discriminate).
              rewrite lookup_set_other in Hr by assumption.
              apply first_best_later; [now apply Hbest|].
              intro Hk. congruence.
        -- intros y k Hy Hky. destruct (eqb k0 k) eqn:E.
           ++ apply eqb_eq in E. subst k. rewrite lookup_set_same by assumption.
              discriminate.
           ++ assert (Hne : k0 <> k) by (intro; subst; rewrite eqb_refl' in E; auto; discriminate).
              rewrite lookup_set_other by assumption.
              apply in_app_or in Hy. destruct Hy as [Hy|[<-|[]]]; [eauto|congruence].
      * apply Z.ltb_ge in Hlt. split; [assumption|]. split.
        -- intros k r Hr. apply first_best_later; [now apply Hbest|].
           intro Hk. assert (k0 = k) by congruence. subst k.
           rewrite Hlk in Hr. injection Hr as <-. assumption.
        -- intros y k Hy Hky.
           apply in_app_or in Hy. destruct Hy as [Hy|[<-|[]]]; [eauto|].
           assert (k0 = k) by congruence. subst k. congruence.
    + split; [now apply NoDup_keys_set|]. split.
      * intros k r Hr. destruct (eqb k0 k) eqn:E.
        -- apply eqb_eq in E. subst k.
           rewrite lookup_set_same in Hr by assumption. injection Hr as <-.
           apply first_best_new; [assumption|].
           intros y Hy Hky. exfalso. exact (Hall _ _ Hy Hky Hlk).
        -- assert (Hne : k0 <> k) by (intro; subst; rewrite eqb_refl' in E; auto; discriminate).
           rewrite lookup_set_other in Hr by assumption.
           apply first_best_later; [now apply Hbest|].
           intro Hk. congruence.
      * intros y k Hy Hky. destruct (eqb k0 k) eqn:E.
        -- apply eqb_eq in E. subst k. rewrite lookup_set_same by assumption.
           discriminate.
        -- assert (Hne : k0 <> k) by (intro; subst; rewrite eqb_refl' in E; auto; discriminate).
           rewrite lookup_set_other by assumption.
           apply in_app_or in Hy. destruct Hy as [Hy|[<-|[]]]; [eauto|congruence].
  - split; [assumption|]. split.
    + intros k r Hr. apply first_best_later; [now apply Hbest|].
      intro Hk. congruence.
    + intros y k Hy Hky.
      apply in_app_or in Hy. destruct Hy as [Hy|[<-|[]]]; [eauto|congruence].
Qed.

Lemma run_inv : forall l, inv l (run l).
Proof.
  induction l as [|x l IH] using rev_ind.
  - split; [constructor|]. split; [discriminate|]. intros x k [].
  - unfold BestOf.run. rewrite fold_left_app. simpl. now apply step_inv.
Qed.

Lemma run_tagged : forall l k r, In (k, r) (run l) -> first_best l k r.
Proof.
  intros l k r Hin. destruct (run_inv l) as (Hnd & Hbest & _).
  apply Hbest. now apply In_lookup.
Qed.

Lemma keys_run : forall l,
  map key (ODict.values (run l)) = map Some (ODict.keys (run l)).
Proof.
  intro l. pose proof (run_tagged l) as H. revert H.
  generalize (run l) as d. induction d as [|[k r] d IH]; intro H; simpl.
  - reflexivity.
  - f_equal.
    + destruct (H k r) as [Hk _]; [now left | exact Hk].
    + apply IH. intros k' r' Hin. apply H. now right.
Qed.

(** Reading records of pairwise distinct keys, none of them stored yet,
    appends them in order. *)
Lemma fold_fresh : forall l d,
  Forall (fun x => key x <> None) l ->
  NoDup (map key l) ->
  (forall x k, In x l -> key x = Some k -> ODict.lookup eqb d k = None) ->
  fold_left step l d = (d ++ tag l)%list.
Proof.
  induction l as [|x l IH]; intros d Hsome Hnd Hfresh; simpl.
  - now rewrite app_nil_r.
  - inversion Hsome as [|? ? Hx Hsome']; subst.
    inversion Hnd as [|? ? Hnotin Hnd']; subst.
    unfold BestOf.step at 2. destruct (key x) as [k|] eqn:Hk; [|congruence].
    rewrite (Hfresh x k (or_introl eq_refl) Hk).
    rewrite IH; try assumption.
    + rewrite set_absent by (apply (Hfresh x k); [now left | assumption]).
      now rewrite <- app_assoc.
    + intros y k' Hy Hky.
      assert (Hne : k <> k').
      { intros ->. apply Hnotin. rewrite <- Hky. now apply in_map. }
      rewrite lookup_set_other by assumption.
      apply (Hfresh y); [now right | assumption].
Qed.

Lemma values_tag : forall l,
  Forall (fun x => key x <> None) l -> ODict.values (tag l) = l.
Proof.
  induction 1 as [|x l Hx Hl IH]; simpl; [reflexivity|].
  destruct (key x); [|congruence]. simpl. f_equal. exact IH.
Qed.

(** The loop leaves its own output unchanged. *)
Lemma run_idempotent : forall l,
  ODict.values (run (ODict.values (run l))) = ODict.values (run l).
Proof.
  intro l.
  assert (Hsome : Forall (fun x => key x <> None) (ODict.values (run l))).
  { apply Forall_forall. intros r Hr. unfold ODict.values in Hr.
    apply in_map_iff in Hr. destruct Hr as [[k r'] [<- Hin]].
    destruct (run_tagged _ _ _ Hin) as [Hk _]. simpl. congruence. }
  unfold BestOf.run at 1. rewrite fold_fresh.
  - simpl. now apply values_tag.
  - exact Hsome.
  - rewrite keys_run. apply NoDup_map_Some. apply (run_inv l).
  - reflexivity.
Qed.

(** The specification of the claims, when the key of a record is its pair
    unless the pair is not [valid]. *)
Lemma run_keeps_first_best : forall (pair_of : R -> K) (valid : K -> bool),
  (forall r, key r = if valid (pair_of r) then Some (pair_of r) else None) ->
  forall l, keeps_first_best pair_of rank l (ODict.values (run l)).
Proof.
  intros pair_of valid Hkey l. split.
  - assert (H : map Some (map pair_of (ODict.values (run l)))
               = map Some (ODict.keys (run l))).
    { rewrite <- keys_run, map_map. apply map_ext_in. intros r Hr.
      unfold ODict.values in Hr. apply in_map_iff in Hr.
      destruct Hr as [[k r'] [<- Hin]].
      destruct (run_tagged _ _ _ Hin) as [Hk _]. simpl in *.
      rewrite Hkey in *. destruct (valid (pair_of r')); congruence. }
    assert (H' : map pair_of (ODict.values (run l)) = ODict.keys (run l)).
    { revert H. generalize (map pair_of (ODict.values (run l))) as a.
      generalize (ODict.keys (run l)) as b.
      induction b as [|y b IH]; intros [|x a]; simpl; try discriminate; auto.
      intros [= -> H]. f_equal. now apply IH. }
    rewrite H'. apply (run_inv l).
  - intros r Hr. unfold ODict.values in Hr. apply in_map_iff in Hr.
    destruct Hr as [[k r'] [<- Hin]]. simpl.
    destruct (run_tagged _ _ _ Hin) as [Hk (l1 & l2 & Hl & H1 & H2)].
    assert (Hv : valid (pair_of r') = true /\ k = pair_of r').
    { rewrite Hkey in Hk. destruct (valid (pair_of r')); [|discriminate].
      split; congruence. }
    destruct Hv as [Hv ->].
    exists l1, l2. split; [assumption|]. split.
    + intros x Hx Hp. apply H1; [assumption|]. now rewrite Hkey, Hp, Hv.
    + intros x Hx Hp. apply H2; [assumption|]. now rewrite Hkey, Hp, Hv.
Qed.

End BestOfFacts.

(* ================================================================== *)
(** * Facts about the built-ins *)
(* ================================================================== *)

Lemma digit_not_space : forall c,
  Py.is_digit_char c = true -> Py.is_space c = false.
Proof.
  intros c H. unfold Py.is_digit_char in H. unfold Py.is_space.
  apply andb_true_iff in H. destruct H as [H1 H2].
  apply Z.leb_le in H1. apply Z.leb_le in H2.
  apply orb_false_iff. split.
  - apply andb_false_iff. right. apply Z.leb_gt. lia.
  - apply Z.eqb_neq. lia.
Qed.

Lemma lstrip_digits : forall l,
  forallb Py.is_digit_char l = true -> Py.lstrip l = l.
Proof.
  intros [|c t] H; simpl in *; [reflexivity|].
  apply andb_true_iff in H. destruct H as [Hc _].
  now rewrite (digit_not_space _ Hc).
Qed.

Lemma forallb_rev : forall (A : Type) (f : A -> bool) (l : list A),
  forallb f l = true -> forallb f (rev l) = true.
Proof.
  intros A f l H. rewrite forallb_forall in *.
  intros x Hx. apply H. now apply in_rev.
Qed.

Lemma strip_digits : forall l,
  forallb Py.is_digit_char l = true -> Py.strip l = l.
Proof.
  intros l H. unfold Py.strip.
  rewrite (lstrip_digits l H).
  rewrite (lstrip_digits (rev l) (forallb_rev _ _ _ H)).
  apply rev_involutive.
Qed.

Lemma int_digits_all : forall l acc,
  forallb Py.is_digit_char l = true ->
  Py.int_digits acc true l
  = Some (fold_left (fun a c => 10 * a + Py.digit_value c) l acc).
Proof.
  induction l as [|c t IH]; intros acc H; simpl in *; [reflexivity|].
  apply andb_true_iff in H. destruct H as [Hc Ht].
  rewrite Hc. now apply IH.
Qed.

(** On a string of digits [int] returns its value. *)
Lemma int_isdigit : forall s,
  Py.isdigit s = true -> Py.int s = Some (Py.digits_value s).
Proof.
  intros s H. unfold Py.isdigit in H. unfold Py.int, Py.digits_value.
  destruct (list_ascii_of_string s) as [|c t] eqn:El; [discriminate|].
  rewrite (strip_digits _ H).
  simpl in H. apply andb_true_iff in H. destruct H as [Hc Ht].
  assert (Hcode : 48 <= Py.code c <= 57).
  { unfold Py.is_digit_char in Hc. apply andb_true_iff in Hc.
    destruct Hc as [H1 H2]. apply Z.leb_le in H1. apply Z.leb_le in H2. lia. }
  replace (Py.code c =? 45) with false by (symmetry; apply Z.eqb_neq; lia).
  replace (Py.code c =? 43) with false by (symmetry; apply Z.eqb_neq; lia).
  simpl. rewrite Hc. now apply int_digits_all.
Qed.

Lemma string_eqb_pair : forall a b : string * string,
  Leaderboard.key_eqb a b = true <-> a = b.
Proof.
  intros [a1 a2] [b1 b2]. unfold Leaderboard.key_eqb. simpl.
  rewrite andb_true_iff, !String.eqb_eq. split.
  - intros [-> ->]. reflexivity.
  - intros [= -> ->]. split; reflexivity.
Qed.

Lemma opt_eqb_eq : forall a b : option string,
  WeeklyStats.opt_eqb a b = true <-> a = b.
Proof.
  intros [a|] [b|]; simpl; try (split; [discriminate | congruence]).
  - rewrite String.eqb_eq. split; congruence.
  - split; reflexivity.
Qed.

Lemma opt_pair_eqb_eq : forall a b : option string * option string,
  WeeklyStats.key_eqb a b = true <-> a = b.
Proof.
  intros [a1 a2] [b1 b2]. unfold WeeklyStats.key_eqb. simpl.
  rewrite andb_true_iff, !opt_eqb_eq. split.
  - intros [-> ->]. reflexivity.
  - intros [= -> ->]. split; reflexivity.
Qed.

Lemma pair_eqb_eq : forall a b : string * string,
  WeeklyStats.pair_eqb a b = true <-> a = b.
Proof. exact string_eqb_pair. Qed.

(* ================================================================== *)
(** * Deduplication *)
(* ================================================================== *)

Lemma comparison_rank_digits : forall s,
  Py.isdigit s = true -> Leaderboard.comparison_rank s = Py.digits_value s.
Proof.
  intros s H. unfold Leaderboard.comparison_rank.
  now rewrite H, (int_isdigit s H).
Qed.

Lemma comparison_rank_other : forall s,
  Py.isdigit s = false -> Leaderboard.comparison_rank s = 999.
Proof.
  intros s H. unfold Leaderboard.comparison_rank. now rewrite H.
Qed.

Lemma leaderboard_step_best_of : forall d r,
  Leaderboard.dedup_step d r
  = BestOf.step Leaderboard.key_eqb LeaderboardSpec.key_of
      LeaderboardSpec.rank_of d r.
Proof.
  intros d r. unfold Leaderboard.dedup_step, BestOf.step,
    LeaderboardSpec.key_of, LeaderboardSpec.rank_of, LeaderboardSpec.pair_of.
  simpl.
  destruct ((Py.get (Leaderboard.Login r) "" =? "")%string
            || (Py.get (Leaderboard.Challenge r) "" =? "")%string);
    reflexivity.
Qed.

Lemma leaderboard_dedup_best_of : forall records,
  Leaderboard.deduplicate_player_records records
  = ODict.values (BestOf.run Leaderboard.key_eqb LeaderboardSpec.key_of
                    LeaderboardSpec.rank_of records).
Proof.
  intro records. unfold Leaderboard.deduplicate_player_records, BestOf.run.
  f_equal. apply fold_left_ext_eq. exact leaderboard_step_best_of.
Qed.

Lemma weekly_step_best_of : forall d r,
  WeeklyStats.dedup_step d r
  = BestOf.step WeeklyStats.key_eqb WeeklyStatsSpec.key_of
      WeeklyStatsSpec.rank_of d r.
Proof.
  intros d r. unfold WeeklyStats.dedup_step, BestOf.step,
    WeeklyStatsSpec.key_of, WeeklyStatsSpec.rank_of, WeeklyStatsSpec.pair_of.
  destruct (negb (Py.truthy (WeeklyStats.login r))
            || negb (Py.truthy (WeeklyStats.track r)));
    reflexivity.
Qed.

Lemma weekly_dedup_best_of : forall records,
  WeeklyStats.deduplicate_records records
  = ODict.values (BestOf.run WeeklyStats.key_eqb WeeklyStatsSpec.key_of
                    WeeklyStatsSpec.rank_of records).
Proof.
  intro records. unfold WeeklyStats.deduplicate_records, BestOf.run.
  f_equal. apply fold_left_ext_eq. exact weekly_step_best_of.
Qed.


(** C10.  [deduplicate_player_records] is idempotent, order included. *)
Theorem deduplicate_player_records_idempotent : forall records,
  Leaderboard.deduplicate_player_records
    (Leaderboard.deduplicate_player_records records)
  = Leaderboard.deduplicate_player_records records.
Proof.
  intro records. rewrite !leaderboard_dedup_best_of.
  apply run_idempotent. exact string_eqb_pair.
Qed.

(** X1.  [deduplicate_records] is idempotent, order included: a list it
    returned comes back unchanged. *)
Lemma deduplicate_records_idempotent : forall records,
  WeeklyStats.deduplicate_records (WeeklyStats.deduplicate_records records)
  = WeeklyStats.deduplicate_records records.
Proof.
  intro records. rewrite !weekly_dedup_best_of.
  apply run_idempotent. exact opt_pair_eqb_eq.
Qed.

(** C7.  The two deduplications differ on [plus_rank_records]:
    [deduplicate_player_records] reads the rank ["+3"] as 999 (it is not a
    string of digits) and keeps the record of rank ["5"], while
    [deduplicate_records] reads it as 3 ([int] accepts the sign) and keeps
    the record of rank ["+3"]. *)
Theorem dedup_implementations_differ :
  Leaderboard.comparison_rank "+3" = 999 /\
  WeeklyStats.rank_int (Some "+3") = 3 /\
  map Leaderboard.Rank
    (Leaderboard.deduplicate_player_records
       (map WeeklyStatsSpec.to_dict plus_rank_records)) = [Some "5"] /\
  map Leaderboard.Rank
    (map WeeklyStatsSpec.to_dict
       (WeeklyStats.deduplicate_records plus_rank_records)) = [Some "+3"].
Proof. repeat split; vm_compute; reflexivity. Qed.

(** ** Where the two deduplications agree *)

Section Simulation.
Context {R1 R2 K1 K2 : Type}.
Variable eqb1 : K1 -> K1 -> bool.
Variable eqb2 : K2 -> K2 -> bool.
Hypothesis eqb1_eq : forall a b, eqb1 a b = true <-> a = b.
Hypothesis eqb2_eq : forall a b, eqb2 a b = true <-> a = b.
Variable key1 : R1 -> option K1.
Variable key2 : R2 -> option K2.
Variable rank1 : R1 -> Z.
Variable rank2 : R2 -> Z.
Variable f : R1 -> R2.
Variable g : K1 -> K2.
Hypothesis key_f : forall r, key2 (f r) = option_map g (key1 r).
Hypothesis g_inj : forall r r' k k',
  key1 r = Some k -> key1 r' = Some k' -> g k = g k' -> k = k'.

Local Abbreviation phi := (fun kr : K1 * R1 => (g (fst kr), f (snd kr))).
Local Abbreviation good :=
  (fun kr : K1 * R1 =>
     key1 (snd kr) = Some (fst kr) /\ rank2 (f (snd kr)) = rank1 (snd kr)).

Lemma eqb_through : forall r r' k k',
  key1 r = Some k -> key1 r' = Some k' -> eqb2 (g k) (g k') = eqb1 k k'.
Proof.
  intros r r' k k' Hk Hk'.
  destruct (eqb1 k k') eqn:E1.
  - apply eqb1_eq in E1. subst. now apply eqb2_eq.
  - destruct (eqb2 (g k) (g k')) eqn:E2; [|reflexivity].
    apply eqb2_eq in E2. apply (g_inj _ _ _ _ Hk Hk') in E2.
    apply eqb1_eq in E2. congruence.
Qed.

Lemma lookup_through : forall d r k,
  Forall good d -> key1 r = Some k ->
  ODict.lookup eqb2 (map phi d) (g k) = option_map f (ODict.lookup eqb1 d k).
Proof.
  intros d r k Hd Hk. induction Hd as [|[k0 r0] d [Hk0 _] Hd IH]; simpl;
    [reflexivity|].
  simpl in Hk0. rewrite (eqb_through r0 r k0 k Hk0 Hk).
  destruct (eqb1 k0 k); [reflexivity | exact IH].
Qed.

Lemma set_through : forall d r k,
  Forall good d -> key1 r = Some k ->
  ODict.set eqb2 (map phi d) (g k) (f r) = map phi (ODict.set eqb1 d k r).
Proof.
  intros d r k Hd Hk. induction Hd as [|[k0 r0] d [Hk0 _] Hd IH]; simpl;
    [reflexivity|].
  simpl in Hk0. rewrite (eqb_through r0 r k0 k Hk0 Hk).
  destruct (eqb1 k0 k); simpl; [reflexivity|]. now rewrite IH.
Qed.

Lemma set_good : forall d r k,
  Forall good d -> good (k, r) -> Forall good (ODict.set eqb1 d k r).
Proof.
  intros d r k Hd Hg. induction Hd as [|[k0 r0] d Hg0 Hd IH]; simpl.
  - constructor; [exact Hg | constructor].
  - destruct (eqb1 k0 k) eqn:E.
    + apply eqb1_eq in E. subst k0. constructor; assumption.
    + constructor; assumption.
Qed.

Lemma lookup_good : forall d k e,
  Forall good d -> ODict.lookup eqb1 d k = Some e ->
  rank2 (f e) = rank1 e.
Proof.
  intros d k e Hd Hl. apply (lookup_In _ eqb1_eq) in Hl.
  rewrite Forall_forall in Hd. apply (Hd _ Hl).
Qed.

(** The loop on the images of the records is the image of the loop. *)
Lemma fold_through : forall l d,
  (forall r, In r l -> rank2 (f r) = rank1 r) ->
  Forall good d ->
  fold_left (BestOf.step eqb2 key2 rank2) (map f l) (map phi d)
  = map phi (fold_left (BestOf.step eqb1 key1 rank1) l d).
Proof.
  induction l as [|r l IH]; intros d Hr Hd; simpl; [reflexivity|].
  assert (Hstep : BestOf.step eqb2 key2 rank2 (map phi d) (f r)
                  = map phi (BestOf.step eqb1 key1 rank1 d r)
                  /\ Forall good (BestOf.step eqb1 key1 rank1 d r)).
  { unfold BestOf.step. rewrite key_f.
    destruct (key1 r) as [k|] eqn:Hk; simpl; [|now split].
    rewrite (lookup_through d r k Hd Hk).
    assert (Hg : good (k, r)).
    { split; [exact Hk | apply Hr; now left]. }
    destruct (ODict.lookup eqb1 d k) as [e|] eqn:El; simpl.
    - rewrite (lookup_good d k e Hd El), (Hr r (or_introl eq_refl)).
      destruct (rank1 r <? rank1 e).
      + split; [now apply set_through | now apply set_good].
      + now split.
    - split; [now apply set_through | now apply set_good]. }
  destruct Hstep as [-> Hgood].
  apply IH; [|exact Hgood]. intros r' Hr'. apply Hr. now right.
Qed.

End Simulation.

(** On records whose rank both implementations read alike, they keep the
    same records in the same order. *)
Lemma dedup_implementations_agree : forall records,
  (forall r, In r records ->
     Leaderboard.comparison_rank (Py.get (WeeklyStats.rank r) "")
     = WeeklyStats.rank_int (WeeklyStats.rank r)) ->
  Leaderboard.deduplicate_player_records (map WeeklyStatsSpec.to_dict records)
  = map WeeklyStatsSpec.to_dict (WeeklyStats.deduplicate_records records).
Proof.
  intros records Hranks.
  rewrite leaderboard_dedup_best_of, weekly_dedup_best_of. unfold BestOf.run.
  pose (g := fun k : option string * option string =>
               (Py.get (fst k) "", Py.get (snd k) "")).
  change (@nil ((string * string) * Leaderboard.record_dict))
    with (map (fun kr : (option string * option string)
                        * WeeklyStats.record_tuple =>
                 (g (fst kr), WeeklyStatsSpec.to_dict (snd kr))) []).
  rewrite (fold_through WeeklyStats.key_eqb Leaderboard.key_eqb
             opt_pair_eqb_eq string_eqb_pair
             WeeklyStatsSpec.key_of LeaderboardSpec.key_of
             WeeklyStatsSpec.rank_of LeaderboardSpec.rank_of
             WeeklyStatsSpec.to_dict g).
  - unfold ODict.values. rewrite !map_map. reflexivity.
  - intro r. unfold LeaderboardSpec.key_of, WeeklyStatsSpec.key_of,
      LeaderboardSpec.pair_of, WeeklyStatsSpec.pair_of, g. simpl.
    destruct (WeeklyStats.login r) as [a|]; destruct (WeeklyStats.track r) as [b|];
      simpl; try reflexivity;
      try (destruct (a =? "")%string; reflexivity);
      try (destruct (b =? "")%string; reflexivity).
    destruct (a =? "")%string; destruct (b =? "")%string; reflexivity.
  - intros r r' k k' Hk Hk' Hg.
    unfold WeeklyStatsSpec.key_of, WeeklyStatsSpec.pair_of in Hk, Hk'.
    destruct (WeeklyStats.login r) as [a|]; [|discriminate].
    destruct (WeeklyStats.track r) as [b|];
      [|simpl in Hk; rewrite orb_true_r in Hk; discriminate].
    destruct (WeeklyStats.login r') as [a'|]; [|discriminate].
    destruct (WeeklyStats.track r') as [b'|];
      [|simpl in Hk'; rewrite orb_true_r in Hk'; discriminate].
    destruct (negb (Py.truthy (Some a)) || negb (Py.truthy (Some b)));
      [discriminate|].
    destruct (negb (Py.truthy (Some a')) || negb (Py.truthy (Some b')));
      [discriminate|].
    injection Hk as <-. injection Hk' as <-. unfold g in Hg. simpl in Hg.
    congruence.
  - intros r Hr. unfold LeaderboardSpec.rank_of, WeeklyStatsSpec.rank_of.
    simpl. now apply Hranks.
  - constructor.
Qed.

(** The two readings of a rank coincide on a missing or empty rank, on a
    string of digits and on a string [int] rejects. *)
Lemma rank_readings_agree : forall v,
  match v with
  | Some s => Py.isdigit s = true \/ s = "" \/ Py.int s = None
  | None => True
  end ->
  Leaderboard.comparison_rank (Py.get v "") = WeeklyStats.rank_int v.
Proof.
  intros [s|] H; [|reflexivity]. simpl.
  unfold WeeklyStats.rank_int, WeeklyStats.int_or_999.
  destruct (Py.isdigit s) eqn:Ed.
  - rewrite (comparison_rank_digits s Ed).
    destruct (s =? "")%string eqn:Es.
    + apply String.eqb_eq in Es. subst s. discriminate.
    + now rewrite (int_isdigit s Ed).
  - rewrite (comparison_rank_other s Ed).
    destruct H as [H|[->|H]]; [congruence | reflexivity |].
    destruct (s =? "")%string; [reflexivity | now rewrite H].
Qed.

(* ================================================================== *)
(** * Competition multiplier and points *)
(* ================================================================== *)

Ltac split_leb :=
  repeat match goal with
  | |- context [?a <=? ?b] => destruct (Z.leb_spec a b)
  | |- context [?a <? ?b] => destruct (Z.ltb_spec a b)
  | |- context [?a =? ?b] => destruct (Z.eqb_spec a b)
  end.

(** C3.  [get_competition_multiplier] is the step function of the table:
    0.5 for [None] and for a count of 0 or less, 0.1 for 1, 0.2 for 2-4,
    0.4 for 5-9, 0.6 for 10-14, 0.8 for 15-19, 1.0 from 20 on. *)
Theorem competition_multiplier_step_function :
  Leaderboard.get_competition_multiplier None = 0.5%Q /\
  forall n : Z,
    (n <= 0 -> Leaderboard.get_competition_multiplier (Some n) = 0.5%Q) /\
    (n = 1 -> Leaderboard.get_competition_multiplier (Some n) = 0.1%Q) /\
    (2 <= n <= 4 -> Leaderboard.get_competition_multiplier (Some n) = 0.2%Q) /\
    (5 <= n <= 9 -> Leaderboard.get_competition_multiplier (Some n) = 0.4%Q) /\
    (10 <= n <= 14 -> Leaderboard.get_competition_multiplier (Some n) = 0.6%Q) /\
    (15 <= n <= 19 -> Leaderboard.get_competition_multiplier (Some n) = 0.8%Q) /\
    (20 <= n -> Leaderboard.get_competition_multiplier (Some n) = 1.0%Q).
Proof.
  split; [reflexivity|].
  intro n. unfold Leaderboard.get_competition_multiplier.
  repeat split; intro H; split_leb; try lia; reflexivity.
Qed.










Lemma rank_one_values : forall cache r n,
  Leaderboard.Rank r = Some "1" ->
  ODict.lookup String.eqb cache (Py.get (Leaderboard.Challenge r) "") = Some n ->
  (20 <= n -> (ScorerSpec.record_points cache r == 5)%Q) /\
  (n = 1 -> (ScorerSpec.record_points cache r == 0.5)%Q).
Proof.
  intros cache r n Hr Hn. unfold ScorerSpec.record_points. rewrite Hr, Hn.
  unfold Leaderboard.get_competition_multiplier.
  split; intro H; split_leb; try lia; reflexivity.
Qed.

(* ================================================================== *)
(** * The leaderboard order *)
(* ================================================================== *)

Section SortFacts.
Context {A : Type}.
Variable lt : A -> A -> bool.
Hypothesis lt_asym : forall a b, lt a b = true -> lt b a = false.
Hypothesis ge_trans :
  forall a b c, lt a b = false -> lt b c = false -> lt a c = false.

Local Abbreviation same_key := (PySort.same_key lt).

Lemma insert_desc_perm : forall x l,
  Permutation (x :: l) (PySort.insert_desc lt x l).
Proof.
  intros x l. induction l as [|y t IH]; simpl.
  - apply Permutation_refl.
  - destruct (lt x y).
    + apply perm_trans with (y :: x :: t); [apply perm_swap|].
      now apply perm_skip.
    + apply Permutation_refl.
Qed.

Lemma sort_desc_perm : forall l, Permutation l (PySort.sort_desc lt l).
Proof.
  induction l as [|x l IH]; simpl.
  - apply perm_nil.
  - apply perm_trans with (x :: PySort.sort_desc lt l).
    + now apply perm_skip.
    + apply insert_desc_perm.
Qed.

Lemma insert_desc_sorted : forall x l,
  StronglySorted (fun a b => lt a b = false) l ->
  StronglySorted (fun a b => lt a b = false) (PySort.insert_desc lt x l).
Proof.
  intros x l Hs. induction Hs as [|y t Hs IH Hall]; simpl.
  - constructor; constructor.
  - destruct (lt x y) eqn:E.
    + constructor; [exact IH|].
      apply Forall_forall. intros z Hz.
      apply (Permutation_in _ (Permutation_sym (insert_desc_perm x t))) in Hz.
      destruct Hz as [<-|Hz].
      * now apply lt_asym.
      * rewrite Forall_forall in Hall. now apply Hall.
    + constructor; [now constructor|].
      constructor; [exact E|].
      apply Forall_forall. intros z Hz.
      rewrite Forall_forall in Hall. apply ge_trans with y; auto.
Qed.

Lemma sort_desc_sorted : forall l,
  StronglySorted (fun a b => lt a b = false) (PySort.sort_desc lt l).
Proof.
  induction l as [|x l IH]; simpl.
  - constructor.
  - now apply insert_desc_sorted.
Qed.

Lemma insert_desc_stable : forall z x l,
  filter (same_key z) (PySort.insert_desc lt x l)
  = filter (same_key z) (x :: l).
Proof.
  intros z x l. induction l as [|y t IH]; [reflexivity|].
  simpl PySort.insert_desc. destruct (lt x y) eqn:E; [|reflexivity].
  simpl. rewrite IH. simpl.
  destruct (same_key z x) eqn:Ex; [|reflexivity].
  destruct (same_key z y) eqn:Ey; [|reflexivity].
  exfalso. unfold same_key in Ex, Ey.
  apply andb_true_iff in Ex. destruct Ex as [_ Hxz].
  apply andb_true_iff in Ey. destruct Ey as [Hzy _].
  apply negb_true_iff in Hxz. apply negb_true_iff in Hzy.
  rewrite (ge_trans _ _ _ Hxz Hzy) in E. discriminate.
Qed.

Lemma sort_desc_stable : forall z l,
  filter (same_key z) (PySort.sort_desc lt l) = filter (same_key z) l.
Proof.
  intros z l. induction l as [|x l IH]; [reflexivity|].
  simpl PySort.sort_desc. rewrite insert_desc_stable. simpl. now rewrite IH.
Qed.

End SortFacts.

Ltac prove_key_ge :=
  first
    [ left; lra
    | right; split; [lra|];
      first
        [ left; lia
        | right; split; [lia|];
          first [ left; lia | right; split; lia ] ] ].

Ltac refute_key_ge H :=
  exfalso; destruct H as [H|[? [H|[? [H|[? H]]]]]]; first [lra | lia].

Lemma key_lt_false_iff : forall a b,
  Leaderboard.key_lt a b = false <-> RankerSpec.key_ge a b.
Proof.
  intros a b. unfold Leaderboard.key_lt, Leaderboard.key_compare,
    RankerSpec.key_ge.
  destruct (Qcompare_spec (Leaderboard.points a) (Leaderboard.points b));
    [ destruct (Z.compare_spec (Leaderboard.top1 a) (Leaderboard.top1 b));
      [ destruct (Z.compare_spec (Leaderboard.top3 a) (Leaderboard.top3 b));
        [ destruct (Z.compare_spec (Leaderboard.top5 a) (Leaderboard.top5 b))
        | | ]
      | | ]
    | | ];
    (split; intro Hge;
     [ first [discriminate Hge | prove_key_ge]
     | first [reflexivity | refute_key_ge Hge] ]).
Qed.

Lemma key_lt_asym : forall a b,
  Leaderboard.key_lt a b = true -> Leaderboard.key_lt b a = false.
Proof.
  intros a b Hlt. apply key_lt_false_iff.
  destruct (Leaderboard.key_lt b a) eqn:E; [|now apply key_lt_false_iff].
  revert Hlt E. unfold Leaderboard.key_lt, Leaderboard.key_compare.
  destruct (Qcompare_spec (Leaderboard.points a) (Leaderboard.points b));
    destruct (Qcompare_spec (Leaderboard.points b) (Leaderboard.points a));
    destruct (Z.compare_spec (Leaderboard.top1 a) (Leaderboard.top1 b));
    destruct (Z.compare_spec (Leaderboard.top1 b) (Leaderboard.top1 a));
    destruct (Z.compare_spec (Leaderboard.top3 a) (Leaderboard.top3 b));
    destruct (Z.compare_spec (Leaderboard.top3 b) (Leaderboard.top3 a));
    destruct (Z.compare_spec (Leaderboard.top5 a) (Leaderboard.top5 b));
    destruct (Z.compare_spec (Leaderboard.top5 b) (Leaderboard.top5 a));
    intros Hab Hba; try discriminate; exfalso; first [lra | lia].
Qed.

Lemma key_ge_trans : forall a b c,
  Leaderboard.key_lt a b = false -> Leaderboard.key_lt b c = false ->
  Leaderboard.key_lt a c = false.
Proof.
  intros a b c Hab Hbc. apply key_lt_false_iff in Hab, Hbc.
  apply key_lt_false_iff. unfold RankerSpec.key_ge in *.
  destruct Hab as [Hab|[? [Hab|[? [Hab|[? Hab]]]]]];
    destruct Hbc as [Hbc|[? [Hbc|[? [Hbc|[? Hbc]]]]]];
    prove_key_ge.
Qed.

Lemma key_eqb_same_key : forall a b,
  RankerSpec.key_eqb a b = PySort.same_key Leaderboard.key_lt a b.
Proof.
  intros a b. unfold PySort.same_key.
  destruct (Leaderboard.key_lt b a) eqn:Eba.
  - pose proof (key_lt_asym _ _ Eba) as Eab. rewrite Eab. simpl.
    revert Eba. unfold RankerSpec.key_eqb, Leaderboard.key_lt,
      Leaderboard.key_compare.
    rewrite <- (Qcompare_antisym (Leaderboard.points a) (Leaderboard.points b)).
    rewrite (Z.compare_antisym (Leaderboard.top1 a) (Leaderboard.top1 b)).
    rewrite (Z.compare_antisym (Leaderboard.top3 a) (Leaderboard.top3 b)).
    rewrite (Z.compare_antisym (Leaderboard.top5 a) (Leaderboard.top5 b)).
    destruct (Leaderboard.points a ?= Leaderboard.points b)%Q;
      destruct (Leaderboard.top1 a ?= Leaderboard.top1 b);
      destruct (Leaderboard.top3 a ?= Leaderboard.top3 b);
      destruct (Leaderboard.top5 a ?= Leaderboard.top5 b);
      simpl; intro; try discriminate; reflexivity.
  - simpl. rewrite andb_true_r.
    revert Eba. unfold RankerSpec.key_eqb, Leaderboard.key_lt,
      Leaderboard.key_compare.
    rewrite <- (Qcompare_antisym (Leaderboard.points a) (Leaderboard.points b)).
    rewrite (Z.compare_antisym (Leaderboard.top1 a) (Leaderboard.top1 b)).
    rewrite (Z.compare_antisym (Leaderboard.top3 a) (Leaderboard.top3 b)).
    rewrite (Z.compare_antisym (Leaderboard.top5 a) (Leaderboard.top5 b)).
    destruct (Leaderboard.points a ?= Leaderboard.points b)%Q;
      destruct (Leaderboard.top1 a ?= Leaderboard.top1 b);
      destruct (Leaderboard.top3 a ?= Leaderboard.top3 b);
      destruct (Leaderboard.top5 a ?= Leaderboard.top5 b);
      simpl; intro; try discriminate; reflexivity.
Qed.

Lemma key_eqb_iff : forall a b,
  RankerSpec.key_eqb a b = true <-> RankerSpec.key_eq a b.
Proof.
  intros a b. unfold RankerSpec.key_eqb, Leaderboard.key_compare,
    RankerSpec.key_eq.
  destruct (Qcompare_spec (Leaderboard.points a) (Leaderboard.points b));
    destruct (Z.compare_spec (Leaderboard.top1 a) (Leaderboard.top1 b));
    destruct (Z.compare_spec (Leaderboard.top3 a) (Leaderboard.top3 b));
    destruct (Z.compare_spec (Leaderboard.top5 a) (Leaderboard.top5 b));
    (split; intro Heq;
     [ first [discriminate Heq | repeat split; first [lra | lia]]
     | first [reflexivity
             | exfalso; destruct Heq as (? & ? & ? & ?); first [lra | lia]] ]).
Qed.

(** C5.  The table is sorted by the key (points, top1, top3, top5) in
    descending lexicographic order: the result is a rearrangement of the
    table in which the key of an earlier row is at least the key of every
    later row, and the sort is stable: the rows whose key equals a given
    one come out in their input order.  The result depends on the input
    list only, so sorting the same table again gives the same order. *)
Theorem sort_player_table_stable_descending : forall player_table,
  Permutation player_table (Leaderboard.sort_player_table player_table) /\
  StronglySorted RankerSpec.key_ge
    (Leaderboard.sort_player_table player_table) /\
  (forall z,
     filter (RankerSpec.key_eqb z) (Leaderboard.sort_player_table player_table)
     = filter (RankerSpec.key_eqb z) player_table) /\
  (forall a b, RankerSpec.key_eqb a b = true <-> RankerSpec.key_eq a b).
Proof.
  intro player_table. unfold Leaderboard.sort_player_table.
  split; [|split; [|split]].
  - apply sort_desc_perm.
  - pose proof (sort_desc_sorted Leaderboard.key_lt key_lt_asym key_ge_trans
                  player_table) as H.
    induction H as [|x l Hs IH Hall]; constructor; [assumption|].
    apply Forall_forall. intros y Hy. rewrite Forall_forall in Hall.
    apply key_lt_false_iff. now apply Hall.
  - intro z.
    rewrite (filter_ext _ _ (key_eqb_same_key z)).
    rewrite (filter_ext _ _ (key_eqb_same_key z)).
    apply sort_desc_stable. exact key_ge_trans.
  - exact key_eqb_iff.
Qed.

(* ================================================================== *)
(** * The nickname cache *)
(* ================================================================== *)

(** C8, as the code has it: the claim fails.  After a call on [week1] the
    same instance answers a call on [week2] with the nicknames of [week1],
    a fresh instance with those of [week2]; [detect_rivalries] names the
    players accordingly. *)
Lemma nickname_cache_leaks_between_calls :
  let used := snd (WeeklyStats.get_all_latest_nicknames CacheExample.week1
                     WeeklyStats.new_generator) in
  fst (WeeklyStats.get_all_latest_nicknames CacheExample.week2 used)
    = Some [(Some "alice", "Al"); (Some "bob", "Bobby")] /\
  fst (WeeklyStats.get_all_latest_nicknames CacheExample.week2
         WeeklyStats.new_generator)
    = Some [(Some "alice", "Alice"); (Some "bob", "Bob")] /\
  option_map (map WeeklyStats.player1)
    (fst (WeeklyStats.detect_rivalries CacheExample.week2 used))
    = Some ["Al"] /\
  option_map (map WeeklyStats.player1)
    (fst (WeeklyStats.detect_rivalries CacheExample.week2
            WeeklyStats.new_generator))
    = Some ["Alice"].
Proof. repeat split; vm_compute; reflexivity. Qed.

(** C8, amended.  [get_all_latest_nicknames] answers from the instance's
    cache: a fresh instance computes the mapping of its argument and stores
    it; once a call on [R1] has succeeded, a call on any [R2] returns the
    mapping of [R1] and leaves the instance as it is, and
    [detect_rivalries R2] names the players by the mapping of [R1]. *)
Theorem nickname_cache_first_call_wins : forall R1 R2 nicks,
  WeeklyStats.latest_nicknames R1 = Some nicks ->
  let used := snd (WeeklyStats.get_all_latest_nicknames R1
                     WeeklyStats.new_generator) in
  WeeklyStats.get_all_latest_nicknames R1 WeeklyStats.new_generator
    = (Some nicks, used) /\
  WeeklyStats.get_all_latest_nicknames R2 used = (Some nicks, used) /\
  WeeklyStats.detect_rivalries R2 used
    = (match WeeklyStats.head_to_head (WeeklyStats.group_by_track R2) with
       | Some rivalry_data =>
           Some (PySort.sort_desc WeeklyStats.fewer_shared
                   (WeeklyStats.filter_map (WeeklyStats.rivalry_of nicks)
                      rivalry_data))
       | None => None
       end, used).
Proof.
  intros R1 R2 nicks H used. subst used.
  unfold WeeklyStats.detect_rivalries, WeeklyStats.get_all_latest_nicknames.
  simpl. rewrite H. simpl. repeat split.
  destruct (WeeklyStats.head_to_head (WeeklyStats.group_by_track R2));
    reflexivity.
Qed.

Lemma nickname_cache_first_call_wins_witness :
  WeeklyStats.get_all_latest_nicknames CacheExample.week2
    (snd (WeeklyStats.get_all_latest_nicknames CacheExample.week1
            WeeklyStats.new_generator))
  = (Some [(Some "alice", "Al"); (Some "bob", "Bobby")],
     snd (WeeklyStats.get_all_latest_nicknames CacheExample.week1
            WeeklyStats.new_generator)).
Proof.
  apply (nickname_cache_first_call_wins CacheExample.week1 CacheExample.week2
           [(Some "alice", "Al"); (Some "bob", "Bobby")]).
  vm_compute. reflexivity.
Defined.

(* ================================================================== *)
(** * The weekend warrior *)
(* ================================================================== *)


Lemma max_by_spec : forall (A : Type) (f : A -> Z) (l : list A) (x : A),
  Py.max_by f l = Some x -> In x l /\ forall y, In y l -> f y <= f x.
Proof.
  intros A f l. induction l as [|a l IH]; intros x H; simpl in H.
  - discriminate.
  - destruct (Py.max_by f l) as [m|] eqn:Em.
    + destruct (IH m eq_refl) as [Hin Hmax].
      destruct (f a <? f m) eqn:E; injection H as <-.
      * apply Z.ltb_lt in E. split; [now right|].
        intros y [<-|Hy]; [lia | now apply Hmax].
      * apply Z.ltb_ge in E. split; [now left|].
        intros y [<-|Hy]; [lia|]. specialize (Hmax y Hy). lia.
    + injection H as <-. destruct l as [|b l'].
      * split; [now left|]. intros y [<-|[]]. lia.
      * simpl in Em. destruct (Py.max_by f l') as [m'|];
          [destruct (f b <? f m')|]; discriminate.
Qed.

Lemma max_by_nonempty : forall (A : Type) (f : A -> Z) (l : list A),
  l <> [] -> Py.max_by f l <> None.
Proof.
  intros A f [|a l] H; [contradiction|]. simpl.
  destruct (Py.max_by f l) as [m|]; [destruct (f a <? f m)|]; discriminate.
Qed.

Section WeekendFacts.
Variable today : Z.

Lemma weekend_step_eq : forall d r,
  WeeklyStats.weekend_step today d r
  = if WeekendSpec.in_weekend today r
    then WeeklyStats.increment d (WeeklyStats.login r) else d.
Proof.
  intros d r. unfold WeeklyStats.weekend_step, WeekendSpec.in_weekend.
  destruct (WeeklyStats.record_date (WeeklyStats.date r)) as [day|];
    [|reflexivity].
  destruct (WeeklyStats.get_weekly_date_range today) as [s e]. simpl.
  destruct ((s <=? day) && (day <=? e)); simpl; [|reflexivity].
  destruct ((WeeklyStats.weekday day =? 5) || (WeeklyStats.weekday day =? 6));
    reflexivity.
Qed.

Lemma weekend_counts_snoc : forall records r,
  WeeklyStats.weekend_counts today (records ++ [r])
  = WeeklyStats.weekend_step today (WeeklyStats.weekend_counts today records) r.
Proof.
  intros. unfold WeeklyStats.weekend_counts. now rewrite fold_left_app.
Qed.

Lemma weekend_counts_nodup : forall records,
  NoDup (ODict.keys (WeeklyStats.weekend_counts today records)).
Proof.
  induction records as [|r records IH] using rev_ind; [constructor|].
  rewrite weekend_counts_snoc, weekend_step_eq.
  destruct (WeekendSpec.in_weekend today r); [|assumption].
  unfold WeeklyStats.increment.
  destruct (ODict.lookup WeeklyStats.opt_eqb
              (WeeklyStats.weekend_counts today records) (WeeklyStats.login r));
    apply NoDup_keys_set; auto using opt_eqb_eq.
Qed.

Lemma increment_lookup_same : forall d k,
  ODict.lookup WeeklyStats.opt_eqb (WeeklyStats.increment d k) k
  = Some (match ODict.lookup WeeklyStats.opt_eqb d k with
          | Some n => n + 1
          | None => 1
          end).
Proof.
  intros d k. unfold WeeklyStats.increment.
  destruct (ODict.lookup WeeklyStats.opt_eqb d k);
    now rewrite lookup_set_same by exact opt_eqb_eq.
Qed.

Lemma increment_lookup_other : forall d k k',
  k <> k' ->
  ODict.lookup WeeklyStats.opt_eqb (WeeklyStats.increment d k) k'
  = ODict.lookup WeeklyStats.opt_eqb d k'.
Proof.
  intros d k k' Hne. unfold WeeklyStats.increment.
  destruct (ODict.lookup WeeklyStats.opt_eqb d k);
    now rewrite lookup_set_other by (exact opt_eqb_eq || exact Hne).
Qed.

(** The dictionary holds, for each player with a weekend record, the
    number of these records. *)
Lemma weekend_counts_lookup : forall records l,
  ODict.lookup WeeklyStats.opt_eqb (WeeklyStats.weekend_counts today records) l
  = if WeekendSpec.weekend_count today records l =? 0 then None
    else Some (WeekendSpec.weekend_count today records l).
Proof.
  induction records as [|r records IH] using rev_ind; intro l; [reflexivity|].
  rewrite weekend_counts_snoc, weekend_step_eq.
  unfold WeekendSpec.weekend_count in *.
  rewrite filter_app, length_app. simpl.
  destruct (WeekendSpec.in_weekend today r) eqn:Ew; simpl.
  - destruct (WeeklyStats.opt_eqb (WeeklyStats.login r) l) eqn:El; simpl.
    + apply opt_eqb_eq in El. subst l.
      rewrite increment_lookup_same, IH.
      generalize (List.length
                    (filter
                       (fun r0 => WeekendSpec.in_weekend today r0
                                  && WeeklyStats.opt_eqb
                                       (WeeklyStats.login r0)
                                       (WeeklyStats.login r))
                       records)) as n.
      intro n.
      destruct (Z.eqb_spec (Z.of_nat n) 0);
        destruct (Z.eqb_spec (Z.of_nat (n + 1)) 0); try lia; f_equal; lia.
    + assert (Hne : WeeklyStats.login r <> l).
      { intro Heq. apply opt_eqb_eq in Heq. congruence. }
      rewrite increment_lookup_other by exact Hne.
      rewrite IH, Nat.add_0_r. reflexivity.
  - rewrite IH, Nat.add_0_r. reflexivity.
Qed.

End WeekendFacts.



(* ================================================================== *)
(** * Rivalry detection: grouping by track *)
(* ================================================================== *)

Lemma append_to_lookup_same : forall d k e,
  ODict.lookup WeeklyStats.opt_eqb (WeeklyStats.append_to d k e) k
  = Some (match ODict.lookup WeeklyStats.opt_eqb d k with
          | Some l => l ++ [e]
          | None => [e]
          end)%list.
Proof.
  intros d k e. unfold WeeklyStats.append_to.
  destruct (ODict.lookup WeeklyStats.opt_eqb d k);
    now rewrite lookup_set_same by exact opt_eqb_eq.
Qed.

Lemma append_to_lookup_other : forall d k e k',
  k <> k' ->
  ODict.lookup WeeklyStats.opt_eqb (WeeklyStats.append_to d k e) k'
  = ODict.lookup WeeklyStats.opt_eqb d k'.
Proof.
  intros d k e k' Hne. unfold WeeklyStats.append_to.
  destruct (ODict.lookup WeeklyStats.opt_eqb d k);
    now rewrite lookup_set_other by (exact opt_eqb_eq || exact Hne).
Qed.

Lemma group_by_track_snoc : forall records r,
  WeeklyStats.group_by_track (records ++ [r])
  = WeeklyStats.group_step (WeeklyStats.group_by_track records) r.
Proof.
  intros. unfold WeeklyStats.group_by_track. now rewrite fold_left_app.
Qed.

Lemma group_by_track_nodup : forall records,
  NoDup (ODict.keys (WeeklyStats.group_by_track records)).
Proof.
  induction records as [|r records IH] using rev_ind; [constructor|].
  rewrite group_by_track_snoc. unfold WeeklyStats.group_step.
  destruct (WeeklyStats.int_or_999 (WeeklyStats.rank r)); [|assumption].
  unfold WeeklyStats.append_to.
  destruct (ODict.lookup WeeklyStats.opt_eqb
              (WeeklyStats.group_by_track records) (WeeklyStats.track r));
    apply NoDup_keys_set; auto using opt_eqb_eq.
Qed.

(** Under a track the first loop stores the entries of the track's records
    of readable rank, and nothing under a track that has none. *)
Lemma group_by_track_lookup : forall records t,
  ODict.lookup WeeklyStats.opt_eqb (WeeklyStats.group_by_track records) t
  = match RivalrySpec.entries_on records t with
    | [] => None
    | es => Some es
    end.
Proof.
  induction records as [|r records IH] using rev_ind; intro t; [reflexivity|].
  rewrite group_by_track_snoc. unfold RivalrySpec.entries_on in *.
  rewrite flat_map_app. simpl. rewrite app_nil_r.
  unfold WeeklyStats.group_step.
  destruct (WeeklyStats.int_or_999 (WeeklyStats.rank r)) as [n|].
  - destruct (WeeklyStats.opt_eqb (WeeklyStats.track r) t) eqn:Et.
    + apply opt_eqb_eq in Et. subst t.
      rewrite append_to_lookup_same, IH.
      destruct (flat_map _ records); reflexivity.
    + assert (Hne : WeeklyStats.track r <> t).
      { intro Heq. apply opt_eqb_eq in Heq. congruence. }
      rewrite append_to_lookup_other by exact Hne.
      rewrite IH, app_nil_r. reflexivity.
  - rewrite IH. destruct (WeeklyStats.opt_eqb (WeeklyStats.track r) t);
      rewrite app_nil_r; reflexivity.
Qed.


(* ================================================================== *)
(** * Rivalry detection: the head-to-head loops *)
(* ================================================================== *)

Lemma award_tracks : forall rd k t l k' t',
  In t' (RivalrySpec.tracks_of (WeeklyStats.award rd k t l) k')
  <-> In t' (RivalrySpec.tracks_of rd k') \/ (k' = k /\ t' = t).
Proof.
  intros rd k t l k' t'. unfold RivalrySpec.tracks_of, WeeklyStats.award.
  destruct (WeeklyStats.pair_eqb k k') eqn:E.
  - apply pair_eqb_eq in E. subst k'.
    rewrite lookup_set_same by exact pair_eqb_eq.
    rewrite (In_keys_set _ opt_eqb_eq).
    destruct (ODict.lookup WeeklyStats.pair_eqb rd k); simpl; intuition auto.
  - assert (Hne : k <> k').
    { intro Heq. apply pair_eqb_eq in Heq. congruence. }
    rewrite lookup_set_other by (exact pair_eqb_eq || exact Hne).
    split; [now left|]. intros [H|[H _]]; [exact H | congruence].
Qed.

Lemma award_wf : forall rd k t l,
  RivalrySpec.wf_rivalries rd ->
  RivalrySpec.wf_rivalries (WeeklyStats.award rd k t l).
Proof.
  intros rd k t l [Hnd Hin]. unfold WeeklyStats.award. split.
  - now apply NoDup_keys_set; [exact pair_eqb_eq|].
  - intros k' td' Hlk. destruct (WeeklyStats.pair_eqb k k') eqn:E.
    + apply pair_eqb_eq in E. subst k'.
      rewrite lookup_set_same in Hlk by exact pair_eqb_eq.
      injection Hlk as <-. apply NoDup_keys_set; [exact opt_eqb_eq|].
      destruct (ODict.lookup WeeklyStats.pair_eqb rd k) as [td|] eqn:Etd.
      * now apply (Hin k).
      * constructor.
    + assert (Hne : k <> k').
      { intro Heq. apply pair_eqb_eq in Heq. congruence. }
      rewrite lookup_set_other in Hlk by (exact pair_eqb_eq || exact Hne).
      now apply (Hin k').
Qed.

Lemma compare_pair_spec : forall t best rd p,
  RivalrySpec.comparable best p ->
  RivalrySpec.wf_rivalries rd ->
  exists rd',
    WeeklyStats.compare_pair t best rd p = Some rd' /\
    RivalrySpec.wf_rivalries rd' /\
    forall k' t',
      In t' (RivalrySpec.tracks_of rd' k')
      <-> In t' (RivalrySpec.tracks_of rd k')
          \/ (t' = t /\ RivalrySpec.decided best p k').
Proof.
  intros t best rd p (l1 & l2 & r1 & r2 & -> & H1 & H2) Hwf.
  unfold WeeklyStats.compare_pair. rewrite H1, H2.
  fold (RivalrySpec.sorted_key l1 l2).
  assert (Hdec : forall k', RivalrySpec.decided best (Some l1, Some l2) k'
                   <-> k' = RivalrySpec.sorted_key l1 l2
                       /\ WeeklyStats.e_rank r1 <> WeeklyStats.e_rank r2).
  { intro k'. split.
    - intros (a & b & ra & rb & [= <- <-] & Ha & Hb & Hk & Hr).
      rewrite H1 in Ha. rewrite H2 in Hb.
      injection Ha as <-. injection Hb as <-. auto.
    - intros [Hk Hr]. exists l1, l2, r1, r2. auto. }
  destruct (Z.ltb_spec (WeeklyStats.e_rank r1) (WeeklyStats.e_rank r2)).
  - eexists. split; [reflexivity|]. split; [now apply award_wf|].
    intros k' t'. rewrite award_tracks, Hdec.
    split; (intros [Hl|Hr]; [now left | right]); intuition lia.
  - destruct (Z.ltb_spec (WeeklyStats.e_rank r2) (WeeklyStats.e_rank r1)).
    + eexists. split; [reflexivity|]. split; [now apply award_wf|].
      intros k' t'. rewrite award_tracks, Hdec.
      split; (intros [Hl|Hr]; [now left | right]); intuition lia.
    + exists rd. split; [reflexivity|]. split; [assumption|].
      intros k' t'. rewrite Hdec. split; [now left|].
      intros [Hl|[_ [_ Hr]]]; [assumption | lia].
Qed.

Lemma loop_pairs_spec : forall t best ps rd,
  (forall p, In p ps -> RivalrySpec.comparable best p) ->
  RivalrySpec.wf_rivalries rd ->
  exists rd',
    WeeklyStats.loop (WeeklyStats.compare_pair t best) ps rd = Some rd' /\
    RivalrySpec.wf_rivalries rd' /\
    forall k' t',
      In t' (RivalrySpec.tracks_of rd' k')
      <-> In t' (RivalrySpec.tracks_of rd k')
          \/ (t' = t /\ exists p, In p ps /\ RivalrySpec.decided best p k').
Proof.
  intros t best ps. induction ps as [|p ps IH]; intros rd Hcmp Hwf; simpl.
  - exists rd. split; [reflexivity|]. split; [assumption|].
    intros k' t'. split; [now left|].
    intros [H|[_ [p [[] _]]]]. exact H.
  - destruct (compare_pair_spec t best rd p (Hcmp p (or_introl eq_refl)) Hwf)
      as (rd1 & Hstep & Hwf1 & Htr1).
    rewrite Hstep.
    destruct (IH rd1 (fun q Hq => Hcmp q (or_intror Hq)) Hwf1)
      as (rd2 & Hloop & Hwf2 & Htr2).
    exists rd2. split; [exact Hloop|]. split; [exact Hwf2|].
    intros k' t'. rewrite Htr2, Htr1. split.
    + intros [[H|[Ht Hd]]|[Ht [q [Hq Hd]]]].
      * now left.
      * right. split; [exact Ht|]. exists p. split; [now left | exact Hd].
      * right. split; [exact Ht|]. exists q. split; [now right | exact Hd].
    + intros [H|[Ht [q [[<-|Hq] Hd]]]].
      * left. now left.
      * left. right. now split.
      * right. split; [exact Ht|]. exists q. now split.
Qed.

Lemma pairs_In : forall (A : Type) (l : list A) (x y : A),
  In (x, y) (WeeklyStats.pairs l) -> In x l /\ In y l.
Proof.
  intros A l. induction l as [|a l IH]; intros x y H; simpl in H; [contradiction|].
  apply in_app_or in H. destruct H as [H|H].
  - apply in_map_iff in H. destruct H as [z [[= <- <-] Hz]].
    split; [now left | now right].
  - destruct (IH _ _ H). split; now right.
Qed.

Lemma pairs_distinct : forall (A : Type) (l : list A) (x y : A),
  NoDup l -> In (x, y) (WeeklyStats.pairs l) -> x <> y.
Proof.
  intros A l. induction l as [|a l IH]; intros x y Hnd H; simpl in H;
    [contradiction|].
  inversion Hnd as [|? ? Hnotin Hnd']; subst.
  apply in_app_or in H. destruct H as [H|H].
  - apply in_map_iff in H. destruct H as [z [[= <- <-] Hz]].
    intros ->. contradiction.
  - now apply IH.
Qed.

Lemma pairs_complete : forall (A : Type) (l : list A) (x y : A),
  In x l -> In y l -> x <> y ->
  In (x, y) (WeeklyStats.pairs l) \/ In (y, x) (WeeklyStats.pairs l).
Proof.
  intros A l. induction l as [|a l IH]; intros x y Hx Hy Hne; simpl;
    [contradiction|].
  destruct Hx as [<-|Hx]; destruct Hy as [<-|Hy].
  - contradiction.
  - left. apply in_or_app. left. now apply in_map.
  - right. apply in_or_app. left. now apply in_map.
  - destruct (IH x y Hx Hy Hne) as [H|H]; [left | right];
      apply in_or_app; now right.
Qed.

Lemma player_best_best_of : forall es,
  WeeklyStats.player_best es
  = BestOf.run WeeklyStats.opt_eqb login_key WeeklyStats.e_rank es.
Proof.
  intro es. unfold WeeklyStats.player_best, BestOf.run.
  apply fold_left_ext_eq. reflexivity.
Qed.

(** A key of [player_best] is the login of an entry of the track, stored
    with an entry of that login. *)
Lemma player_best_key : forall es p,
  In p (ODict.keys (WeeklyStats.player_best es)) ->
  exists e, ODict.lookup WeeklyStats.opt_eqb (WeeklyStats.player_best es) p
            = Some e
            /\ In e es /\ WeeklyStats.e_login e = p.
Proof.
  intros es p Hp.
  destruct (ODict.lookup WeeklyStats.opt_eqb (WeeklyStats.player_best es) p)
    as [e|] eqn:E.
  - exists e. split; [reflexivity|].
    rewrite player_best_best_of in E.
    destruct (run_inv WeeklyStats.opt_eqb opt_eqb_eq login_key
                WeeklyStats.e_rank es) as (_ & Hbest & _).
    destruct (Hbest _ _ E) as [Hk (l1 & l2 & -> & _)].
    split; [apply in_or_app; right; now left|].
    unfold login_key in Hk. congruence.
  - exfalso. apply (lookup_None_keys _ opt_eqb_eq) in E. contradiction.
Qed.

Lemma player_best_finds : forall es e,
  In e es ->
  exists e', ODict.lookup WeeklyStats.opt_eqb (WeeklyStats.player_best es)
               (WeeklyStats.e_login e) = Some e'
             /\ In e' es
             /\ WeeklyStats.e_login e' = WeeklyStats.e_login e.
Proof.
  intros es e Hin.
  destruct (run_inv WeeklyStats.opt_eqb opt_eqb_eq login_key
              WeeklyStats.e_rank es) as (_ & Hbest & Hall).
  rewrite player_best_best_of.
  destruct (ODict.lookup WeeklyStats.opt_eqb
              (BestOf.run WeeklyStats.opt_eqb login_key WeeklyStats.e_rank es)
              (WeeklyStats.e_login e)) as [e'|] eqn:E.
  - exists e'. split; [reflexivity|].
    destruct (Hbest _ _ E) as [Hk (l1 & l2 & -> & _)].
    split; [apply in_or_app; right; now left|].
    unfold login_key in Hk. congruence.
  - exfalso. exact (Hall e (WeeklyStats.e_login e) Hin eq_refl E).
Qed.

Lemma players_of_In : forall best p,
  In p (WeeklyStats.players_of best)
  <-> In p (ODict.keys best) /\ p <> Some WeeklyStats.excluded_login.
Proof.
  intros best p. unfold WeeklyStats.players_of. rewrite filter_In.
  split; intros [H1 H2]; (split; [exact H1|]).
  - intro Heq. apply opt_eqb_eq in Heq. rewrite Heq in H2. discriminate.
  - destruct (WeeklyStats.opt_eqb p (Some WeeklyStats.excluded_login)) eqn:E;
      [|reflexivity].
    apply opt_eqb_eq in E. contradiction.
Qed.

Lemma players_of_nodup : forall es,
  NoDup (WeeklyStats.players_of (WeeklyStats.player_best es)).
Proof.
  intro es. unfold WeeklyStats.players_of. apply NoDup_filter.
  rewrite player_best_best_of.
  apply (run_inv WeeklyStats.opt_eqb opt_eqb_eq login_key WeeklyStats.e_rank es).
Qed.

Lemma players_comparable : forall es p,
  logins_are_strings es ->
  In p (WeeklyStats.pairs (WeeklyStats.players_of (WeeklyStats.player_best es)))
  -> RivalrySpec.comparable (WeeklyStats.player_best es) p.
Proof.
  intros es [p1 p2] Hstr Hp. apply pairs_In in Hp. destruct Hp as [H1 H2].
  apply players_of_In in H1. apply players_of_In in H2.
  destruct H1 as [H1 _]. destruct H2 as [H2 _].
  destruct (player_best_key es p1 H1) as (e1 & Hl1 & Hin1 & He1).
  destruct (player_best_key es p2 H2) as (e2 & Hl2 & Hin2 & He2).
  destruct (Hstr e1 Hin1) as [l1 Hs1]. destruct (Hstr e2 Hin2) as [l2 Hs2].
  exists l1, l2, e1, e2. repeat split; congruence.
Qed.

Lemma track_step_spec : forall t es rd,
  logins_are_strings es ->
  RivalrySpec.wf_rivalries rd ->
  exists rd',
    WeeklyStats.track_step rd (t, es) = Some rd' /\
    RivalrySpec.wf_rivalries rd' /\
    forall k' t',
      In t' (RivalrySpec.tracks_of rd' k')
      <-> In t' (RivalrySpec.tracks_of rd k')
          \/ (t' = t /\ RivalrySpec.track_decided es k').
Proof.
  intros t es rd Hstr Hwf. unfold WeeklyStats.track_step.
  destruct (Z.leb_spec 2 (Z.of_nat (List.length es))) as [Hlen|Hlen].
  - destruct (loop_pairs_spec t (WeeklyStats.player_best es)
                (WeeklyStats.pairs
                   (WeeklyStats.players_of (WeeklyStats.player_best es)))
                rd (fun p Hp => players_comparable es p Hstr Hp) Hwf)
      as (rd' & Hloop & Hwf' & Htr).
    exists rd'. split; [exact Hloop|]. split; [exact Hwf'|].
    intros k' t'. rewrite Htr. unfold RivalrySpec.track_decided.
    split; (intros [H|[Ht Hd]]; [now left | right; split; [exact Ht|]]).
    + split; [lia | exact Hd].
    + apply Hd.
  - exists rd. split; [reflexivity|]. split; [exact Hwf|].
    intros k' t'. split; [now left|].
    intros [H|[_ [Hl _]]]; [exact H | lia].
Qed.

Lemma loop_tracks_spec : forall items rd,
  (forall t es, In (t, es) items -> logins_are_strings es) ->
  RivalrySpec.wf_rivalries rd ->
  exists rd',
    WeeklyStats.loop WeeklyStats.track_step items rd = Some rd' /\
    RivalrySpec.wf_rivalries rd' /\
    forall k' t',
      In t' (RivalrySpec.tracks_of rd' k')
      <-> In t' (RivalrySpec.tracks_of rd k')
          \/ exists es, In (t', es) items /\ RivalrySpec.track_decided es k'.
Proof.
  induction items as [|[t es] items IH]; intros rd Hstr Hwf; simpl.
  - exists rd. split; [reflexivity|]. split; [assumption|].
    intros k' t'. split; [now left|]. intros [H|[es [[] _]]]. exact H.
  - destruct (track_step_spec t es rd (Hstr t es (or_introl eq_refl)) Hwf)
      as (rd1 & Hstep & Hwf1 & Htr1).
    unfold WeeklyStats.track_step in Hstep. rewrite Hstep.
    destruct (IH rd1 (fun t' es' H => Hstr t' es' (or_intror H)) Hwf1)
      as (rd2 & Hloop & Hwf2 & Htr2).
    exists rd2. split; [exact Hloop|]. split; [exact Hwf2|].
    intros k' t'. rewrite Htr2, Htr1. split.
    + intros [[H|[-> Hd]]|[es' [Hin Hd]]].
      * now left.
      * right. exists es. split; [now left | exact Hd].
      * right. exists es'. split; [now right | exact Hd].
    + intros [H|[es' [[[= <- <-]|Hin] Hd]]].
      * left. now left.
      * left. right. now split.
      * right. exists es'. now split.
Qed.

(* ================================================================== *)
(** * Rivalry detection: from the records to the reported pairs *)
(* ================================================================== *)

Lemma sorted_key_sym : forall a b,
  a <> b -> RivalrySpec.sorted_key a b = RivalrySpec.sorted_key b a.
Proof.
  intros a b Hne. unfold RivalrySpec.sorted_key, String.ltb.
  rewrite (String.compare_antisym a b).
  destruct (b ?= a)%string eqn:E; simpl; try reflexivity.
  apply String.compare_eq_iff in E. congruence.
Qed.

Lemma sorted_key_cases : forall a b k,
  k = RivalrySpec.sorted_key a b -> k = (a, b) \/ k = (b, a).
Proof.
  intros a b k ->. unfold RivalrySpec.sorted_key.
  destruct (b <? a)%string; auto.
Qed.

Lemma entries_on_In : forall records t e,
  In e (RivalrySpec.entries_on records t)
  <-> exists r n,
        In r records /\ WeeklyStats.track r = t /\
        WeeklyStats.int_or_999 (WeeklyStats.rank r) = Some n /\
        e = WeeklyStats.mkEntry (WeeklyStats.login r) (WeeklyStats.nick r) n
              (WeeklyStats.time r).
Proof.
  intros records t e. unfold RivalrySpec.entries_on. rewrite in_flat_map.
  split.
  - intros [r [Hr He]].
    destruct (WeeklyStats.opt_eqb (WeeklyStats.track r) t) eqn:Et;
      [|contradiction].
    apply opt_eqb_eq in Et.
    destruct (WeeklyStats.int_or_999 (WeeklyStats.rank r)) as [n|] eqn:En;
      [|contradiction].
    destruct He as [<-|[]]. exists r, n. auto.
  - intros (r & n & Hr & Ht & Hn & ->). exists r. split; [exact Hr|].
    apply opt_eqb_eq in Ht. rewrite Ht, Hn. now left.
Qed.

Lemma group_by_track_In : forall records t es,
  In (t, es) (WeeklyStats.group_by_track records)
  <-> es = RivalrySpec.entries_on records t /\ es <> [].
Proof.
  intros records t es. split.
  - intro H.
    apply (In_lookup _ opt_eqb_eq) in H; [|apply group_by_track_nodup].
    rewrite group_by_track_lookup in H.
    destruct (RivalrySpec.entries_on records t); [discriminate|].
    injection H as <-. split; [reflexivity | discriminate].
  - intros [-> Hne]. apply (lookup_In _ opt_eqb_eq).
    rewrite group_by_track_lookup.
    destruct (RivalrySpec.entries_on records t); [contradiction | reflexivity].
Qed.

(** On records whose logins are strings the head-to-head loops raise
    nothing, and a track stands under a rivalry key exactly when the track
    awards a win under that key. *)
Lemma head_to_head_spec : forall records,
  logins_present records ->
  exists rd,
    WeeklyStats.head_to_head (WeeklyStats.group_by_track records) = Some rd /\
    RivalrySpec.wf_rivalries rd /\
    forall k t,
      In t (RivalrySpec.tracks_of rd k)
      <-> RivalrySpec.track_decided (RivalrySpec.entries_on records t) k.
Proof.
  intros records Hlog. unfold WeeklyStats.head_to_head.
  destruct (loop_tracks_spec (WeeklyStats.group_by_track records) [])
    as (rd & Hloop & Hwf & Htr).
  - intros t es Hin e He. apply group_by_track_In in Hin.
    destruct Hin as [-> _]. apply entries_on_In in He.
    destruct He as (r & n & Hr & _ & _ & ->). simpl. now apply Hlog.
  - split; [constructor | discriminate].
  - exists rd. split; [exact Hloop|]. split; [exact Hwf|].
    intros k t. rewrite Htr. split.
    + intros [[]|[es [Hin Hd]]]. apply group_by_track_In in Hin.
      destruct Hin as [-> _]. exact Hd.
    + intro Hd. right. exists (RivalrySpec.entries_on records t).
      split; [|exact Hd]. apply group_by_track_In. split; [reflexivity|].
      destruct Hd as [Hlen _].
      destruct (RivalrySpec.entries_on records t); [simpl in Hlen; lia|].
      discriminate.
Qed.

Lemma filter_map_In : forall (A B : Type) (f : A -> option B) (l : list A) y,
  In y (WeeklyStats.filter_map f l) <-> exists x, In x l /\ f x = Some y.
Proof.
  intros A B f l y. induction l as [|a l IH]; simpl.
  - split; [contradiction | intros [x [[] _]]].
  - destruct (f a) as [b|] eqn:E; simpl; rewrite IH; split.
    + intros [<-|[x [Hx Hf]]]; [exists a | exists x]; auto.
    + intros [x [[<-|Hx] Hf]]; [left; congruence | right; eauto].
    + intros [x [Hx Hf]]. exists x. auto.
    + intros [x [[<-|Hx] Hf]]; [congruence | eauto].
Qed.

(** What [rivalry_of] appends for a key and its tracks. *)
Lemma rivalry_of_spec : forall nicks a b td r,
  WeeklyStats.rivalry_of nicks ((a, b), td) = Some r ->
  (3 <= List.length td)%nat /\
  WeeklyStats.tracks r = ODict.keys td /\
  WeeklyStats.shared_tracks r = Z.of_nat (List.length (WeeklyStats.tracks r)) /\
  RivalrySpec.names nicks r a b.
Proof.
  intros nicks a b td r H. unfold WeeklyStats.rivalry_of in H.
  destruct (Z.leb_spec 3 (Z.of_nat (List.length td))) as [Hlen|Hlen];
    [|discriminate].
  unfold RivalrySpec.names.
  destruct (WeeklyStats.total_wins td b <? WeeklyStats.total_wins td a);
    [|destruct (WeeklyStats.total_wins td a <? WeeklyStats.total_wins td b);
      [|destruct (WeeklyStats.nick_of nicks a <? WeeklyStats.nick_of nicks b)%string]];
    injection H as <-; simpl; unfold ODict.keys; rewrite length_map;
    (split; [lia|]); (split; [reflexivity|]); (split; [reflexivity|]); auto.
Qed.

Lemma rivalry_of_total : forall nicks k td,
  (3 <= List.length td)%nat ->
  exists r, WeeklyStats.rivalry_of nicks (k, td) = Some r.
Proof.
  intros nicks [a b] td Hlen. unfold WeeklyStats.rivalry_of.
  destruct (Z.leb_spec 3 (Z.of_nat (List.length td))) as [_|Hlt]; [|lia].
  destruct (WeeklyStats.total_wins td b <? WeeklyStats.total_wins td a);
    [|destruct (WeeklyStats.total_wins td a <? WeeklyStats.total_wins td b);
      [|destruct (WeeklyStats.nick_of nicks a <? WeeklyStats.nick_of nicks b)%string]];
    eexists; reflexivity.
Qed.

Lemma NoDup_map_inj : forall (A B : Type) (f : A -> B) (l : list A) (x y : A),
  NoDup (map f l) -> In x l -> In y l -> f x = f y -> x = y.
Proof.
  intros A B f l x y. induction l as [|a l IH]; intros Hnd Hx Hy Hf;
    [contradiction|].
  simpl in Hnd. inversion Hnd as [|? ? Hnotin Hnd']; subst.
  destruct Hx as [<-|Hx]; destruct Hy as [<-|Hy].
  - reflexivity.
  - exfalso. apply Hnotin. rewrite Hf. now apply in_map.
  - exfalso. apply Hnotin. rewrite <- Hf. now apply in_map.
  - now apply IH.
Qed.

Lemma two_in_length : forall (A : Type) (l : list A) (x y : A),
  In x l -> In y l -> x <> y -> (2 <= List.length l)%nat.
Proof.
  intros A [|a [|b l]] x y Hx Hy Hne; simpl in *; try contradiction; [|lia].
  destruct Hx as [<-|[]]. destruct Hy as [<-|[]]. contradiction.
Qed.

(** A track that awards a win under a key has a record of each of the two
    players, who are distinct and are not the excluded login. *)
Lemma track_decided_sound : forall records t a b,
  RivalrySpec.track_decided (RivalrySpec.entries_on records t) (a, b) ->
  a <> b /\ a <> WeeklyStats.excluded_login /\ b <> WeeklyStats.excluded_login
  /\ RivalrySpec.on_track records a t /\ RivalrySpec.on_track records b t.
Proof.
  intros records t a b [_ [p [Hp (l1 & l2 & r1 & r2 & -> & _ & _ & Hk & _)]]].
  pose proof (pairs_distinct _ _ _ _
                (players_of_nodup (RivalrySpec.entries_on records t)) Hp) as Hne.
  apply pairs_In in Hp. destruct Hp as [H1 H2].
  apply players_of_In in H1. apply players_of_In in H2.
  destruct H1 as [H1 Hx1]. destruct H2 as [H2 Hx2].
  destruct (player_best_key _ _ H1) as (e1 & _ & Hin1 & He1).
  destruct (player_best_key _ _ H2) as (e2 & _ & Hin2 & He2).
  apply entries_on_In in Hin1. destruct Hin1 as (ra & n1 & Hra & Hta & _ & ->).
  apply entries_on_In in Hin2. destruct Hin2 as (rb & n2 & Hrb & Htb & _ & ->).
  simpl in He1, He2.
  assert (O1 : RivalrySpec.on_track records l1 t) by (exists ra; auto).
  assert (O2 : RivalrySpec.on_track records l2 t) by (exists rb; auto).
  assert (N1 : l1 <> WeeklyStats.excluded_login) by congruence.
  assert (N2 : l2 <> WeeklyStats.excluded_login) by congruence.
  assert (N : l1 <> l2) by congruence.
  destruct (sorted_key_cases _ _ _ Hk) as [[= -> ->]|[= -> ->]]; auto 10.
Qed.

(** On records with one record per (player, track) pair, a track on which
    two players other than the excluded login have readable ranks that
    differ awards a win under their key. *)
Lemma decided_on_track_decided : forall records a b t,
  NoDup (map WeeklyStatsSpec.pair_of records) ->
  a <> WeeklyStats.excluded_login -> b <> WeeklyStats.excluded_login ->
  RivalrySpec.decided_on records a b t ->
  RivalrySpec.track_decided (RivalrySpec.entries_on records t)
    (RivalrySpec.sorted_key a b).
Proof.
  intros records a b t Hnd Ha Hb
    (ra & rb & x & y & Hra & Hrb & Hla & Hta & Hlb & Htb & Hx & Hy & Hxy).
  assert (Hab : a <> b).
  { intros ->. apply Hxy.
    assert (ra = rb).
    { apply (NoDup_map_inj _ _ WeeklyStatsSpec.pair_of records); auto.
      unfold WeeklyStatsSpec.pair_of. congruence. }
    subst rb. congruence. }
  set (es := RivalrySpec.entries_on records t).
  set (ea := WeeklyStats.mkEntry (WeeklyStats.login ra) (WeeklyStats.nick ra) x
               (WeeklyStats.time ra)).
  set (eb := WeeklyStats.mkEntry (WeeklyStats.login rb) (WeeklyStats.nick rb) y
               (WeeklyStats.time rb)).
  assert (Hea : In ea es) by (apply entries_on_In; exists ra, x; auto).
  assert (Heb : In eb es) by (apply entries_on_In; exists rb, y; auto).
  assert (Hbest : forall r l n e,
            In r records -> WeeklyStats.login r = Some l ->
            WeeklyStats.track r = t ->
            WeeklyStats.int_or_999 (WeeklyStats.rank r) = Some n ->
            e = WeeklyStats.mkEntry (WeeklyStats.login r) (WeeklyStats.nick r) n
                  (WeeklyStats.time r) ->
            exists e',
              ODict.lookup WeeklyStats.opt_eqb (WeeklyStats.player_best es)
                (Some l) = Some e'
              /\ WeeklyStats.e_rank e' = n).
  { intros r l n e Hr Hl Ht Hn ->.
    destruct (player_best_finds es
                (WeeklyStats.mkEntry (WeeklyStats.login r) (WeeklyStats.nick r)
                   n (WeeklyStats.time r)))
      as (e' & Hlk & Hin' & Hlog').
    { apply entries_on_In. exists r, n. auto. }
    simpl in Hlk, Hlog'. rewrite Hl in Hlk, Hlog'.
    exists e'. split; [exact Hlk|].
    apply entries_on_In in Hin'.
    destruct Hin' as (r' & n' & Hr' & Ht' & Hn' & ->). simpl in *.
    assert (r' = r).
    { apply (NoDup_map_inj _ _ WeeklyStatsSpec.pair_of records); auto.
      unfold WeeklyStatsSpec.pair_of. congruence. }
    subst r'. congruence. }
  destruct (Hbest ra a x ea Hra Hla Hta Hx eq_refl) as (ea' & Hlka & Hrka).
  destruct (Hbest rb b y eb Hrb Hlb Htb Hy eq_refl) as (eb' & Hlkb & Hrkb).
  assert (Hpa : In (Some a) (WeeklyStats.players_of (WeeklyStats.player_best es))).
  { apply players_of_In. split; [|congruence].
    apply (lookup_In _ opt_eqb_eq) in Hlka.
    change (Some a) with (fst (Some a, ea')). now apply in_map. }
  assert (Hpb : In (Some b) (WeeklyStats.players_of (WeeklyStats.player_best es))).
  { apply players_of_In. split; [|congruence].
    apply (lookup_In _ opt_eqb_eq) in Hlkb.
    change (Some b) with (fst (Some b, eb')). now apply in_map. }
  split.
  - apply (two_in_length _ es ea eb Hea Heb).
    intro Heq. apply Hab.
    assert (WeeklyStats.e_login ea = WeeklyStats.e_login eb) by now rewrite Heq.
    simpl in *. congruence.
  - destruct (pairs_complete _ _ (Some a) (Some b) Hpa Hpb) as [Hp|Hp];
      [congruence| |].
    + exists (Some a, Some b). split; [exact Hp|].
      exists a, b, ea', eb'. repeat split; auto. congruence.
    + exists (Some b, Some a). split; [exact Hp|].
      exists b, a, eb', ea'. repeat split; auto.
      * now apply sorted_key_sym.
      * congruence.
Qed.

Lemma weekly_dedup_keeps_first_best : forall records,
  keeps_first_best WeeklyStatsSpec.pair_of WeeklyStatsSpec.rank_of records
    (WeeklyStats.deduplicate_records records).
Proof.
  intro records. rewrite weekly_dedup_best_of.
  apply run_keeps_first_best with
    (valid := fun p => negb (negb (Py.truthy (fst p))
                             || negb (Py.truthy (snd p)))).
  - exact opt_pair_eqb_eq.
  - intro r. unfold WeeklyStatsSpec.key_of, WeeklyStatsSpec.pair_of. simpl.
    destruct (negb (Py.truthy (WeeklyStats.login r))
              || negb (Py.truthy (WeeklyStats.track r)));
      reflexivity.
Qed.

Lemma weekly_dedup_logins : forall records,
  logins_present (WeeklyStats.deduplicate_records records).
Proof.
  intros records r Hr. rewrite weekly_dedup_best_of in Hr.
  unfold ODict.values in Hr. apply in_map_iff in Hr.
  destruct Hr as [[k r'] [<- Hin]]. simpl.
  destruct (run_tagged _ opt_pair_eqb_eq _ _ _ _ _ Hin) as [Hk _].
  unfold WeeklyStatsSpec.key_of in Hk.
  destruct (WeeklyStats.login r') as [l|]; [now exists l|].
  simpl in Hk. discriminate.
Qed.

(** The rivalries reported on records whose logins are strings, given the
    nickname mapping the call obtains. *)
Lemma detect_rivalries_spec : forall records self nicks,
  logins_present records ->
  fst (WeeklyStats.get_all_latest_nicknames records self) = Some nicks ->
  exists rd result,
    WeeklyStats.head_to_head (WeeklyStats.group_by_track records) = Some rd /\
    RivalrySpec.wf_rivalries rd /\
    (forall k t,
       In t (RivalrySpec.tracks_of rd k)
       <-> RivalrySpec.track_decided (RivalrySpec.entries_on records t) k) /\
    fst (WeeklyStats.detect_rivalries records self) = Some result /\
    forall r, In r result
              <-> exists k td, In (k, td) rd
                               /\ WeeklyStats.rivalry_of nicks (k, td) = Some r.
Proof.
  intros records self nicks Hlog Hn.
  destruct (head_to_head_spec records Hlog) as (rd & Hh & Hwf & Htr).
  exists rd. unfold WeeklyStats.detect_rivalries.
  destruct (WeeklyStats.get_all_latest_nicknames records self) as [[m|] g];
    cbn [fst] in Hn; [|discriminate].
  injection Hn as ->. rewrite Hh. cbn [fst].
  eexists. split; [reflexivity|]. split; [exact Hwf|]. split; [exact Htr|].
  split; [reflexivity|]. intro r. split.
  - intro Hin.
    apply (Permutation_in _
             (Permutation_sym (sort_desc_perm WeeklyStats.fewer_shared _)))
      in Hin.
    apply filter_map_In in Hin. destruct Hin as [[k td] [Hin Hf]]. eauto.
  - intros (k & td & Hin & Hf).
    apply (Permutation_in _ (sort_desc_perm WeeklyStats.fewer_shared _)).
    apply filter_map_In. exists (k, td). auto.
Qed.

Lemma nick_step_total : forall st r,
  dates_are_strings st -> WeeklyStats.date r <> None ->
  exists st', WeeklyStats.nick_step st r = Some st' /\ dates_are_strings st'.
Proof.
  intros [nicks dates] r Hinv Hdate. unfold WeeklyStats.nick_step.
  assert (Hupd : dates_are_strings
            (ODict.set WeeklyStats.opt_eqb nicks (WeeklyStats.login r)
               (Py.get (WeeklyStats.nick r) ""),
             ODict.set WeeklyStats.opt_eqb dates (WeeklyStats.login r)
               (WeeklyStats.date r))).
  { intros l d. simpl.
    destruct (WeeklyStats.opt_eqb (WeeklyStats.login r) l) eqn:E.
    - apply opt_eqb_eq in E. subst l.
      rewrite lookup_set_same by exact opt_eqb_eq. congruence.
    - assert (Hne : WeeklyStats.login r <> l).
      { intro Heq. apply opt_eqb_eq in Heq. congruence. }
      rewrite lookup_set_other by (exact opt_eqb_eq || exact Hne).
      apply (Hinv l d). }
  destruct (WeeklyStats.nick r) as [n|]; [|eauto].
  destruct (n =? "")%string; [eauto|].
  simpl in Hupd.
  destruct (ODict.lookup WeeklyStats.opt_eqb dates (WeeklyStats.login r))
    as [latest|] eqn:E; [|eauto].
  destruct (WeeklyStats.date r) as [d|]; [|congruence].
  destruct latest as [d0|]; [|exfalso; exact (Hinv _ _ E eq_refl)].
  destruct (d0 <? d)%string; eauto.
Qed.

(** When every record carries a date, as the rows of [get_latest_data] do,
    the nickname mapping is computed without an exception. *)
Lemma latest_nicknames_total : forall records,
  (forall r, In r records -> WeeklyStats.date r <> None) ->
  exists nicks, WeeklyStats.latest_nicknames records = Some nicks.
Proof.
  intros records Hdates. unfold WeeklyStats.latest_nicknames.
  assert (H : forall l st,
            dates_are_strings st ->
            (forall r, In r l -> WeeklyStats.date r <> None) ->
            exists st', WeeklyStats.loop WeeklyStats.nick_step l st = Some st').
  { induction l as [|r l IH]; intros st Hinv Hd; simpl; [eauto|].
    destruct (nick_step_total st r Hinv (Hd r (or_introl eq_refl)))
      as (st1 & Hs & Hinv1).
    rewrite Hs. apply IH; [exact Hinv1|]. intros r' Hr'. apply Hd. now right. }
  destruct (H records ([], [])) as [st' Hst'].
  - intros l d. discriminate.
  - exact Hdates.
  - rewrite Hst'. simpl. eauto.
Qed.

(** X3.  On the deduplication of records that all carry a date, as the
    rows of [get_latest_data] do, [detect_rivalries] raises nothing,
    whatever the instance's cache holds. *)
Lemma detect_rivalries_total : forall raw self,
  (forall r, In r raw -> WeeklyStats.date r <> None) ->
  exists result,
    fst (WeeklyStats.detect_rivalries (WeeklyStats.deduplicate_records raw) self)
    = Some result.
Proof.
  intros raw self Hdates.
  assert (Hn : exists nicks,
            fst (WeeklyStats.get_all_latest_nicknames
                   (WeeklyStats.deduplicate_records raw) self) = Some nicks).
  { unfold WeeklyStats.get_all_latest_nicknames.
    destruct (WeeklyStats.latest_nicks_cache self) as [c|]; [simpl; eauto|].
    destruct (latest_nicknames_total (WeeklyStats.deduplicate_records raw))
      as [nicks Hnicks].
    - intros r Hr. apply Hdates.
      destruct (weekly_dedup_keeps_first_best raw) as [_ Hkept].
      destruct (Hkept r Hr) as (before & after & -> & _).
      apply in_or_app. right. now left.
    - rewrite Hnicks. simpl. eauto. }
  destruct Hn as [nicks Hn].
  destruct (detect_rivalries_spec _ self nicks (weekly_dedup_logins raw) Hn)
    as (rd & result & _ & _ & _ & Hres & _).
  now exists result.
Qed.

(** C4, as the code has it: the claim fails.  On [tied_week] Alice and Bob
    both have a record on each of three tracks, with equal ranks on the
    third, and no rivalry is reported; on [excluded_week] Alice and the
    excluded login meet on three tracks with different ranks on each, and
    no rivalry is reported either. *)
Lemma shared_tracks_do_not_suffice :
  WeeklyStats.deduplicate_records RivalrySpec.tied_week = RivalrySpec.tied_week /\
  map (fun r => (WeeklyStats.login r, WeeklyStats.track r, WeeklyStats.rank r))
    RivalrySpec.tied_week
  = [ (Some "alice", Some "B01", Some "1"); (Some "bob", Some "B01", Some "2");
      (Some "alice", Some "B02", Some "3"); (Some "bob", Some "B02", Some "2");
      (Some "alice", Some "B03", Some "4"); (Some "bob", Some "B03", Some "4") ] /\
  fst (WeeklyStats.detect_rivalries
         (WeeklyStats.deduplicate_records RivalrySpec.tied_week)
         WeeklyStats.new_generator) = Some [] /\
  fst (WeeklyStats.detect_rivalries
         (WeeklyStats.deduplicate_records RivalrySpec.excluded_week)
         WeeklyStats.new_generator) = Some [].
Proof. repeat split; vm_compute; reflexivity. Qed.

(** C4, amended.  On a deduplicated record set, when the nickname mapping
    is obtained, [detect_rivalries] returns a list such that:
    - a reported rivalry is between two distinct players, neither of them
      the excluded login, and lists at least 3 distinct tracks on each of
      which both have a record; its [shared_tracks] is the number of the
      tracks listed (so a pair that meets on fewer than 3 tracks is never
      reported);
    - two players other than the excluded login are reported as a rivalry
      whenever there are 3 distinct tracks on each of which both have a
      record of readable rank and the two ranks differ. *)
Theorem rivalries_threshold :
  forall raw self nicks,
  fst (WeeklyStats.get_all_latest_nicknames
         (WeeklyStats.deduplicate_records raw) self) = Some nicks ->
  exists result,
    fst (WeeklyStats.detect_rivalries (WeeklyStats.deduplicate_records raw) self)
    = Some result /\
    (forall r, In r result ->
       exists a b,
         a <> b /\ a <> WeeklyStats.excluded_login /\
         b <> WeeklyStats.excluded_login /\
         RivalrySpec.names nicks r a b /\
         NoDup (WeeklyStats.tracks r) /\
         WeeklyStats.shared_tracks r
         = Z.of_nat (List.length (WeeklyStats.tracks r)) /\
         3 <= WeeklyStats.shared_tracks r /\
         forall t, In t (WeeklyStats.tracks r) ->
           RivalrySpec.on_track (WeeklyStats.deduplicate_records raw) a t /\
           RivalrySpec.on_track (WeeklyStats.deduplicate_records raw) b t) /\
    (forall a b t1 t2 t3,
       a <> WeeklyStats.excluded_login -> b <> WeeklyStats.excluded_login ->
       NoDup [t1; t2; t3] ->
       RivalrySpec.decided_on (WeeklyStats.deduplicate_records raw) a b t1 ->
       RivalrySpec.decided_on (WeeklyStats.deduplicate_records raw) a b t2 ->
       RivalrySpec.decided_on (WeeklyStats.deduplicate_records raw) a b t3 ->
       exists r, In r result /\ RivalrySpec.names nicks r a b /\
                 In t1 (WeeklyStats.tracks r) /\ In t2 (WeeklyStats.tracks r) /\
                 In t3 (WeeklyStats.tracks r)).
Proof.
  intros raw self nicks Hn.
  set (records := WeeklyStats.deduplicate_records raw) in *.
  pose proof (weekly_dedup_logins raw) as Hlog. fold records in Hlog.
  destruct (weekly_dedup_keeps_first_best raw) as [Hnd _]. fold records in Hnd.
  destruct (detect_rivalries_spec records self nicks Hlog Hn)
    as (rd & result & _ & Hwf & Htr & Hres & Hin).
  exists result. split; [exact Hres|]. split.
  - intros r Hr. apply Hin in Hr. destruct Hr as ([a b] & td & Hkd & Hf).
    destruct (rivalry_of_spec _ _ _ _ _ Hf) as (Hlen & Htracks & Hshared & Hnames).
    destruct Hwf as [Hndk Hndt].
    assert (Hlk : ODict.lookup WeeklyStats.pair_eqb rd (a, b) = Some td).
    { now apply (In_lookup _ pair_eqb_eq). }
    assert (Hall : forall t, In t (WeeklyStats.tracks r) ->
              RivalrySpec.track_decided (RivalrySpec.entries_on records t) (a, b)).
    { intros t Ht. apply Htr. unfold RivalrySpec.tracks_of. rewrite Hlk.
      now rewrite <- Htracks. }
    assert (Hex : exists t0, In t0 (WeeklyStats.tracks r)).
    { rewrite Htracks. unfold ODict.keys.
      destruct td as [|[t0 w] td']; [simpl in Hlen; lia|].
      exists t0. now left. }
    destruct Hex as [t0 Ht0].
    destruct (track_decided_sound _ _ _ _ (Hall t0 Ht0)) as (Hab & Ha & Hb & _).
    exists a, b.
    split; [exact Hab|]. split; [exact Ha|]. split; [exact Hb|].
    split; [exact Hnames|].
    split; [rewrite Htracks; now apply (Hndt (a, b))|].
    split; [exact Hshared|].
    split.
    { rewrite Hshared, Htracks. unfold ODict.keys. rewrite length_map. lia. }
    intros t Ht.
    destruct (track_decided_sound _ _ _ _ (Hall t Ht)) as (_ & _ & _ & O1 & O2).
    split; assumption.
  - intros a b t1 t2 t3 Ha Hb Hnd3 H1 H2 H3.
    pose proof (decided_on_track_decided _ _ _ _ Hnd Ha Hb H1) as D1.
    pose proof (decided_on_track_decided _ _ _ _ Hnd Ha Hb H2) as D2.
    pose proof (decided_on_track_decided _ _ _ _ Hnd Ha Hb H3) as D3.
    apply Htr in D1, D2, D3.
    unfold RivalrySpec.tracks_of in D1, D2, D3.
    destruct (ODict.lookup WeeklyStats.pair_eqb rd (RivalrySpec.sorted_key a b))
      as [td|] eqn:Elk; [|contradiction].
    assert (Hlen : (3 <= List.length td)%nat).
    { assert (Hincl : incl [t1; t2; t3] (ODict.keys td)).
      { intros t [<-|[<-|[<-|[]]]]; assumption. }
      pose proof (NoDup_incl_length Hnd3 Hincl) as Hl.
      unfold ODict.keys in Hl. rewrite length_map in Hl. simpl in Hl. exact Hl. }
    destruct (rivalry_of_total nicks (RivalrySpec.sorted_key a b) td Hlen)
      as [r Hf].
    exists r. split.
    + apply Hin. exists (RivalrySpec.sorted_key a b), td.
      split; [|exact Hf]. now apply (lookup_In _ pair_eqb_eq).
    + destruct (sorted_key_cases a b _ eq_refl) as [Hk|Hk]; rewrite Hk in Hf;
        destruct (rivalry_of_spec _ _ _ _ _ Hf) as (_ & Htracks & _ & Hnames);
        rewrite Htracks; repeat split; auto.
      destruct Hnames as [Hn1|Hn1]; [right | left]; exact Hn1.
Qed.

Lemma rivalries_threshold_witness :
  exists result r,
    fst (WeeklyStats.detect_rivalries
           (WeeklyStats.deduplicate_records RivalrySpec.decided_week)
           WeeklyStats.new_generator) = Some result /\
    In r result /\
    In (Some "B01") (WeeklyStats.tracks r) /\
    3 <= WeeklyStats.shared_tracks r.
Proof.
  destruct (rivalries_threshold RivalrySpec.decided_week
              WeeklyStats.new_generator
              [(Some "alice", "Alice"); (Some "bob", "Bob")])
    as (result & Hres & Hsound & Hcomplete).
  - vm_compute. reflexivity.
  - destruct (Hcomplete "alice" "bob" (Some "B01") (Some "B02") (Some "B03"))
      as (r & Hr & _ & Ht1 & _).
    + discriminate.
    + discriminate.
    + repeat constructor; simpl; intuition discriminate.
    + exists (RivalrySpec.rec "alice" "Alice" "B01" "1"),
        (RivalrySpec.rec "bob" "Bob" "B01" "2"), 1, 2.
      repeat split; try reflexivity; try discriminate;
        vm_compute; intuition auto.
    + exists (RivalrySpec.rec "alice" "Alice" "B02" "3"),
        (RivalrySpec.rec "bob" "Bob" "B02" "2"), 3, 2.
      repeat split; try reflexivity; try discriminate;
        vm_compute; intuition auto.
    + exists (RivalrySpec.rec "alice" "Alice" "B03" "4"),
        (RivalrySpec.rec "bob" "Bob" "B03" "5"), 4, 5.
      repeat split; try reflexivity; try discriminate;
        vm_compute; intuition auto.
    + exists result, r. split; [exact Hres|]. split; [exact Hr|].
      split; [exact Ht1|].
      destruct (Hsound r Hr) as (a & b & _ & _ & _ & _ & _ & _ & H3 & _).
      exact H3.
Defined.

(* ================================================================== *)
(** * Malformed ranks and times *)
(* ================================================================== *)




(* ================================================================== *)
(** * Further properties of deduplication, scoring and rivalries *)
(* ================================================================== *)

(** X2.  When every rank is missing, empty, a string of digits or a string
    [int] rejects, [deduplicate_player_records] and [deduplicate_records]
    keep the same records in the same order. *)
Theorem dedup_agree_on_plain_ranks : forall records,
  (forall r, In r records ->
     match WeeklyStats.rank r with
     | Some s => Py.isdigit s = true \/ s = "" \/ Py.int s = None
     | None => True
     end) ->
  Leaderboard.deduplicate_player_records (map WeeklyStatsSpec.to_dict records)
  = map WeeklyStatsSpec.to_dict (WeeklyStats.deduplicate_records records).
Proof.
  intros records H. apply dedup_implementations_agree.
  intros r Hr. apply rank_readings_agree. now apply H.
Qed.

Lemma dedup_agree_on_plain_ranks_witness :
  Leaderboard.deduplicate_player_records
    (map WeeklyStatsSpec.to_dict RivalrySpec.dnf_week)
  = map WeeklyStatsSpec.to_dict
      (WeeklyStats.deduplicate_records RivalrySpec.dnf_week).
Proof.
  apply (dedup_agree_on_plain_ranks RivalrySpec.dnf_week).
  intros r Hr. simpl in Hr.
  repeat (destruct Hr as [<-|Hr];
          [simpl; first [left; reflexivity | right; right; reflexivity]|]).
  contradiction.
Defined.

Lemma detect_rivalries_total_witness :
  exists result,
    fst (WeeklyStats.detect_rivalries
           (WeeklyStats.deduplicate_records RivalrySpec.tied_week)
           WeeklyStats.new_generator) = Some result.
Proof.
  apply (detect_rivalries_total RivalrySpec.tied_week WeeklyStats.new_generator).
  intros r Hr. simpl in Hr.
  repeat (destruct Hr as [<-|Hr]; [discriminate|]).
  contradiction.
Defined.





Lemma fewer_shared_asym : forall a b,
  WeeklyStats.fewer_shared a b = true -> WeeklyStats.fewer_shared b a = false.
Proof.
  intros a b H. unfold WeeklyStats.fewer_shared in *.
  apply Z.ltb_lt in H. apply Z.ltb_ge. lia.
Qed.

Lemma fewer_shared_ge_trans : forall a b c,
  WeeklyStats.fewer_shared a b = false ->
  WeeklyStats.fewer_shared b c = false ->
  WeeklyStats.fewer_shared a c = false.
Proof.
  intros a b c H1 H2. unfold WeeklyStats.fewer_shared in *.
  apply Z.ltb_ge in H1. apply Z.ltb_ge in H2. apply Z.ltb_ge. lia.
Qed.

(** X6.  The list [detect_rivalries] returns is in descending order of
    [shared_tracks]: no rivalry comes before one with more shared
    tracks. *)
Theorem rivalries_sorted_by_shared_tracks : forall records self result,
  fst (WeeklyStats.detect_rivalries records self) = Some result ->
  StronglySorted
    (fun a b => WeeklyStats.shared_tracks b <= WeeklyStats.shared_tracks a)
    result.
Proof.
  intros records self result H. unfold WeeklyStats.detect_rivalries in H.
  destruct (WeeklyStats.get_all_latest_nicknames records self) as [[nicks|] g];
    [|discriminate].
  destruct (WeeklyStats.head_to_head (WeeklyStats.group_by_track records))
    as [rd|]; [|discriminate].
  cbn [fst] in H. injection H as <-.
  pose proof (sort_desc_sorted WeeklyStats.fewer_shared fewer_shared_asym
                fewer_shared_ge_trans
                (WeeklyStats.filter_map (WeeklyStats.rivalry_of nicks) rd)) as Hs.
  induction Hs as [|x l Hs IH Hall]; constructor; [assumption|].
  apply Forall_forall. intros y Hy. rewrite Forall_forall in Hall.
  specialize (Hall y Hy). unfold WeeklyStats.fewer_shared in Hall.
  now apply Z.ltb_ge in Hall.
Qed.

Lemma rivalries_sorted_by_shared_tracks_witness :
  exists result,
    fst (WeeklyStats.detect_rivalries RivalryInv.three_way_week
           WeeklyStats.new_generator) = Some result /\
    map WeeklyStats.shared_tracks result = [4; 3; 3] /\
    StronglySorted
      (fun a b => WeeklyStats.shared_tracks b <= WeeklyStats.shared_tracks a)
      result.
Proof.
  eexists. split; [vm_compute; reflexivity|]. split; [reflexivity|].
  apply (rivalries_sorted_by_shared_tracks RivalryInv.three_way_week
           WeeklyStats.new_generator).
  vm_compute. reflexivity.
Defined.

(* ================================================================== *)
(** * Rivalry detection: what [rivalry_data] holds *)
(* ================================================================== *)

Lemma Forall_set : forall (K V : Type) (eqb : K -> K -> bool),
  (forall a b, eqb a b = true <-> a = b) ->
  forall (P : K * V -> Prop) (d : odict K V) k v,
  Forall P d -> P (k, v) -> Forall P (ODict.set eqb d k v).
Proof.
  intros K V eqb eqb_eq P d k v Hd Hp.
  induction Hd as [|[k0 v0] d Hp0 Hd IH]; simpl.
  - constructor; [exact Hp | constructor].
  - destruct (eqb k0 k) eqn:E.
    + apply eqb_eq in E. subst k0. constructor; assumption.
    + constructor; assumption.
Qed.

Lemma loop_preserves : forall (S A : Type) (body : S -> A -> option S)
    (P : S -> Prop) (l : list A),
  (forall s x s', In x l -> P s -> body s x = Some s' -> P s') ->
  forall s s', P s -> WeeklyStats.loop body l s = Some s' -> P s'.
Proof.
  intros S A body P l. induction l as [|x l IH]; intros Hstep s s' Hs Hl;
    simpl in Hl.
  - injection Hl as <-. exact Hs.
  - destruct (body s x) as [s1|] eqn:E; [|discriminate].
    apply (IH (fun s0 y s0' Hy => Hstep s0 y s0' (or_intror Hy)) s1 s');
      [|exact Hl].
    apply (Hstep s x s1); auto. now left.
Qed.

Lemma sorted_key_inj : forall a b c d,
  RivalrySpec.sorted_key a b = RivalrySpec.sorted_key c d ->
  (a = c /\ b = d) \/ (a = d /\ b = c).
Proof.
  intros a b c d. unfold RivalrySpec.sorted_key.
  destruct (b <? a)%string; destruct (d <? c)%string; intros [= -> ->]; auto.
Qed.

Lemma sorted_key_ordered : forall l1 l2 a b,
  l1 <> l2 -> RivalrySpec.sorted_key l1 l2 = (a, b) -> (a <? b)%string = true.
Proof.
  intros l1 l2 a b Hne. unfold RivalrySpec.sorted_key.
  destruct (l2 <? l1)%string eqn:E; intros [= <- <-]; [exact E|].
  unfold String.ltb in *. rewrite (String.compare_antisym l1 l2).
  destruct (l2 ?= l1)%string eqn:C; simpl; try reflexivity; try discriminate.
  apply String.compare_eq_iff in C. congruence.
Qed.

Lemma ltb_asym : forall a b : string,
  (a <? b)%string = true -> (b <? a)%string = false.
Proof.
  intros a b. unfold String.ltb. rewrite (String.compare_antisym b a).
  destruct (a ?= b)%string; simpl; congruence.
Qed.

(** What one comparison does to [rivalry_data] when it raises nothing. *)
Lemma compare_pair_cases : forall t best rd p rd',
  WeeklyStats.compare_pair t best rd p = Some rd' ->
  exists l1 l2,
    p = (Some l1, Some l2) /\
    (rd' = rd \/
     (l1 <> l2 /\
      exists l, (l = l1 \/ l = l2) /\
                rd' = WeeklyStats.award rd (RivalrySpec.sorted_key l1 l2) t l)).
Proof.
  intros t best rd [p1 p2] rd' H. unfold WeeklyStats.compare_pair in H.
  destruct (ODict.lookup WeeklyStats.opt_eqb best p1) as [r1|] eqn:E1;
    [|discriminate].
  destruct (ODict.lookup WeeklyStats.opt_eqb best p2) as [r2|] eqn:E2;
    [|discriminate].
  destruct p1 as [l1|]; [|discriminate]. destruct p2 as [l2|]; [|discriminate].
  exists l1, l2. split; [reflexivity|].
  fold (RivalrySpec.sorted_key l1 l2) in H.
  assert (Hne : WeeklyStats.e_rank r1 <> WeeklyStats.e_rank r2 -> l1 <> l2).
  { intros Hr ->. rewrite E1 in E2. injection E2 as ->. contradiction. }
  destruct (Z.ltb_spec (WeeklyStats.e_rank r1) (WeeklyStats.e_rank r2)).
  - injection H as <-. right. split; [apply Hne; lia|]. exists l1. auto.
  - destruct (Z.ltb_spec (WeeklyStats.e_rank r2) (WeeklyStats.e_rank r1)).
    + injection H as <-. right. split; [apply Hne; lia|]. exists l2. auto.
    + injection H as <-. now left.
Qed.

Lemma In_keys_award : forall rd k t l k',
  In k' (ODict.keys (WeeklyStats.award rd k t l))
  <-> k' = k \/ In k' (ODict.keys rd).
Proof.
  intros. unfold WeeklyStats.award. apply In_keys_set. exact pair_eqb_eq.
Qed.

(** Awarding a win on a track that the key does not hold yet keeps the
    invariant. *)
Lemma award_inv : forall rd l1 l2 t l,
  RivalryInv.inv rd -> l1 <> l2 -> l = l1 \/ l = l2 ->
  ~ In t (RivalrySpec.tracks_of rd (RivalrySpec.sorted_key l1 l2)) ->
  RivalryInv.inv (WeeklyStats.award rd (RivalrySpec.sorted_key l1 l2) t l).
Proof.
  intros rd l1 l2 t l (Hwf & Hwins & Hord) Hne Hl Hfresh.
  split; [now apply award_wf|]. split.
  - unfold WeeklyStats.award. cbv zeta.
    unfold RivalrySpec.tracks_of in Hfresh.
    set (k := RivalrySpec.sorted_key l1 l2) in *.
    assert (Hone : RivalryInv.one_win k (t, [(l, 1)])).
    { exists l. split; [reflexivity|].
      destruct (sorted_key_cases l1 l2 k eq_refl) as [Hk|Hk]; rewrite Hk; simpl;
        destruct Hl; auto. }
    apply (Forall_set _ _ _ pair_eqb_eq); [exact Hwins|]. simpl.
    destruct (ODict.lookup WeeklyStats.pair_eqb rd k) as [td|] eqn:E.
    + apply (lookup_None_keys _ opt_eqb_eq) in Hfresh. rewrite Hfresh. simpl.
      apply (Forall_set _ _ _ opt_eqb_eq); [|exact Hone].
      apply (lookup_In _ pair_eqb_eq) in E.
      unfold RivalryInv.wins_recorded in Hwins. rewrite Forall_forall in Hwins.
      exact (Hwins _ E).
    + simpl. constructor; [exact Hone | constructor].
  - intros a b Hin. apply In_keys_award in Hin. destruct Hin as [Hk|Hin].
    + symmetry in Hk. exact (sorted_key_ordered _ _ _ _ Hne Hk).
    + now apply Hord.
Qed.

Lemma FOP_app : forall (A : Type) (R : A -> A -> Prop) (l1 l2 : list A),
  ForallOrdPairs R l1 -> ForallOrdPairs R l2 ->
  (forall a b, In a l1 -> In b l2 -> R a b) ->
  ForallOrdPairs R (l1 ++ l2).
Proof.
  intros A R l1 l2 H1 H2. induction H1 as [|a l1 Ha H1 IH]; intro Hx; simpl.
  - exact H2.
  - constructor.
    + apply Forall_app. split; [exact Ha|].
      apply Forall_forall. intros b Hb. apply Hx; [now left | exact Hb].
    + apply IH. intros x y Hx1 Hy. apply Hx; [now right | exact Hy].
Qed.

(** The pairs of a duplicate-free list of players make pairwise different
    rivalry keys. *)
Lemma pairs_FOP : forall l : list (option string),
  NoDup l -> ForallOrdPairs RivalryInv.distinct_pair (WeeklyStats.pairs l).
Proof.
  induction l as [|x l IH]; intro Hnd; simpl; [constructor|].
  inversion Hnd as [|? ? Hx Hnd']; subst. apply FOP_app.
  - clear IH Hnd. induction l as [|y l IHl]; simpl; [constructor|].
    inversion Hnd' as [|? ? Hy Hnd'']; subst. constructor.
    + apply Forall_forall. intros p Hp. apply in_map_iff in Hp.
      destruct Hp as (z & <- & Hz).
      intros a b c d [= -> ->] [= Hc ->] Hk.
      apply sorted_key_inj in Hk. destruct Hk as [[_ ->]|[-> _]].
      * contradiction.
      * apply Hx. right. exact Hz.
    + apply IHl; [|exact Hnd'']. intro H. apply Hx. now right.
  - now apply IH.
  - intros p q Hp Hq. apply in_map_iff in Hp. destruct Hp as (z & <- & Hz).
    destruct q as [q1 q2]. apply pairs_In in Hq. destruct Hq as [Hq1 Hq2].
    intros a b c d [= -> ->] [= -> ->] Hk.
    apply sorted_key_inj in Hk. destruct Hk as [[-> _]|[-> _]]; contradiction.
Qed.

(** The loop over the pairs of one track keeps the invariant, and adds
    tracks to no key but the given one. *)
Lemma loop_pairs_inv : forall t best ps rd rd',
  ForallOrdPairs RivalryInv.distinct_pair ps ->
  RivalryInv.inv rd ->
  (forall l1 l2, In (Some l1, Some l2) ps ->
     ~ In t (RivalrySpec.tracks_of rd (RivalrySpec.sorted_key l1 l2))) ->
  WeeklyStats.loop (WeeklyStats.compare_pair t best) ps rd = Some rd' ->
  RivalryInv.inv rd' /\
  forall k t', In t' (RivalrySpec.tracks_of rd' k) ->
               In t' (RivalrySpec.tracks_of rd k) \/ t' = t.
Proof.
  intros t best ps. induction ps as [|p ps IH]; intros rd rd' Hfop Hinv Hfresh Hl;
    simpl in Hl.
  - injection Hl as <-. split; [exact Hinv | auto].
  - destruct (WeeklyStats.compare_pair t best rd p) as [rd1|] eqn:E;
      [|discriminate].
    inversion Hfop as [|? ? Hp Hfop']; subst.
    destruct (compare_pair_cases _ _ _ _ _ E)
      as (l1 & l2 & -> & [->|(Hne & l & Hl12 & ->)]).
    + apply (IH rd rd' Hfop' Hinv); [|exact Hl].
      intros a b Hab. apply Hfresh. now right.
    + destruct (IH (WeeklyStats.award rd (RivalrySpec.sorted_key l1 l2) t l)
                  rd' Hfop') as [Hinv' Htr]; [| |exact Hl|].
      * apply award_inv; auto. apply Hfresh. now left.
      * intros a b Hab Hin. apply award_tracks in Hin.
        destruct Hin as [Hin|[Hk _]].
        -- revert Hin. apply Hfresh. now right.
        -- rewrite Forall_forall in Hp.
           exact (Hp _ Hab l1 l2 a b eq_refl eq_refl (eq_sym Hk)).
      * split; [exact Hinv'|]. intros k t' Hin.
        apply Htr in Hin. destruct Hin as [Hin|Hin]; [|now right].
        apply award_tracks in Hin. destruct Hin as [Hin|[_ Ht]]; auto.
Qed.

Lemma track_step_inv : forall t es rd rd',
  RivalryInv.inv rd ->
  (forall k, ~ In t (RivalrySpec.tracks_of rd k)) ->
  WeeklyStats.track_step rd (t, es) = Some rd' ->
  RivalryInv.inv rd' /\
  forall k t', In t' (RivalrySpec.tracks_of rd' k) ->
               In t' (RivalrySpec.tracks_of rd k) \/ t' = t.
Proof.
  intros t es rd rd' Hinv Hfresh H. unfold WeeklyStats.track_step in H.
  destruct (2 <=? Z.of_nat (List.length es)).
  - apply (loop_pairs_inv _ _ _ _ _ (pairs_FOP _ (players_of_nodup es)) Hinv)
      in H; [exact H|].
    intros l1 l2 _. apply Hfresh.
  - injection H as <-. split; [exact Hinv | auto].
Qed.

Lemma loop_tracks_inv : forall items rd rd',
  NoDup (ODict.keys items) ->
  RivalryInv.inv rd ->
  (forall k t, In t (RivalrySpec.tracks_of rd k) -> ~ In t (ODict.keys items)) ->
  WeeklyStats.loop WeeklyStats.track_step items rd = Some rd' ->
  RivalryInv.inv rd'.
Proof.
  induction items as [|[t es] items IH]; intros rd rd' Hnd Hinv Hfresh Hl;
    cbn [WeeklyStats.loop] in Hl.
  - injection Hl as <-. exact Hinv.
  - destruct (WeeklyStats.track_step rd (t, es)) as [rd1|] eqn:E;
      [|discriminate].
    simpl in Hnd. inversion Hnd as [|? ? Ht Hnd']; subst.
    destruct (track_step_inv t es rd rd1 Hinv) as [Hinv1 Htr]; [|exact E|].
    + intros k Hin. apply (Hfresh k t Hin). now left.
    + apply (IH rd1 rd' Hnd' Hinv1); [|exact Hl].
      intros k t' Hin Hin'. apply Htr in Hin. destruct Hin as [Hin| ->].
      * apply (Hfresh k t' Hin). now right.
      * contradiction.
Qed.

Lemma inv_empty : RivalryInv.inv [].
Proof.
  split; [|split].
  - split; [constructor|]. intros k td H. discriminate.
  - constructor.
  - intros a b [].
Qed.

Lemma head_to_head_inv : forall records rd,
  WeeklyStats.head_to_head (WeeklyStats.group_by_track records) = Some rd ->
  RivalryInv.inv rd.
Proof.
  intros records rd H. unfold WeeklyStats.head_to_head in H.
  apply (loop_tracks_inv _ _ _ (group_by_track_nodup records) inv_empty) in H;
    [exact H|].
  intros k t [].
Qed.

Lemma fold_add_acc : forall (l : list Z) (acc : Z),
  fold_left Z.add l acc = acc + fold_left Z.add l 0.
Proof.
  induction l as [|x l IH]; intro acc; simpl; [lia|].
  rewrite (IH (acc + x)), (IH x). lia.
Qed.

Lemma total_wins_cons : forall t tw td x,
  WeeklyStats.total_wins ((t, tw) :: td) x
  = match ODict.lookup String.eqb tw x with
    | Some n => n
    | None => 0
    end + WeeklyStats.total_wins td x.
Proof.
  intros. unfold WeeklyStats.total_wins. simpl. now rewrite fold_add_acc.
Qed.

(** When every track records one win of one of the two logins, the two
    totals are counts that add up to the number of tracks. *)
Lemma total_wins_sum : forall td a b,
  a <> b -> Forall (RivalryInv.one_win (a, b)) td ->
  0 <= WeeklyStats.total_wins td a /\ 0 <= WeeklyStats.total_wins td b /\
  WeeklyStats.total_wins td a + WeeklyStats.total_wins td b
  = Z.of_nat (List.length td).
Proof.
  intros td a b Hne H. induction H as [|[t tw] td (l & Htw & Hl) _ IH].
  - unfold WeeklyStats.total_wins. simpl. lia.
  - rewrite !total_wins_cons. simpl in Htw, Hl. subst tw.
    change (List.length ((t, [(l, 1)]) :: td)) with (S (List.length td)).
    rewrite Nat2Z.inj_succ. cbn [ODict.lookup].
    destruct Hl as [-> | ->].
    + rewrite String.eqb_refl. destruct (String.eqb_spec a b); [contradiction|].
      lia.
    + rewrite String.eqb_refl. destruct (String.eqb_spec b a);
        [congruence|]. lia.
Qed.

(** X7.  [rivalry_data] holds each pair of players under one key only, the
    two logins in ascending order: never both (A, B) and (B, A).  The
    returned list is a rearrangement of the entries made from its items, so
    it has at most one entry per pair. *)
Theorem rivalry_pairs_unordered_unique : forall records self result,
  fst (WeeklyStats.detect_rivalries records self) = Some result ->
  exists nicks rd,
    WeeklyStats.head_to_head (WeeklyStats.group_by_track records) = Some rd /\
    NoDup (ODict.keys rd) /\
    (forall a b, In (a, b) (ODict.keys rd) ->
       (a <? b)%string = true /\ ~ In (b, a) (ODict.keys rd)) /\
    Permutation result
      (WeeklyStats.filter_map (WeeklyStats.rivalry_of nicks) rd).
Proof.
  intros records self result H. unfold WeeklyStats.detect_rivalries in H.
  destruct (WeeklyStats.get_all_latest_nicknames records self)
    as [[nicks|] self']; [|discriminate].
  destruct (WeeklyStats.head_to_head (WeeklyStats.group_by_track records))
    as [rd|] eqn:E; [|discriminate].
  cbn [fst] in H. injection H as <-.
  destruct (head_to_head_inv _ _ E) as ((Hnd & _) & _ & Hord).
  exists nicks, rd. split; [reflexivity|]. split; [exact Hnd|]. split.
  - intros a b Hab. split; [now apply Hord|].
    intro Hba. apply Hord in Hab. apply Hord in Hba.
    apply ltb_asym in Hab. congruence.
  - apply Permutation_sym. apply sort_desc_perm.
Qed.

Lemma rivalry_pairs_unordered_unique_witness :
  exists result nicks rd,
    fst (WeeklyStats.detect_rivalries RivalryInv.three_way_week
           WeeklyStats.new_generator) = Some result /\
    WeeklyStats.head_to_head
      (WeeklyStats.group_by_track RivalryInv.three_way_week) = Some rd /\
    NoDup (ODict.keys rd) /\
    (forall a b, In (a, b) (ODict.keys rd) ->
       (a <? b)%string = true /\ ~ In (b, a) (ODict.keys rd)) /\
    Permutation result
      (WeeklyStats.filter_map (WeeklyStats.rivalry_of nicks) rd).
Proof.
  eexists.
  destruct (rivalry_pairs_unordered_unique RivalryInv.three_way_week
              WeeklyStats.new_generator _ eq_refl) as (nicks & rd & H).
  exists nicks, rd. split; [reflexivity | exact H].
Defined.

(** X8.  In every reported rivalry the two win counts add up to the number
    of shared tracks, which is at least three; the first player has at least
    as many wins as the second; the leader is the first player when the
    counts differ and ["Tied"] when they are equal. *)
Theorem rivalry_wins_add_up : forall records self result r,
  fst (WeeklyStats.detect_rivalries records self) = Some result ->
  In r result ->
  WeeklyStats.p1_wins r + WeeklyStats.p2_wins r = WeeklyStats.shared_tracks r /\
  3 <= WeeklyStats.shared_tracks r /\
  0 <= WeeklyStats.p2_wins r <= WeeklyStats.p1_wins r /\
  (WeeklyStats.p2_wins r < WeeklyStats.p1_wins r ->
     WeeklyStats.leader r = WeeklyStats.player1 r) /\
  (WeeklyStats.p1_wins r = WeeklyStats.p2_wins r ->
     WeeklyStats.leader r = "Tied").
Proof.
  intros records self result r H Hr. unfold WeeklyStats.detect_rivalries in H.
  destruct (WeeklyStats.get_all_latest_nicknames records self)
    as [[nicks|] self']; [|discriminate].
  destruct (WeeklyStats.head_to_head (WeeklyStats.group_by_track records))
    as [rd|] eqn:E; [|discriminate].
  cbn [fst] in H. injection H as <-.
  apply (Permutation_in _ (Permutation_sym (sort_desc_perm _ _))) in Hr.
  apply filter_map_In in Hr. destruct Hr as ([[a b] td] & Hin & Hr).
  destruct (head_to_head_inv _ _ E) as (_ & Hwins & Hord).
  assert (Hne : a <> b).
  { intros ->. assert (Hk : In (b, b) (ODict.keys rd)).
    { apply in_map_iff. exists ((b, b), td). auto. }
    apply Hord in Hk. pose proof (ltb_asym _ _ Hk). congruence. }
  unfold RivalryInv.wins_recorded in Hwins. rewrite Forall_forall in Hwins.
  destruct (total_wins_sum td a b Hne (Hwins _ Hin)) as (Ha & Hb & Hsum).
  unfold WeeklyStats.rivalry_of in Hr.
  destruct (Z.leb_spec 3 (Z.of_nat (List.length td))) as [Hlen|Hlen];
    [|discriminate].
  destruct (Z.ltb_spec (WeeklyStats.total_wins td b)
              (WeeklyStats.total_wins td a));
    [|destruct (Z.ltb_spec (WeeklyStats.total_wins td a)
                 (WeeklyStats.total_wins td b));
      [|destruct (WeeklyStats.nick_of nicks a <? WeeklyStats.nick_of nicks b)%string]];
    injection Hr as <-; simpl; repeat split; intros; try lia; reflexivity.
Qed.

Lemma rivalry_wins_add_up_witness :
  exists result r,
    fst (WeeklyStats.detect_rivalries RivalryInv.three_way_week
           WeeklyStats.new_generator) = Some result /\
    In r result /\
    WeeklyStats.p1_wins r = 3 /\ WeeklyStats.p2_wins r = 1 /\
    WeeklyStats.p1_wins r + WeeklyStats.p2_wins r = WeeklyStats.shared_tracks r.
Proof.
  eexists. eexists. split; [vm_compute; reflexivity|].
  split; [left; reflexivity|]. split; [reflexivity|]. split; [reflexivity|].
  refine (proj1 (rivalry_wins_add_up RivalryInv.three_way_week
                   WeeklyStats.new_generator _ _ _ _)).
  - vm_compute. reflexivity.
  - left. reflexivity.
Defined.

(* ================================================================== *)
(** * The date ranges *)
(* ================================================================== *)

Lemma epoch_is_1970 :
  WeeklyStats.toordinal 1970 1 1 = LeaderboardDates.epoch /\
  WeeklyStats.toordinal 9999 12 31 = LeaderboardDates.max_ordinal.
Proof. split; vm_compute; reflexivity. Qed.

Lemma plus_days_some : forall d n,
  1 <= d + n <= LeaderboardDates.max_ordinal ->
  LeaderboardDates.plus_days d n = Some (d + n).
Proof.
  intros d n [H1 H2]. unfold LeaderboardDates.plus_days.
  apply Z.leb_le in H1, H2. now rewrite H1, H2.
Qed.

Lemma plus_days_inv : forall d n r,
  LeaderboardDates.plus_days d n = Some r ->
  r = d + n /\ 1 <= r <= LeaderboardDates.max_ordinal.
Proof.
  intros d n r. unfold LeaderboardDates.plus_days.
  destruct (Z.leb_spec 1 (d + n)); destruct (Z.leb_spec (d + n)
    LeaderboardDates.max_ordinal); simpl; intros [= <-]. lia.
Qed.

(** The Sunday on or before a day. *)
Lemma sunday_on_or_before : forall today,
  let s := today - (WeeklyStats.weekday today + 1) mod 7 in
  WeeklyStats.weekday s = 6 /\ 0 <= today - s <= 6 /\
  (WeeklyStats.weekday today = 6 <-> s = today).
Proof.
  intro today. unfold WeeklyStats.weekday. cbv zeta.
  split; [|split; [|split; intro]]; Z.div_mod_to_equations; lia.
Qed.

Lemma current_week_default : forall cs ce today,
  LeaderboardDates.truthy cs && LeaderboardDates.truthy ce = false ->
  LeaderboardDates.current today ->
  exists start,
    LeaderboardDates.get_weekly_date_range cs ce today
    = Some (LeaderboardDates.Formatted start, LeaderboardDates.Formatted today)
    /\ WeeklyStats.weekday start = 6 /\ 1 <= today - start <= 7 /\
    (WeeklyStats.weekday today = 6 <-> start = today - 7).
Proof.
  intros cs ce today Hc [Hlo Hhi].
  unfold LeaderboardDates.epoch in Hlo.
  destruct (sunday_on_or_before today) as (Hs & Hd & Hw).
  assert (Hdef :
    exists start,
      match (if WeeklyStats.weekday today =? 6
             then LeaderboardDates.plus_days today (- 7)
             else LeaderboardDates.plus_days today
                    (- ((WeeklyStats.weekday today + 1) mod 7)))
      with
      | Some start_date =>
          Some (LeaderboardDates.Formatted start_date,
                LeaderboardDates.Formatted today)
      | None => None
      end = Some (LeaderboardDates.Formatted start,
                  LeaderboardDates.Formatted today)
      /\ WeeklyStats.weekday start = 6 /\ 1 <= today - start <= 7 /\
      (WeeklyStats.weekday today = 6 <-> start = today - 7)).
  { destruct (Z.eqb_spec (WeeklyStats.weekday today) 6) as [E|E].
    - exists (today - 7). rewrite plus_days_some by lia.
      split; [reflexivity|]. split; [|split; [lia | tauto]].
      unfold WeeklyStats.weekday in *. Z.div_mod_to_equations; lia.
    - exists (today - (WeeklyStats.weekday today + 1) mod 7).
      rewrite plus_days_some by lia.
      split; [f_equal; f_equal; f_equal; lia|]. split; [exact Hs|].
      assert (today - (WeeklyStats.weekday today + 1) mod 7 <> today)
        by (intro; apply E; tauto).
      split; [lia|]. split; [contradiction | intro; lia]. }
  unfold LeaderboardDates.get_weekly_date_range. cbv zeta.
  destruct cs as [s|]; [|exact Hdef]. destruct ce as [e|]; [|exact Hdef].
  rewrite Hc. exact Hdef.
Qed.

(** X9.  Without a custom range, the leaderboard's week runs from a Sunday
    to today: the start is the most recent Sunday before today, one to seven
    days back, and a full week back exactly when today is a Sunday. *)
Theorem leaderboard_week_starts_on_sunday : forall cs ce today,
  LeaderboardDates.truthy cs && LeaderboardDates.truthy ce = false ->
  LeaderboardDates.current today ->
  exists start,
    LeaderboardDates.get_weekly_date_range cs ce today
    = Some (LeaderboardDates.Formatted start, LeaderboardDates.Formatted today)
    /\ WeeklyStats.weekday start = 6 /\ 1 <= today - start <= 7 /\
    (WeeklyStats.weekday today = 6 <-> start = today - 7).
Proof. exact current_week_default. Qed.

Lemma leaderboard_week_starts_on_sunday_witness :
  LeaderboardDates.get_weekly_date_range None None
    (WeeklyStats.toordinal 2025 8 17)
  = Some (LeaderboardDates.Formatted (WeeklyStats.toordinal 2025 8 10),
          LeaderboardDates.Formatted (WeeklyStats.toordinal 2025 8 17)).
Proof.
  destruct (leaderboard_week_starts_on_sunday None None
              (WeeklyStats.toordinal 2025 8 17)) as (start & H & _).
  - reflexivity.
  - unfold LeaderboardDates.current. vm_compute. split; discriminate.
  - vm_compute. reflexivity.
Defined.

(** X10.  The weekly report's week runs from a Thursday to today: the start
    is the most recent Thursday before today, one to seven days back, and a
    full week back exactly when today is a Thursday. *)
Theorem report_week_starts_on_thursday : forall today,
  snd (WeeklyStats.get_weekly_date_range today) = today /\
  WeeklyStats.weekday (fst (WeeklyStats.get_weekly_date_range today)) = 3 /\
  1 <= today - fst (WeeklyStats.get_weekly_date_range today) <= 7 /\
  (WeeklyStats.weekday today = 3
   <-> fst (WeeklyStats.get_weekly_date_range today) = today - 7).
Proof.
  intro today. unfold WeeklyStats.get_weekly_date_range. cbv zeta.
  cbn [fst snd]. split; [reflexivity|].
  destruct (Z.eqb_spec (WeeklyStats.weekday today) 3) as [E|E];
    unfold WeeklyStats.weekday in *.
  - split; [|split; [|split; intro]]; Z.div_mod_to_equations; lia.
  - split; [|split; [|split; intro]]; Z.div_mod_to_equations; lia.
Qed.

Lemma weeks_back_dates : forall n today,
  LeaderboardDates.current today -> 0 <= n <= 1000 ->
  let start := today - (WeeklyStats.weekday today + 1) mod 7 - 7 * n in
  LeaderboardDates.calculate_weeks_back_dates n today
  = Some (LeaderboardDates.Formatted start,
          LeaderboardDates.Formatted (start + 6)) /\
  WeeklyStats.weekday start = 6 /\ WeeklyStats.weekday (start + 6) = 5 /\
  7 * n <= today - start <= 7 * n + 6.
Proof.
  intros n today [Hlo Hhi] Hn. unfold LeaderboardDates.epoch in Hlo.
  destruct (sunday_on_or_before today) as (Hs & Hd & Hw). cbv zeta in *.
  set (m := today - (WeeklyStats.weekday today + 1) mod 7) in *.
  assert (Hm : (if WeeklyStats.weekday today =? 6 then Some today
                else LeaderboardDates.plus_days today
                       (- ((WeeklyStats.weekday today + 1) mod 7)))
               = Some m).
  { destruct (Z.eqb_spec (WeeklyStats.weekday today) 6) as [E|E].
    - f_equal. symmetry. now apply Hw.
    - rewrite plus_days_some by (fold m in Hd |- *; lia).
      unfold m; f_equal; lia. }
  unfold LeaderboardDates.calculate_weeks_back_dates. rewrite Hm.
  rewrite plus_days_some by lia. rewrite plus_days_some by lia.
  split; [f_equal; f_equal; f_equal; lia|].
  unfold WeeklyStats.weekday in *. clearbody m.
  split; [|split]; [Z.div_mod_to_equations; lia ..| lia].
Qed.

(** X11.  Without a custom range, the previous week is the full week from
    Sunday to Saturday that ends the day before the current week starts. *)
Theorem previous_week_is_the_week_before : forall cs ce today,
  LeaderboardDates.truthy cs && LeaderboardDates.truthy ce = false ->
  LeaderboardDates.current today ->
  exists start,
    LeaderboardDates.get_weekly_date_range cs ce today
    = Some (LeaderboardDates.Formatted start, LeaderboardDates.Formatted today)
    /\ LeaderboardDates.get_previous_week_date_range cs ce today
       = Some (LeaderboardDates.Formatted (start - 7),
               LeaderboardDates.Formatted (start - 1))
    /\ WeeklyStats.weekday (start - 7) = 6
    /\ WeeklyStats.weekday (start - 1) = 5.
Proof.
  intros cs ce today Hc Ht.
  destruct (current_week_default cs ce today Hc Ht) as (start & Hr & Hs & Hd & _).
  exists start. split; [exact Hr|].
  destruct Ht as [Hlo Hhi]. unfold LeaderboardDates.epoch in Hlo.
  unfold LeaderboardDates.get_previous_week_date_range. rewrite Hr.
  cbn [LeaderboardDates.strptime].
  rewrite !plus_days_some by lia.
  split; [f_equal; f_equal; f_equal; lia|].
  unfold WeeklyStats.weekday in *.
  split; Z.div_mod_to_equations; lia.
Qed.

Lemma previous_week_is_the_week_before_witness :
  LeaderboardDates.get_previous_week_date_range None None
    (WeeklyStats.toordinal 2025 8 20)
  = Some (LeaderboardDates.Formatted (WeeklyStats.toordinal 2025 8 10),
          LeaderboardDates.Formatted (WeeklyStats.toordinal 2025 8 16)).
Proof.
  destruct (previous_week_is_the_week_before None None
              (WeeklyStats.toordinal 2025 8 20)) as (start & H1 & H2 & _).
  - reflexivity.
  - unfold LeaderboardDates.current. vm_compute. split; discriminate.
  - vm_compute in H1. injection H1 as <-. exact H2.
Defined.

(** X12.  The range of [n] weeks back is a full week from a Sunday to the
    Saturday six days later, the Sunday being [n] weeks before the Sunday
    on or before today; [get_specific_past_week_range] gives the same
    range. *)
Theorem weeks_back_is_a_full_week : forall n today,
  LeaderboardDates.current today -> 0 <= n <= 1000 ->
  exists start,
    LeaderboardDates.calculate_weeks_back_dates n today
    = Some (LeaderboardDates.Formatted start,
            LeaderboardDates.Formatted (start + 6)) /\
    LeaderboardDates.get_specific_past_week_range n today
    = Some (LeaderboardDates.Formatted start,
            LeaderboardDates.Formatted (start + 6)) /\
    WeeklyStats.weekday start = 6 /\ WeeklyStats.weekday (start + 6) = 5 /\
    7 * n <= today - start <= 7 * n + 6.
Proof.
  intros n today Ht Hn.
  destruct (weeks_back_dates n today Ht Hn) as (Hr & Hs & He & Hd).
  eexists. split; [exact Hr|]. split; [exact Hr|]. auto.
Qed.

Lemma weeks_back_is_a_full_week_witness :
  LeaderboardDates.calculate_weeks_back_dates 2
    (WeeklyStats.toordinal 2025 8 20)
  = Some (LeaderboardDates.Formatted (WeeklyStats.toordinal 2025 8 3),
          LeaderboardDates.Formatted (WeeklyStats.toordinal 2025 8 9)).
Proof.
  destruct (weeks_back_is_a_full_week 2 (WeeklyStats.toordinal 2025 8 20))
    as (start & H1 & _).
  - unfold LeaderboardDates.current. vm_compute. split; discriminate.
  - lia.
  - vm_compute. reflexivity.
Defined.

(** X13.  Started with [--weeks-back n], the current range is the week [n]
    weeks back and the previous range is the week [n + 1] weeks back. *)
Theorem weeks_back_previous_week : forall n today,
  LeaderboardDates.current today -> 1 <= n <= 999 ->
  exists cs ce,
    LeaderboardDates.startup_dates None None (Some n) today
    = Some (Some cs, Some ce) /\
    LeaderboardDates.get_weekly_date_range (Some cs) (Some ce) today
    = LeaderboardDates.calculate_weeks_back_dates n today /\
    LeaderboardDates.get_previous_week_date_range (Some cs) (Some ce) today
    = LeaderboardDates.calculate_weeks_back_dates (n + 1) today.
Proof.
  intros n today Ht Hn.
  destruct (weeks_back_dates n today Ht ltac:(lia)) as (Hr & _ & _ & Hd).
  destruct (weeks_back_dates (n + 1) today Ht ltac:(lia)) as (Hr' & _).
  destruct Ht as [Hlo Hhi]. unfold LeaderboardDates.epoch in Hlo.
  cbv zeta in *.
  set (m := today - (WeeklyStats.weekday today + 1) mod 7) in *.
  exists (LeaderboardDates.Formatted (m - 7 * n)),
         (LeaderboardDates.Formatted (m - 7 * n + 6)).
  split; [|split].
  - unfold LeaderboardDates.startup_dates. simpl.
    destruct (Z.eqb_spec n 0); [lia|]. now rewrite Hr.
  - rewrite Hr. reflexivity.
  - rewrite Hr'. unfold LeaderboardDates.get_previous_week_date_range.
    unfold LeaderboardDates.get_weekly_date_range.
    cbv beta iota zeta delta [LeaderboardDates.truthy andb
                              LeaderboardDates.strptime].
    rewrite !plus_days_some by lia.
    f_equal. f_equal; f_equal; lia.
Qed.

Lemma weeks_back_previous_week_witness :
  exists cs ce,
    LeaderboardDates.startup_dates None None (Some 1)
      (WeeklyStats.toordinal 2025 8 20) = Some (Some cs, Some ce) /\
    LeaderboardDates.get_previous_week_date_range (Some cs) (Some ce)
      (WeeklyStats.toordinal 2025 8 20)
    = Some (LeaderboardDates.Formatted (WeeklyStats.toordinal 2025 8 3),
            LeaderboardDates.Formatted (WeeklyStats.toordinal 2025 8 9)).
Proof.
  destruct (weeks_back_previous_week 1 (WeeklyStats.toordinal 2025 8 20))
    as (cs & ce & H1 & _ & H3).
  - unfold LeaderboardDates.current. vm_compute. split; discriminate.
  - lia.
  - exists cs, ce. split; [exact H1|]. rewrite H3. vm_compute. reflexivity.
Defined.

(** X14.  The previous week of a default run and the week of
    [--weeks-back 1] are the same week on every day but a Sunday; on a
    Sunday the week of [--weeks-back 1] is the one the default run still
    counts as current. *)
Theorem last_week_differs_on_sundays : forall today,
  LeaderboardDates.current today ->
  (LeaderboardDates.get_previous_week_date_range None None today
   = LeaderboardDates.calculate_weeks_back_dates 1 today
   <-> WeeklyStats.weekday today <> 6) /\
  (WeeklyStats.weekday today = 6 ->
   LeaderboardDates.calculate_weeks_back_dates 1 today
   = Some (LeaderboardDates.Formatted (today - 7),
           LeaderboardDates.Formatted (today - 1)) /\
   LeaderboardDates.get_weekly_date_range None None today
   = Some (LeaderboardDates.Formatted (today - 7),
           LeaderboardDates.Formatted today)).
Proof.
  intros today Ht.
  destruct (weeks_back_dates 1 today Ht ltac:(lia)) as (Hr & _).
  destruct (current_week_default None None today eq_refl Ht)
    as (start & Hc & _ & Hd & Hsun).
  destruct (sunday_on_or_before today) as (_ & Hd' & Hw).
  cbv zeta in *.
  set (m := today - (WeeklyStats.weekday today + 1) mod 7) in *.
  assert (Hstart : WeeklyStats.weekday today <> 6 -> start = m).
  { intro Hne. unfold LeaderboardDates.get_weekly_date_range in Hc.
    cbv zeta in Hc. cbn match in Hc.
    destruct (Z.eqb_spec (WeeklyStats.weekday today) 6); [contradiction|].
    destruct (LeaderboardDates.plus_days today
                (- ((WeeklyStats.weekday today + 1) mod 7))) as [s|] eqn:E;
      [|discriminate].
    apply plus_days_inv in E. injection Hc as <-. unfold m. lia. }
  destruct Ht as [Hlo Hhi]. unfold LeaderboardDates.epoch in Hlo.
  assert (Hprev : LeaderboardDates.get_previous_week_date_range None None today
                  = Some (LeaderboardDates.Formatted (start - 7),
                          LeaderboardDates.Formatted (start - 1))).
  { unfold LeaderboardDates.get_previous_week_date_range. rewrite Hc.
    cbn [LeaderboardDates.strptime]. rewrite !plus_days_some by lia.
    f_equal; f_equal; f_equal; lia. }
  split.
  - rewrite Hprev, Hr. split.
    + intros [= H1 H2] Hsunday.
      pose proof (proj1 Hsun Hsunday). pose proof (proj1 Hw Hsunday). lia.
    + intro Hne. rewrite (Hstart Hne). f_equal. f_equal; f_equal; lia.
  - intro Hsunday. rewrite Hr, Hc.
    pose proof (proj1 Hsun Hsunday). pose proof (proj1 Hw Hsunday).
    split; f_equal; f_equal; f_equal; lia.
Qed.

Lemma last_week_differs_on_sundays_witness :
  LeaderboardDates.get_previous_week_date_range None None
    (WeeklyStats.toordinal 2025 8 17)
  <> LeaderboardDates.calculate_weeks_back_dates 1
       (WeeklyStats.toordinal 2025 8 17).
Proof.
  destruct (last_week_differs_on_sundays (WeeklyStats.toordinal 2025 8 17))
    as [[H _] _].
  - unfold LeaderboardDates.current. vm_compute. split; discriminate.
  - intro Heq. apply H in Heq. apply Heq. vm_compute. reflexivity.
Defined.

(* ================================================================== *)
(** * Time masters: the daily grinder and the weekend share *)
(* ================================================================== *)

Lemma add_day_spec : forall days day,
  NoDup days ->
  NoDup (TimeMasters.add_day days day) /\
  forall d, In d (TimeMasters.add_day days day) <-> In d days \/ d = day.
Proof.
  intros days day Hnd. unfold TimeMasters.add_day.
  destruct (existsb (Z.eqb day) days) eqn:E.
  - apply existsb_exists in E. destruct E as (x & Hx & Heq).
    apply Z.eqb_eq in Heq. subst x. split; [exact Hnd|].
    intro d. split; [now left | intros [H| ->]; assumption].
  - assert (Hnot : ~ In day days).
    { intro Hin. assert (existsb (Z.eqb day) days = true).
      { apply existsb_exists. exists day. split; [exact Hin | apply Z.eqb_refl]. }
      congruence. }
    split.
    + apply NoDup_snoc; assumption.
    + intro d. rewrite in_app_iff. simpl. intuition auto.
Qed.

Lemma grinder_days_snoc : forall today records r,
  TimeMasters.grinder_days today (records ++ [r])
  = TimeMasters.grinder_step today (TimeMasters.grinder_days today records) r.
Proof.
  intros. unfold TimeMasters.grinder_days. now rewrite fold_left_app.
Qed.

Lemma played_snoc : forall today records r l day,
  TimeMasters.played today (records ++ [r]) l day
  <-> TimeMasters.played today records l day
      \/ (WeeklyStats.login r = l /\
          WeeklyStats.record_date (WeeklyStats.date r) = Some day /\
          fst (WeeklyStats.get_weekly_date_range today) <= day
          <= snd (WeeklyStats.get_weekly_date_range today)).
Proof.
  intros today records r l day. unfold TimeMasters.played. split.
  - intros (r0 & Hin & H). apply in_app_or in Hin.
    destruct Hin as [Hin|[<-|[]]]; [left; exists r0; auto | right; exact H].
  - intros [(r0 & Hin & H)|H].
    + exists r0. split; [apply in_or_app; now left | exact H].
    + exists r. split; [apply in_or_app; right; now left | exact H].
Qed.

(** What the dictionary of days holds: under a player the days, each once,
    on which the player has a record inside the window. *)
Lemma grinder_days_spec : forall today records,
  NoDup (ODict.keys (TimeMasters.grinder_days today records)) /\
  forall l,
    match ODict.lookup WeeklyStats.opt_eqb
            (TimeMasters.grinder_days today records) l with
    | Some days =>
        NoDup days /\ days <> [] /\
        forall day, In day days <-> TimeMasters.played today records l day
    | None => forall day, ~ TimeMasters.played today records l day
    end.
Proof.
  intros today records.
  induction records as [|r records [IHnd IH]] using rev_ind.
  - split; [constructor|]. intros l day (r & [] & _).
  - rewrite grinder_days_snoc. unfold TimeMasters.grinder_step.
    set (d := TimeMasters.grinder_days today records) in *.
    assert (Hskip :
      (forall day,
         WeeklyStats.record_date (WeeklyStats.date r) = Some day ->
         ~ (fst (WeeklyStats.get_weekly_date_range today) <= day
            <= snd (WeeklyStats.get_weekly_date_range today))) ->
      NoDup (ODict.keys d) /\
      forall l,
        match ODict.lookup WeeklyStats.opt_eqb d l with
        | Some days =>
            NoDup days /\ days <> [] /\
            forall day, In day days
                        <-> TimeMasters.played today (records ++ [r]) l day
        | None =>
            forall day, ~ TimeMasters.played today (records ++ [r]) l day
        end).
    { intro Hno. split; [exact IHnd|]. intro l. specialize (IH l).
      destruct (ODict.lookup WeeklyStats.opt_eqb d l) as [days|].
      - destruct IH as (H1 & H2 & H3). split; [exact H1|]. split; [exact H2|].
        intro day. rewrite played_snoc, H3. split; [now left|].
        intros [H|(_ & Hd & Hr)]; [exact H | exfalso; exact (Hno day Hd Hr)].
      - intros day Hp. apply played_snoc in Hp.
        destruct Hp as [Hp|(_ & Hd & Hr)];
          [exact (IH day Hp) | exact (Hno day Hd Hr)]. }
    destruct (WeeklyStats.record_date (WeeklyStats.date r)) as [day|] eqn:Ed;
      [|apply Hskip; intros day [=]].
    destruct (WeeklyStats.get_weekly_date_range today) as [s e] eqn:Er.
    cbn [fst snd] in *.
    destruct (Z.leb_spec s day) as [Hs|Hs];
      [destruct (Z.leb_spec day e) as [He|He]|]; cbn [andb negb];
      try (apply Hskip; intros day' [= <-]; lia).
    split; [apply NoDup_keys_set; [exact opt_eqb_eq | exact IHnd]|].
    intro l.
    assert (Hold : NoDup match ODict.lookup WeeklyStats.opt_eqb d
                                 (WeeklyStats.login r) with
                         | Some s0 => s0
                         | None => []
                         end /\
                   forall day0,
                     In day0 match ODict.lookup WeeklyStats.opt_eqb d
                                     (WeeklyStats.login r) with
                             | Some s0 => s0
                             | None => []
                             end
                     <-> TimeMasters.played today records
                           (WeeklyStats.login r) day0).
    { specialize (IH (WeeklyStats.login r)).
      destruct (ODict.lookup WeeklyStats.opt_eqb d (WeeklyStats.login r))
        as [days|].
      - destruct IH as (H1 & _ & H3). split; assumption.
      - split; [constructor|]. intro day0. split; [intros [] | apply IH]. }
    destruct Hold as [Hnd Hin].
    destruct (add_day_spec _ day Hnd) as [Hnd' Hin'].
    destruct (WeeklyStats.opt_eqb (WeeklyStats.login r) l) eqn:El.
    + apply opt_eqb_eq in El. subst l.
      rewrite lookup_set_same by exact opt_eqb_eq.
      split; [exact Hnd'|]. split.
      * intro Hnil. assert (Hd : In day []).
        { rewrite <- Hnil. apply Hin'. now right. }
        destruct Hd.
      * intro day0. rewrite Hin', Hin, played_snoc. split.
        -- intros [H| ->]; [now left|]. right.
           split; [reflexivity|]. split; [exact Ed|].
           rewrite Er. cbn [fst snd]. lia.
        -- intros [H|(_ & Hd & _)]; [now left | right; congruence].
    + assert (Hne : WeeklyStats.login r <> l).
      { intro Heq. apply opt_eqb_eq in Heq. congruence. }
      rewrite lookup_set_other by (exact opt_eqb_eq || exact Hne).
      specialize (IH l).
      destruct (ODict.lookup WeeklyStats.opt_eqb d l) as [days|].
      * destruct IH as (H1 & H2 & H3). split; [exact H1|]. split; [exact H2|].
        intro day0. rewrite played_snoc, H3. split; [now left|].
        intros [H|(Hl & _)]; [exact H | contradiction].
      * intros day0 Hp. apply played_snoc in Hp.
        destruct Hp as [Hp|(Hl & _)]; [exact (IH day0 Hp) | contradiction].
Qed.

(** A list of distinct days between two dates is no longer than the number
    of days from the one to the other. *)
Lemma distinct_days_bound : forall (days : list Z) (a b : Z),
  NoDup days -> (forall d, In d days -> a <= d <= b) ->
  Z.of_nat (List.length days) <= Z.max 0 (b - a + 1).
Proof.
  intros days a b Hnd Hin.
  set (window := map (fun i => a + Z.of_nat i) (seq 0 (Z.to_nat (b - a + 1)))).
  assert (Hincl : incl days window).
  { intros d Hd. apply Hin in Hd. unfold window. apply in_map_iff.
    exists (Z.to_nat (d - a)). split; [lia|]. apply in_seq. lia. }
  apply (NoDup_incl_length Hnd) in Hincl.
  unfold window in Hincl. rewrite length_map, length_seq in Hincl. lia.
Qed.

(** X15.  The daily grinder is a player with the largest number of distinct
    days with a record inside the window.  The number is at least one and at
    most eight, and at most seven unless today is a Thursday, when the
    window holds eight days. *)
Theorem daily_grinder_days_played :
  forall today records self g self',
  TimeMasters.daily_grinder today records self = (Some (Some g), self') ->
  exists l days,
    TimeMasters.days_played g = Z.of_nat (List.length days) /\
    NoDup days /\
    (forall day, In day days <-> TimeMasters.played today records l day) /\
    (forall l' days',
       NoDup days' ->
       (forall day, In day days' -> TimeMasters.played today records l' day) ->
       Z.of_nat (List.length days') <= TimeMasters.days_played g) /\
    1 <= TimeMasters.days_played g <= 8 /\
    (WeeklyStats.weekday today <> 3 -> TimeMasters.days_played g <= 7).
Proof.
  intros today records self g self' H.
  unfold TimeMasters.daily_grinder in H.
  destruct (WeeklyStats.get_all_latest_nicknames records self)
    as [[nicks|] g0]; [|discriminate].
  destruct (TimeMasters.best_grinder today records) as [[l days]|] eqn:Eb;
    [|discriminate].
  injection H as <- _. cbn [TimeMasters.days_played].
  unfold TimeMasters.best_grinder in Eb. apply max_by_spec in Eb.
  destruct Eb as [Hin Hmax].
  destruct (grinder_days_spec today records) as [Hkeys Hspec].
  pose proof (Hspec l) as Hl.
  rewrite (In_lookup _ opt_eqb_eq _ _ _ Hkeys Hin) in Hl.
  destruct Hl as (Hnd & Hne & Hdays).
  exists l, days. split; [reflexivity|]. split; [exact Hnd|].
  split; [exact Hdays|]. split.
  - intros l' days' Hnd' Hin'. specialize (Hspec l').
    destruct (ODict.lookup WeeklyStats.opt_eqb
                (TimeMasters.grinder_days today records) l') as [ds|] eqn:El.
    + destruct Hspec as (_ & _ & Hds).
      assert (Hincl : incl days' ds).
      { intros day Hday. apply Hds. now apply Hin'. }
      apply (NoDup_incl_length Hnd') in Hincl.
      apply (lookup_In _ opt_eqb_eq) in El.
      specialize (Hmax _ El). cbn [snd] in Hmax. lia.
    + destruct days' as [|day ds]; [simpl; lia|].
      exfalso. apply (Hspec day). apply Hin'. now left.
  - assert (Hwin : forall d, In d days ->
                     fst (WeeklyStats.get_weekly_date_range today) <= d
                     <= snd (WeeklyStats.get_weekly_date_range today)).
    { intros d Hd. apply Hdays in Hd. destruct Hd as (r & _ & _ & _ & Hr).
      exact Hr. }
    pose proof (distinct_days_bound days _ _ Hnd Hwin) as Hb.
    assert (Hstart :
      snd (WeeklyStats.get_weekly_date_range today) = today /\
      1 <= today - fst (WeeklyStats.get_weekly_date_range today) <= 7 /\
      (WeeklyStats.weekday today = 3
       <-> fst (WeeklyStats.get_weekly_date_range today) = today - 7)).
    { unfold WeeklyStats.get_weekly_date_range. cbv zeta. cbn [fst snd].
      split; [reflexivity|].
      destruct (Z.eqb_spec (WeeklyStats.weekday today) 3) as [E|E];
        unfold WeeklyStats.weekday in *;
        (split; [|split; intro]); Z.div_mod_to_equations; lia. }
    destruct Hstart as (He & Hs & Hthu). rewrite He in Hb.
    assert (Hpos : (0 < List.length days)%nat).
    { destruct days; [contradiction | simpl; lia]. }
    split; [lia|]. intro Hw.
    assert (fst (WeeklyStats.get_weekly_date_range today) <> today - 7)
      by (intro; apply Hw; tauto).
    lia.
Qed.

Lemma daily_grinder_days_played_witness :
  exists g self',
    TimeMasters.daily_grinder TimeMasters.thursday TimeMasters.every_day
      WeeklyStats.new_generator = (Some (Some g), self') /\
    TimeMasters.days_played g = 8 /\
    1 <= TimeMasters.days_played g <= 8.
Proof.
  eexists. eexists. split; [vm_compute; reflexivity|].
  split; [reflexivity|].
  destruct (daily_grinder_days_played TimeMasters.thursday
              TimeMasters.every_day WeeklyStats.new_generator _ _ eq_refl)
    as (l & days & _ & _ & _ & _ & Hb & _).
  exact Hb.
Defined.

Lemma weekend_count_le_total : forall today records l,
  WeekendSpec.weekend_count today records l
  <= WeeklyStats.total_records_of records l.
Proof.
  intros today records l.
  unfold WeekendSpec.weekend_count, WeeklyStats.total_records_of.
  apply inj_le. induction records as [|r records IH]; simpl; [lia|].
  destruct (WeeklyStats.opt_eqb (WeeklyStats.login r) l);
    destruct (WeekendSpec.in_weekend today r); simpl; lia.
Qed.

Lemma share_bounds : forall c t : Z,
  0 < c <= t ->
  (0 < inject_Z c / inject_Z t * 100 <= 100)%Q /\
  (inject_Z c / inject_Z t * 100 == 100 <-> c = t)%Q.
Proof.
  intros c t [Hpos Hle].
  assert (Hc : (0 < inject_Z c)%Q).
  { change 0%Q with (inject_Z 0). now rewrite <- Zlt_Qlt. }
  assert (Ht : (0 < inject_Z t)%Q).
  { change 0%Q with (inject_Z 0). rewrite <- Zlt_Qlt. lia. }
  assert (Hct : (inject_Z c <= inject_Z t)%Q) by now rewrite <- Zle_Qle.
  assert (Hnz : ~ (inject_Z t == 0)%Q).
  { intro Hz. rewrite Hz in Ht. now apply Qlt_irrefl in Ht. }
  assert (Hdiv : (inject_Z c / inject_Z t * inject_Z t == inject_Z c)%Q).
  { field. exact Hnz. }
  set (q := (inject_Z c / inject_Z t)%Q) in *.
  assert (Hq : (0 < q <= 1)%Q).
  { split.
    - apply Qlt_shift_div_l; [exact Ht|]. now rewrite Qmult_0_l.
    - apply Qle_shift_div_r; [exact Ht|]. now rewrite Qmult_1_l. }
  clearbody q. split; [split; lra|]. split.
  - intro H100. assert (Hq1 : (q == 1)%Q) by lra.
    rewrite Hq1, Qmult_1_l in Hdiv. apply eq_sym. now apply inject_Z_injective.
  - intros ->. assert (Hq1 : (q * inject_Z t == 1 * inject_Z t)%Q).
    { now rewrite Hdiv, Qmult_1_l. }
    apply Qmult_inj_r in Hq1; [lra | exact Hnz].
Qed.

(** X16.  The weekend warrior's percentage is the share of the player's
    records that fall on the weekend: above zero and at most a hundred, and
    a hundred exactly when every record of the player counts for the
    weekend. *)
Theorem weekend_warrior_percentage_bounds :
  forall today records self result self',
  WeeklyStats.weekend_warrior today records self = (Some (Some result), self') ->
  (0 < WeeklyStats.w_percentage result <= 100)%Q /\
  exists l,
    WeeklyStats.w_count result = WeekendSpec.weekend_count today records l /\
    (WeeklyStats.w_percentage result == 100
     <-> WeekendSpec.weekend_count today records l
         = WeeklyStats.total_records_of records l)%Q.
Proof.
  intros today records self result self' H.
  unfold WeeklyStats.weekend_warrior in H.
  destruct (WeeklyStats.get_all_latest_nicknames records self)
    as [[nicks|] g]; [|discriminate].
  destruct (WeeklyStats.best_weekend today records) as [[[l c] p]|] eqn:Eb;
    [|discriminate].
  injection H as <- _. cbn [WeeklyStats.w_percentage WeeklyStats.w_count].
  unfold WeeklyStats.best_weekend in Eb.
  apply max_by_spec in Eb. destruct Eb as [Hin _].
  apply in_map_iff in Hin. destruct Hin as [[l0 c0] [Heq Hin]].
  unfold WeeklyStats.weekend_total in Heq.
  assert (Hlk : ODict.lookup WeeklyStats.opt_eqb
                  (WeeklyStats.weekend_counts today records) l0 = Some c0).
  { apply In_lookup; [exact opt_eqb_eq | apply weekend_counts_nodup | exact Hin]. }
  rewrite weekend_counts_lookup in Hlk.
  destruct (Z.eqb_spec (WeekendSpec.weekend_count today records l0) 0)
    as [E0|E0]; [discriminate|].
  injection Hlk as Hc0.
  pose proof (weekend_count_le_total today records l0) as Hle.
  assert (Hpos : 0 < WeekendSpec.weekend_count today records l0).
  { unfold WeekendSpec.weekend_count in *. lia. }
  assert (Htot : 0 < WeeklyStats.total_records_of records l0) by lia.
  apply Z.ltb_lt in Htot as Htb. rewrite Htb in Heq.
  injection Heq as <- <- <-. subst c0.
  destruct (share_bounds _ _ (conj Hpos Hle)) as [Hb Hiff].
  split; [exact Hb|]. exists l0. split; [reflexivity | exact Hiff].
Qed.

Lemma weekend_warrior_percentage_bounds_witness :
  exists result self',
    WeeklyStats.weekend_warrior WeekendSpec.sunday WeekendSpec.week
      WeeklyStats.new_generator = (Some (Some result), self') /\
    (WeeklyStats.w_percentage result == 50)%Q /\
    (0 < WeeklyStats.w_percentage result <= 100)%Q.
Proof.
  eexists. eexists. split; [vm_compute; reflexivity|].
  split; [reflexivity|].
  exact (proj1 (weekend_warrior_percentage_bounds WeekendSpec.sunday
                  WeekendSpec.week WeeklyStats.new_generator _ _ eq_refl)).
Defined.

(* ================================================================== *)
(** * The order of strings *)
(* ================================================================== *)

Lemma ltb_lt : forall a b : string,
  (a <? b)%string = true <-> OrderedTypeEx.String_as_OT.lt a b.
Proof.
  intros a b. rewrite <- OrderedTypeEx.String_as_OT.cmp_lt.
  unfold String.ltb, OrderedTypeEx.String_as_OT.cmp.
  destruct (a ?= b)%string; split; congruence.
Qed.

Lemma ltb_trans : forall a b c : string,
  (a <? b)%string = true -> (b <? c)%string = true -> (a <? c)%string = true.
Proof.
  intros a b c. rewrite !ltb_lt. apply OrderedTypeEx.String_as_OT.lt_trans.
Qed.

Lemma ltb_irrefl : forall a : string, (a <? a)%string = false.
Proof.
  intro a. unfold String.ltb.
  replace (a ?= a)%string with Eq; [reflexivity|].
  symmetry. now apply OrderedTypeEx.String_as_OT.cmp_eq.
Qed.

(** [b <= a] and [a < c] give [b < c]. *)
Lemma ltb_le_lt : forall a b c : string,
  (a <? b)%string = false -> (a <? c)%string = true -> (b <? c)%string = true.
Proof.
  intros a b c Hab Hac. unfold String.ltb in Hab.
  destruct (a ?= b)%string eqn:E; try discriminate.
  - apply String.compare_eq_iff in E. now subst.
  - apply ltb_trans with a; [|exact Hac].
    unfold String.ltb. rewrite String.compare_antisym, E. reflexivity.
Qed.

Lemma ltb_empty_r : forall a : string, (a <? "")%string = false.
Proof. intros [|c a]; reflexivity. Qed.

Lemma ltb_empty_l : forall a : string,
  ("" <? a)%string = negb (a =? "")%string.
Proof. intros [|c a]; reflexivity. Qed.

(* ================================================================== *)
(** * The rows of the leaderboard *)
(* ================================================================== *)












(** X18.  [get_latest_nickname_for_login] returns the login when no record
    has both a nickname and a date; otherwise the nickname of the first
    record with the latest date among the records that have both. *)
Theorem latest_nickname_for_login : forall login records,
  ((forall r, In r records -> LeaderboardTable.dated_nick r = false) /\
   LeaderboardTable.get_latest_nickname_for_login login records = login)
  \/
  exists before r after,
    records = (before ++ r :: after)%list /\
    LeaderboardTable.dated_nick r = true /\
    Leaderboard.NickName r
    = Some (LeaderboardTable.get_latest_nickname_for_login login records) /\
    (forall x, In x before -> LeaderboardTable.dated_nick x = true ->
       (Py.get (Leaderboard.RecordDate x) ""
        <? Py.get (Leaderboard.RecordDate r) "")%string = true) /\
    (forall x, In x after -> LeaderboardTable.dated_nick x = true ->
       (Py.get (Leaderboard.RecordDate r) ""
        <? Py.get (Leaderboard.RecordDate x) "")%string = false).
Proof.
  intros login records. unfold LeaderboardTable.get_latest_nickname_for_login.
  assert (Hinv :
    ((forall r, In r records -> LeaderboardTable.dated_nick r = false) /\
     fold_left LeaderboardTable.nickname_step records (login, "")
     = (login, ""))
    \/
    exists before r after,
      records = (before ++ r :: after)%list /\
      LeaderboardTable.dated_nick r = true /\
      Leaderboard.NickName r
      = Some (fst (fold_left LeaderboardTable.nickname_step records
                     (login, ""))) /\
      snd (fold_left LeaderboardTable.nickname_step records (login, ""))
      = Py.get (Leaderboard.RecordDate r) "" /\
      (forall x, In x before -> LeaderboardTable.dated_nick x = true ->
         (Py.get (Leaderboard.RecordDate x) ""
          <? Py.get (Leaderboard.RecordDate r) "")%string = true) /\
      (forall x, In x after -> LeaderboardTable.dated_nick x = true ->
         (Py.get (Leaderboard.RecordDate r) ""
          <? Py.get (Leaderboard.RecordDate x) "")%string = false)).
  { induction records as [|x records IH] using rev_ind.
    - left. split; [intros r [] | reflexivity].
    - rewrite fold_left_app. cbn [fold_left].
      set (st := fold_left LeaderboardTable.nickname_step records (login, ""))
        in *.
      assert (Hcases :
        (LeaderboardTable.nickname_step st x = st /\
         (LeaderboardTable.dated_nick x = true ->
          (snd st <? Py.get (Leaderboard.RecordDate x) "")%string = false))
        \/
        (exists n, Leaderboard.NickName x = Some n /\
           LeaderboardTable.dated_nick x = true /\
           (snd st <? Py.get (Leaderboard.RecordDate x) "")%string = true /\
           LeaderboardTable.nickname_step st x
           = (n, Py.get (Leaderboard.RecordDate x) ""))).
      { unfold LeaderboardTable.nickname_step, LeaderboardTable.dated_nick.
        destruct st as [ln ld]. cbn [snd].
        destruct (Leaderboard.NickName x) as [n|]; cbn [Py.truthy];
          [|left; split; [reflexivity | discriminate]].
        destruct (negb (n =? "")%string); cbn [andb];
          [|left; split; [reflexivity | discriminate]].
        destruct (ld <? Py.get (Leaderboard.RecordDate x) "")%string eqn:E.
        - right. exists n. split; [reflexivity|].
          split; [|split; reflexivity].
          destruct (Py.get (Leaderboard.RecordDate x) "" =? "")%string eqn:Ee;
            [|reflexivity].
          apply String.eqb_eq in Ee. rewrite Ee, ltb_empty_r in E.
          discriminate.
        - left. split; reflexivity. }
      destruct Hcases as [[Hsame Hle]|(n & Hn & Hdated & Hlt & Hstep)].
      + rewrite Hsame. destruct IH as [[Hnone Hst]|IH].
        * left. split; [|exact Hst].
          intros r Hr. apply in_app_or in Hr.
          destruct Hr as [Hr|[<-|[]]]; [now apply Hnone|].
          destruct (LeaderboardTable.dated_nick x) eqn:Ed; [|reflexivity].
          specialize (Hle eq_refl). rewrite Hst in Hle. cbn [snd] in Hle.
          rewrite ltb_empty_l in Hle.
          unfold LeaderboardTable.dated_nick in Ed.
          apply andb_true_iff in Ed. destruct Ed as [_ Ed]. congruence.
        * right. destruct IH as (before & r & after & -> & Hd & Hnk & Hdt & Hb & Ha).
          exists before, r, (after ++ [x])%list.
          split; [now rewrite <- app_assoc|]. split; [exact Hd|].
          split; [exact Hnk|]. split; [exact Hdt|]. split; [exact Hb|].
          intros y Hy Hyd. apply in_app_or in Hy.
          destruct Hy as [Hy|[<-|[]]]; [now apply Ha|].
          rewrite <- Hdt. now apply Hle.
      + rewrite Hstep. right. exists records, x, [].
        split; [reflexivity|]. split; [exact Hdated|].
        split; [exact Hn|]. split; [reflexivity|].
        split; [|intros y []].
        intros y Hy Hyd. destruct IH as [[Hnone _]|IH].
        * rewrite (Hnone y Hy) in Hyd. discriminate.
        * destruct IH as (before & r & after & -> & Hd & Hnk & Hdt & Hb & Ha).
          rewrite Hdt in Hlt. apply in_app_or in Hy.
          destruct Hy as [Hy|[<-|Hy]].
          -- apply ltb_trans with (Py.get (Leaderboard.RecordDate r) "");
               [now apply Hb | exact Hlt].
          -- exact Hlt.
          -- apply ltb_le_lt with (Py.get (Leaderboard.RecordDate r) "");
               [now apply Ha | exact Hlt]. }
  destruct Hinv as [[Hnone Hst]|(before & r & after & Hrec & Hd & Hnk & _ & Hb & Ha)].
  - left. split; [exact Hnone|]. now rewrite Hst.
  - right. exists before, r, after. auto.
Qed.

(* ================================================================== *)
(** * The previous positions and the trend *)
(* ================================================================== *)














(* ================================================================== *)
(** * The latest nicknames *)
(* ================================================================== *)

Lemma loop_app : forall (S A : Type) (body : S -> A -> option S)
    (l1 l2 : list A) (s : S),
  WeeklyStats.loop body (l1 ++ l2) s
  = match WeeklyStats.loop body l1 s with
    | Some s' => WeeklyStats.loop body l2 s'
    | None => None
    end.
Proof.
  intros S A body l1 l2. induction l1 as [|x l1 IH]; intro s; simpl;
    [reflexivity|].
  destruct (body s x); [apply IH | reflexivity].
Qed.

Lemma first_latest_later : forall sel records r x,
  NicknameSpec.first_latest sel records r ->
  (sel x = true ->
   (NicknameSpec.date_text r <? NicknameSpec.date_text x)%string = false) ->
  NicknameSpec.first_latest sel (records ++ [x]) r.
Proof.
  intros sel records r x (before & after & -> & Hn & Hb & Ha) Hx.
  exists before, (after ++ [x])%list.
  split; [now rewrite <- app_assoc|]. split; [exact Hn|]. split; [exact Hb|].
  intros y Hy Hyn. apply in_app_or in Hy.
  destruct Hy as [Hy|[<-|[]]]; [now apply Ha | now apply Hx].
Qed.

Lemma first_latest_new : forall sel records x,
  sel x = true ->
  (forall y, In y records -> sel y = true ->
     (NicknameSpec.date_text y <? NicknameSpec.date_text x)%string = true) ->
  NicknameSpec.first_latest sel (records ++ [x]) x.
Proof.
  intros sel records x Hn Hall. exists records, [].
  split; [reflexivity|]. split; [exact Hn|]. split; [exact Hall|].
  intros y [].
Qed.

Lemma first_latest_before : forall sel records r y,
  NicknameSpec.first_latest sel records r ->
  In y records -> sel y = true ->
  forall d, (NicknameSpec.date_text r <? d)%string = true ->
            (NicknameSpec.date_text y <? d)%string = true.
Proof.
  intros sel records r y (before & after & -> & Hn & Hb & Ha) Hy Hyn d Hd.
  apply in_app_or in Hy. destruct Hy as [Hy|[<-|Hy]].
  - apply ltb_trans with (NicknameSpec.date_text r); [now apply Hb | exact Hd].
  - exact Hd.
  - apply ltb_le_lt with (NicknameSpec.date_text r); [now apply Ha | exact Hd].
Qed.

Lemma first_latest_In : forall sel records r,
  NicknameSpec.first_latest sel records r -> In r records /\ sel r = true.
Proof.
  intros sel records r (before & after & -> & Hn & _).
  split; [apply in_or_app; right; now left | exact Hn].
Qed.

Lemma latest_for_later : forall records l r x,
  NicknameSpec.latest_for records l r ->
  (NicknameSpec.named l x = true ->
   (NicknameSpec.date_text r <? NicknameSpec.date_text x)%string = false) ->
  NicknameSpec.latest_for (records ++ [x]) l r.
Proof. intros records l. apply first_latest_later. Qed.

Lemma latest_for_new : forall records l x,
  NicknameSpec.named l x = true ->
  (forall y, In y records -> NicknameSpec.named l y = true ->
     (NicknameSpec.date_text y <? NicknameSpec.date_text x)%string = true) ->
  NicknameSpec.latest_for (records ++ [x]) l x.
Proof. intros records l. apply first_latest_new. Qed.

Lemma latest_for_before : forall records l r y,
  NicknameSpec.latest_for records l r ->
  In y records -> NicknameSpec.named l y = true ->
  forall d, (NicknameSpec.date_text r <? d)%string = true ->
            (NicknameSpec.date_text y <? d)%string = true.
Proof. intros records l. apply first_latest_before. Qed.

(** What the two dictionaries of [get_all_latest_nicknames] hold after
    the loop has read [records]. *)
Lemma latest_nicknames_inv : forall records,
  (forall r, In r records -> WeeklyStats.date r <> None) ->
  exists nicks dates,
    WeeklyStats.loop WeeklyStats.nick_step records ([], [])
    = Some (nicks, dates) /\
    forall l,
      match ODict.lookup WeeklyStats.opt_eqb dates l with
      | Some d =>
          exists r, NicknameSpec.latest_for records l r /\
                    WeeklyStats.date r = d /\
                    exists n, WeeklyStats.nick r = Some n /\
                      ODict.lookup WeeklyStats.opt_eqb nicks l = Some n
      | None =>
          ODict.lookup WeeklyStats.opt_eqb nicks l = None /\
          forall r, In r records -> NicknameSpec.named l r = false
      end.
Proof.
  induction records as [|x records IH] using rev_ind; intro Hdates.
  - exists [], []. split; [reflexivity|]. intro l. simpl.
    split; [reflexivity | intros r []].
  - destruct IH as (nicks & dates & Hloop & Hinv).
    { intros r Hr. apply Hdates. apply in_or_app. now left. }
    rewrite loop_app, Hloop. cbn [WeeklyStats.loop].
    assert (Hx : exists dx, WeeklyStats.date x = Some dx).
    { destruct (WeeklyStats.date x) as [dx|] eqn:E; [eauto|].
      exfalso. apply (Hdates x); [apply in_or_app; right; now left | exact E]. }
    destruct Hx as [dx Hdx].
    assert (Hskip : forall l,
      NicknameSpec.named l x = false ->
      match ODict.lookup WeeklyStats.opt_eqb dates l with
      | Some d =>
          exists r, NicknameSpec.latest_for (records ++ [x]) l r /\
                    WeeklyStats.date r = d /\
                    exists n, WeeklyStats.nick r = Some n /\
                      ODict.lookup WeeklyStats.opt_eqb nicks l = Some n
      | None =>
          ODict.lookup WeeklyStats.opt_eqb nicks l = None /\
          forall r, In r (records ++ [x]) -> NicknameSpec.named l r = false
      end).
    { intros l Hl. specialize (Hinv l).
      destruct (ODict.lookup WeeklyStats.opt_eqb dates l) as [d|].
      - destruct Hinv as (r & Hlat & Hd & Hn). exists r.
        split; [|split; assumption].
        apply latest_for_later; [exact Hlat | congruence].
      - destruct Hinv as [Hnone Hall]. split; [exact Hnone|].
        intros r Hr. apply in_app_or in Hr.
        destruct Hr as [Hr|[<-|[]]]; [now apply Hall | exact Hl]. }
    unfold WeeklyStats.nick_step.
    destruct (WeeklyStats.nick x) as [n|] eqn:En.
    2:{ exists nicks, dates. split; [reflexivity|]. intro l. apply Hskip.
        unfold NicknameSpec.named. rewrite En. apply andb_false_r. }
    destruct (n =? "")%string eqn:Eempty.
    { exists nicks, dates. split; [reflexivity|]. intro l. apply Hskip.
      unfold NicknameSpec.named. rewrite En. cbn [Py.truthy].
      rewrite Eempty. apply andb_false_r. }
    assert (Hnamed : forall l,
              NicknameSpec.named l x = WeeklyStats.opt_eqb (WeeklyStats.login x) l).
    { intro l. unfold NicknameSpec.named. rewrite En. cbn [Py.truthy].
      rewrite Eempty. apply andb_true_r. }
    assert (Hupd : forall l,
      (forall y, In y records -> NicknameSpec.named (WeeklyStats.login x) y = true ->
         (NicknameSpec.date_text y <? NicknameSpec.date_text x)%string = true) ->
      match ODict.lookup WeeklyStats.opt_eqb
              (ODict.set WeeklyStats.opt_eqb dates (WeeklyStats.login x)
                 (WeeklyStats.date x)) l with
      | Some d =>
          exists r, NicknameSpec.latest_for (records ++ [x]) l r /\
                    WeeklyStats.date r = d /\
                    exists n0, WeeklyStats.nick r = Some n0 /\
                      ODict.lookup WeeklyStats.opt_eqb
                        (ODict.set WeeklyStats.opt_eqb nicks
                           (WeeklyStats.login x) n) l = Some n0
      | None =>
          ODict.lookup WeeklyStats.opt_eqb
            (ODict.set WeeklyStats.opt_eqb nicks (WeeklyStats.login x) n) l
          = None /\
          forall r, In r (records ++ [x]) -> NicknameSpec.named l r = false
      end).
    { intros l Hall.
      destruct (WeeklyStats.opt_eqb (WeeklyStats.login x) l) eqn:El.
      - apply opt_eqb_eq in El. subst l.
        rewrite !lookup_set_same by exact opt_eqb_eq.
        exists x. split; [|split; [reflexivity | eauto]].
        apply latest_for_new; [|exact Hall].
        rewrite Hnamed. now apply opt_eqb_eq.
      - assert (Hne : WeeklyStats.login x <> l).
        { intro Heq. apply opt_eqb_eq in Heq. congruence. }
        rewrite !lookup_set_other by (exact opt_eqb_eq || exact Hne).
        apply Hskip. now rewrite Hnamed. }
    pose proof (Hinv (WeeklyStats.login x)) as Hmine.
    destruct (ODict.lookup WeeklyStats.opt_eqb dates (WeeklyStats.login x))
      as [latest|] eqn:Elat.
    + destruct Hmine as (r & Hlat & Hd & Hn).
      assert (Hr : In r records).
      { destruct Hlat as (b & a & -> & _). apply in_or_app. right. now left. }
      rewrite Hdx. destruct latest as [d0|];
        [|exfalso; apply (Hdates r); [apply in_or_app; now left | exact Hd]].
      assert (Hd0 : NicknameSpec.date_text r = d0).
      { unfold NicknameSpec.date_text. now rewrite Hd. }
      assert (Hdx' : NicknameSpec.date_text x = dx).
      { unfold NicknameSpec.date_text. now rewrite Hdx. }
      destruct (d0 <? dx)%string eqn:Elt.
      * eexists. eexists. split; [reflexivity|]. intro l.
        rewrite <- Hdx. apply Hupd. intros y Hy Hyn.
        apply (latest_for_before _ _ _ _ Hlat Hy Hyn).
        now rewrite Hd0, Hdx'.
      * exists nicks, dates. split; [reflexivity|]. intro l.
        destruct (WeeklyStats.opt_eqb (WeeklyStats.login x) l) eqn:El.
        -- apply opt_eqb_eq in El. subst l. rewrite Elat.
           exists r. split; [|split; assumption].
           apply latest_for_later; [exact Hlat|].
           intros _. now rewrite Hd0, Hdx'.
        -- apply Hskip. now rewrite Hnamed.
    + destruct Hmine as [_ Hall].
      eexists. eexists. split; [reflexivity|]. intro l. apply Hupd.
      intros y Hy Hyn. rewrite (Hall y Hy) in Hyn. discriminate.
Qed.

(** X21.  On records that all carry a date, a fresh instance's
    [get_all_latest_nicknames] raises nothing and maps each login that has
    a record with a nickname to the nickname of the first record with the
    latest date among them; a login without such a record is not in the
    mapping. *)
Theorem latest_nicknames_are_latest : forall records,
  (forall r, In r records -> WeeklyStats.date r <> None) ->
  exists nicks,
    fst (WeeklyStats.get_all_latest_nicknames records WeeklyStats.new_generator)
    = Some nicks /\
    forall l,
      match ODict.lookup WeeklyStats.opt_eqb nicks l with
      | Some n =>
          exists r, NicknameSpec.latest_for records l r /\
                    WeeklyStats.nick r = Some n
      | None => forall r, In r records -> NicknameSpec.named l r = false
      end.
Proof.
  intros records Hdates.
  destruct (latest_nicknames_inv records Hdates) as (nicks & dates & Hloop & Hinv).
  exists nicks. unfold WeeklyStats.get_all_latest_nicknames,
    WeeklyStats.latest_nicknames.
  cbn [WeeklyStats.new_generator WeeklyStats.latest_nicks_cache].
  rewrite Hloop. cbn. split; [reflexivity|].
  intro l. specialize (Hinv l).
  destruct (ODict.lookup WeeklyStats.opt_eqb dates l) as [d|].
  - destruct Hinv as (r & Hlat & _ & n & Hn & Hlk). rewrite Hlk. eauto.
  - destruct Hinv as [Hnone Hall]. now rewrite Hnone.
Qed.

Lemma latest_nicknames_are_latest_witness :
  exists nicks,
    fst (WeeklyStats.get_all_latest_nicknames CacheExample.week2
           WeeklyStats.new_generator) = Some nicks /\
    forall l,
      match ODict.lookup WeeklyStats.opt_eqb nicks l with
      | Some n =>
          exists r, NicknameSpec.latest_for CacheExample.week2 l r /\
                    WeeklyStats.nick r = Some n
      | None =>
          forall r, In r CacheExample.week2 -> NicknameSpec.named l r = false
      end.
Proof.
  apply (latest_nicknames_are_latest CacheExample.week2).
  intros r Hr. vm_compute in Hr.
  repeat (destruct Hr as [<-|Hr]; [discriminate|]). destruct Hr.
Defined.

(* ================================================================== *)
(** * Statistics kept per player *)
(* ================================================================== *)

Section TallyFacts.
Context {R V : Type}.
Variable key : R -> option string.
Variable sel : R -> bool.
Variable upd : V -> R -> V.
Variable v0 : V.

Local Abbreviation run := (Tally.run key sel upd v0).
Local Abbreviation mine := (Tally.mine key sel).

Lemma tally_snoc : forall l r,
  run (l ++ [r]) = Tally.step key sel upd v0 (run l) r.
Proof. intros. unfold Tally.run. now rewrite fold_left_app. Qed.

Lemma tally_nodup : forall l, NoDup (ODict.keys (run l)).
Proof.
  induction l as [|r l IH] using rev_ind; [constructor|].
  rewrite tally_snoc. unfold Tally.step.
  destruct (sel r); [|exact IH].
  apply NoDup_keys_set; [exact opt_eqb_eq | exact IH].
Qed.

Lemma mine_snoc : forall k l r,
  mine k (l ++ [r])
  = (mine k l
     ++ if sel r && WeeklyStats.opt_eqb (key r) k then [r] else [])%list.
Proof.
  intros k l r. unfold Tally.mine. rewrite filter_app. simpl.
  destruct (sel r && WeeklyStats.opt_eqb (key r) k); reflexivity.
Qed.

(** Under a login the dictionary holds the default updated with the
    selected records of the login, in order; a login without a selected
    record has no entry. *)
Lemma tally_lookup : forall l k,
  ODict.lookup WeeklyStats.opt_eqb (run l) k
  = match mine k l with
    | [] => None
    | _ :: _ => Some (fold_left upd (mine k l) v0)
    end.
Proof.
  induction l as [|r l IH] using rev_ind; intro k; [reflexivity|].
  rewrite tally_snoc, mine_snoc. unfold Tally.step.
  destruct (sel r); cbn [andb].
  - destruct (WeeklyStats.opt_eqb (key r) k) eqn:E.
    + apply opt_eqb_eq in E. subst k.
      rewrite lookup_set_same by exact opt_eqb_eq. rewrite IH.
      rewrite fold_left_app. cbn [fold_left].
      destruct (mine (key r) l) as [|x m]; reflexivity.
    + assert (Hne : key r <> k).
      { intro Heq. apply opt_eqb_eq in Heq. congruence. }
      rewrite lookup_set_other by (exact opt_eqb_eq || exact Hne).
      rewrite app_nil_r. apply IH.
  - rewrite app_nil_r. apply IH.
Qed.

Lemma mine_key : forall k l r, In r (mine k l) -> key r = k /\ sel r = true.
Proof.
  intros k l r H. unfold Tally.mine in H. apply filter_In in H.
  destruct H as [_ H]. apply andb_true_iff in H. destruct H as [Hs Hk].
  apply opt_eqb_eq in Hk. auto.
Qed.

(** A field that every update sets from the record alone holds the value
    of the last record. *)
Lemma fold_last_field : forall (F : Type) (field : V -> F) (value : R -> F) c,
  (forall s r, field (upd s r) = value r) ->
  forall m s, m <> [] -> (forall r, In r m -> value r = c) ->
  field (fold_left upd m s) = c.
Proof.
  intros F field value c Hf. induction m as [|r m IH]; intros s Hne Hall;
    [contradiction|].
  cbn [fold_left]. destruct m as [|r' m'].
  - simpl. rewrite Hf. apply Hall. now left.
  - apply IH; [discriminate|]. intros x Hx. apply Hall. now right.
Qed.

(** A field that an update raises by one for the records of a kind and
    leaves alone for the others counts the records of the kind. *)
Lemma fold_count_field : forall (field : V -> Z) (kind : R -> bool) m,
  (forall s r, In r m ->
     field (upd s r) = field s + if kind r then 1 else 0) ->
  forall s,
  field (fold_left upd m s)
  = field s + Z.of_nat (List.length (filter kind m)).
Proof.
  intros field kind. induction m as [|r m IH]; intros Hf s.
  - simpl. lia.
  - cbn [fold_left filter]. rewrite IH.
    + rewrite (Hf s r (or_introl eq_refl)).
      destruct (kind r); cbn [List.length]; lia.
    + intros s' r' Hr'. apply Hf. now right.
Qed.

End TallyFacts.

Lemma filter_filter : forall (A : Type) (p q : A -> bool) (l : list A),
  filter p (filter q l) = filter (fun x => p x && q x) l.
Proof.
  intros A p q l. induction l as [|x l IH]; [reflexivity|]. simpl.
  destruct (q x); simpl; [destruct (p x); simpl; now rewrite IH|].
  rewrite andb_false_r. exact IH.
Qed.

Lemma volume_step_tally : forall nicks d r,
  VolumeChampions.volume_step nicks d r
  = Tally.step WeeklyStats.login RivalrySpec.rank_readable
      (fun s x =>
         VolumeChampions.mkVolume (VolumeChampions.total_records s + 1)
           (VolumeChampions.ranks s
            ++ [WeeklyStats.rank_int (WeeklyStats.rank x)])%list
           (WeeklyStats.nick_or_login nicks (WeeklyStats.login x)))
      VolumeChampions.new_stats d r.
Proof.
  intros nicks d r.
  unfold VolumeChampions.volume_step, Tally.step, RivalrySpec.rank_readable,
    WeeklyStats.rank_int.
  destruct (WeeklyStats.int_or_999 (WeeklyStats.rank r)); reflexivity.
Qed.

(** X22.  The no-lifer [analyze_volume_champions] reports is a player with
    the largest number of records whose rank is empty, missing or accepted
    by [int]; [total_dedi] is that number, records with another rank not
    counted, and the entry is absent only when no record has such a rank. *)
Theorem no_lifer_most_readable_records :
  forall records self result self',
  VolumeChampions.analyze_volume_champions records self = (Some result, self') ->
  exists nicks,
    fst (WeeklyStats.get_all_latest_nicknames records self) = Some nicks /\
    match result with
    | Some nl =>
        exists l,
          VolumeChampions.total_dedi nl
          = VolumeChampions.readable_count records l /\
          0 < VolumeChampions.total_dedi nl /\
          (forall l', VolumeChampions.readable_count records l'
                      <= VolumeChampions.total_dedi nl) /\
          VolumeChampions.player nl = WeeklyStats.nick_or_login nicks l
    | None =>
        forall r, In r records -> RivalrySpec.rank_readable r = false
    end.
Proof.
  intros records self result self' H.
  unfold VolumeChampions.analyze_volume_champions in H.
  destruct (WeeklyStats.get_all_latest_nicknames records self)
    as [[nicks|] g]; [|discriminate].
  exists nicks. split; [reflexivity|]. injection H as <- _.
  rewrite (fold_left_ext_eq _ _ _ _ (volume_step_tally nicks)).
  set (upd := fun s x =>
         VolumeChampions.mkVolume (VolumeChampions.total_records s + 1)
           (VolumeChampions.ranks s
            ++ [WeeklyStats.rank_int (WeeklyStats.rank x)])%list
           (WeeklyStats.nick_or_login nicks (WeeklyStats.login x))).
  fold (Tally.run WeeklyStats.login RivalrySpec.rank_readable upd
          VolumeChampions.new_stats records).
  set (d := Tally.run WeeklyStats.login RivalrySpec.rank_readable upd
              VolumeChampions.new_stats records).
  assert (Hcount : forall l,
    VolumeChampions.readable_count records l
    = Z.of_nat (List.length
                  (Tally.mine WeeklyStats.login RivalrySpec.rank_readable l
                     records))) by reflexivity.
  assert (Htotal : forall m s,
    VolumeChampions.total_records (fold_left upd m s)
    = VolumeChampions.total_records s + Z.of_nat (List.length m)).
  { intros m s.
    rewrite (fold_count_field upd VolumeChampions.total_records
               (fun _ => true) m) by reflexivity.
    f_equal. f_equal. f_equal. clear. induction m; simpl; congruence. }
  assert (Hlk : forall l,
    ODict.lookup WeeklyStats.opt_eqb d l
    = match Tally.mine WeeklyStats.login RivalrySpec.rank_readable l records
      with
      | [] => None
      | _ :: _ =>
          Some (fold_left upd
                  (Tally.mine WeeklyStats.login RivalrySpec.rank_readable l
                     records) VolumeChampions.new_stats)
      end) by (intro l; apply tally_lookup).
  destruct (Py.max_by (fun x => VolumeChampions.total_records (snd x)) d)
    as [[l stats]|] eqn:Em.
  - apply max_by_spec in Em. destruct Em as [Hin Hmax].
    pose proof (In_lookup _ opt_eqb_eq _ _ _ (tally_nodup _ _ _ _ records) Hin)
      as Hl.
    rewrite Hlk in Hl.
    destruct (Tally.mine WeeklyStats.login RivalrySpec.rank_readable l records)
      as [|x m] eqn:Emine; [discriminate|].
    injection Hl as Hstats.
    change (fold_left upd (x :: m) VolumeChampions.new_stats = stats) in Hstats.
    assert (Htot : VolumeChampions.total_records stats
                   = VolumeChampions.readable_count records l).
    { rewrite <- Hstats, Htotal, Hcount, Emine. reflexivity. }
    exists l. cbn [VolumeChampions.total_dedi VolumeChampions.player].
    split; [exact Htot|]. split; [|split].
    + rewrite Htot, Hcount, Emine. simpl. lia.
    + intro l'. rewrite Hcount. specialize (Hlk l').
      destruct (Tally.mine WeeklyStats.login RivalrySpec.rank_readable l'
                  records) as [|x' m'] eqn:Emine'; [simpl; rewrite Htot, Hcount, Emine; simpl; lia|].
      apply (lookup_In _ opt_eqb_eq) in Hlk.
      specialize (Hmax _ Hlk). cbn [snd] in Hmax.
      rewrite Htotal in Hmax. simpl in Hmax |- *. lia.
    + rewrite <- Hstats.
      apply (fold_last_field upd _ VolumeChampions.nick
               (fun r => WeeklyStats.nick_or_login nicks (WeeklyStats.login r)));
        [reflexivity | discriminate|].
      intros r Hr. rewrite <- Emine in Hr. apply mine_key in Hr.
      destruct Hr as [-> _]. reflexivity.
  - intros r Hr.
    destruct (RivalrySpec.rank_readable r) eqn:Er; [|reflexivity].
    exfalso. apply (max_by_nonempty _ (fun x => VolumeChampions.total_records (snd x)) d);
      [|exact Em].
    intro Hd. specialize (Hlk (WeeklyStats.login r)). rewrite Hd in Hlk.
    assert (Hmine : In r (Tally.mine WeeklyStats.login
                            RivalrySpec.rank_readable (WeeklyStats.login r)
                            records)).
    { unfold Tally.mine. apply filter_In. split; [exact Hr|].
      rewrite Er. simpl. now apply opt_eqb_eq. }
    destruct (Tally.mine WeeklyStats.login RivalrySpec.rank_readable
                (WeeklyStats.login r) records); [destruct Hmine | discriminate].
Qed.

Lemma no_lifer_most_readable_records_witness :
  exists nl self',
    VolumeChampions.analyze_volume_champions VolumeChampions.week
      WeeklyStats.new_generator = (Some (Some nl), self') /\
    VolumeChampions.player nl = Some "Alice" /\
    VolumeChampions.total_dedi nl = 2 /\
    exists l, VolumeChampions.total_dedi nl
              = VolumeChampions.readable_count VolumeChampions.week l.
Proof.
  eexists. eexists. split; [vm_compute; reflexivity|].
  split; [reflexivity|]. split; [reflexivity|].
  destruct (no_lifer_most_readable_records VolumeChampions.week
              WeeklyStats.new_generator _ _ eq_refl) as (nicks & _ & l & H & _).
  exists l. exact H.
Defined.

Section EliteFacts.
Variable float : Type.
Variable weighted_rank : Z -> Z -> option float.
Variable nicks : WeeklyStats.nick_map.
Variable cache : odict (option string) Z.
Variable records : list WeeklyStats.record_tuple.
Hypothesis Hno : PerformanceElite.no_overflow float weighted_rank cache records.

Local Abbreviation upd :=
  (fun s r => PerformanceElite.update float weighted_rank nicks cache s r
                (WeeklyStats.rank_int (WeeklyStats.rank r))).
Local Abbreviation stats_of :=
  (Tally.run WeeklyStats.login RivalrySpec.rank_readable upd
     (PerformanceElite.new_stats float)).

Lemma elite_step_tally : forall d r,
  PerformanceElite.elite_step float weighted_rank nicks cache d r
  = Tally.step WeeklyStats.login RivalrySpec.rank_readable upd
      (PerformanceElite.new_stats float) d r.
Proof.
  intros d r.
  unfold PerformanceElite.elite_step, Tally.step, RivalrySpec.rank_readable,
    WeeklyStats.rank_int.
  destruct (WeeklyStats.int_or_999 (WeeklyStats.rank r)); reflexivity.
Qed.

(** What the loop body does to the three counts and the nickname. *)
Lemma update_fields : forall s r,
  In r records -> RivalrySpec.rank_readable r = true ->
  let n := WeeklyStats.rank_int (WeeklyStats.rank r) in
  PerformanceElite.rank_1 float (upd s r)
  = PerformanceElite.rank_1 float s + (if n =? 1 then 1 else 0) /\
  PerformanceElite.rank_2 float (upd s r)
  = PerformanceElite.rank_2 float s + (if n =? 2 then 1 else 0) /\
  PerformanceElite.rank_3 float (upd s r)
  = PerformanceElite.rank_3 float s + (if n =? 3 then 1 else 0).
Proof.
  intros s r Hr Hread. cbv beta zeta.
  assert (Hint : WeeklyStats.int_or_999 (WeeklyStats.rank r)
                 = Some (WeeklyStats.rank_int (WeeklyStats.rank r))).
  { unfold RivalrySpec.rank_readable in Hread. unfold WeeklyStats.rank_int.
    destruct (WeeklyStats.int_or_999 (WeeklyStats.rank r));
      [reflexivity | discriminate]. }
  set (n := WeeklyStats.rank_int (WeeklyStats.rank r)) in *.
  assert (Hcount : forall s0,
    PerformanceElite.rank_1 float (PerformanceElite.count_rank float n s0)
    = PerformanceElite.rank_1 float s0 + (if n =? 1 then 1 else 0) /\
    PerformanceElite.rank_2 float (PerformanceElite.count_rank float n s0)
    = PerformanceElite.rank_2 float s0 + (if n =? 2 then 1 else 0) /\
    PerformanceElite.rank_3 float (PerformanceElite.count_rank float n s0)
    = PerformanceElite.rank_3 float s0 + (if n =? 3 then 1 else 0)).
  { intro s0. unfold PerformanceElite.count_rank. cbv zeta.
    destruct (Z.eqb_spec n 1) as [E1|E1];
      [|destruct (Z.eqb_spec n 2) as [E2|E2];
        [|destruct (Z.eqb_spec n 3) as [E3|E3]]];
      destruct (n <=? 3); cbn;
      repeat match goal with
             | |- context [?a =? ?b] => destruct (Z.eqb_spec a b); try lia
             end;
      repeat split; lia. }
  unfold PerformanceElite.update. cbv zeta.
  destruct (ODict.lookup WeeklyStats.opt_eqb cache (WeeklyStats.track r))
    as [p|] eqn:Ep.
  - destruct (Z.leb_spec 3 p) as [Hp|Hp].
    + destruct (weighted_rank n p) as [w|] eqn:Ew.
      * match goal with
        | |- context [PerformanceElite.count_rank float n ?x] =>
            destruct (Hcount x) as (H1 & H2 & H3)
        end.
        rewrite H1, H2, H3. repeat split; reflexivity.
      * exfalso. exact (Hno r n p Hr Hint Ep Hp Ew).
    + match goal with
      | |- context [PerformanceElite.count_rank float n ?x] =>
          destruct (Hcount x) as (H1 & H2 & H3)
      end.
      rewrite H1, H2, H3. repeat split; reflexivity.
  - change (3 <=? 1) with false. cbv iota.
    match goal with
    | |- context [PerformanceElite.count_rank float n ?x] =>
        destruct (Hcount x) as (H1 & H2 & H3)
    end.
    rewrite H1, H2, H3. repeat split; reflexivity.
Qed.

Lemma update_nick : forall s r,
  In r records -> RivalrySpec.rank_readable r = true ->
  PerformanceElite.nick float (upd s r)
  = WeeklyStats.nick_or_login nicks (WeeklyStats.login r).
Proof.
  intros s r Hr Hread. cbv beta.
  assert (Hint : WeeklyStats.int_or_999 (WeeklyStats.rank r)
                 = Some (WeeklyStats.rank_int (WeeklyStats.rank r))).
  { unfold RivalrySpec.rank_readable in Hread. unfold WeeklyStats.rank_int.
    destruct (WeeklyStats.int_or_999 (WeeklyStats.rank r));
      [reflexivity | discriminate]. }
  set (n := WeeklyStats.rank_int (WeeklyStats.rank r)) in *.
  assert (Hcount : forall s0,
    PerformanceElite.nick float (PerformanceElite.count_rank float n s0)
    = PerformanceElite.nick float s0).
  { intro s0. unfold PerformanceElite.count_rank. cbv zeta.
    destruct (n =? 1); [|destruct (n =? 2); [|destruct (n =? 3)]];
      destruct (n <=? 3); reflexivity. }
  unfold PerformanceElite.update. cbv zeta.
  destruct (ODict.lookup WeeklyStats.opt_eqb cache (WeeklyStats.track r))
    as [p|] eqn:Ep.
  - destruct (Z.leb_spec 3 p) as [Hp|Hp].
    + destruct (weighted_rank n p) as [w|] eqn:Ew.
      * now rewrite Hcount.
      * reflexivity.
    + now rewrite Hcount.
  - change (3 <=? 1) with false. cbv iota. now rewrite Hcount.
Qed.

Lemma rank_count_mine : forall k l,
  PerformanceElite.rank_count k records l
  = Z.of_nat
      (List.length
         (filter (fun r => WeeklyStats.rank_int (WeeklyStats.rank r) =? k)
            (Tally.mine WeeklyStats.login RivalrySpec.rank_readable l records))).
Proof.
  intros k l. unfold PerformanceElite.rank_count, Tally.mine.
  rewrite filter_filter. f_equal. f_equal. apply filter_ext. intro r.
  unfold RivalrySpec.rank_readable, WeeklyStats.rank_int.
  destruct (WeeklyStats.int_or_999 (WeeklyStats.rank r)) as [n|].
  - cbn [andb]. destruct (n =? k); reflexivity.
  - cbn [andb]. now rewrite andb_false_r.
Qed.

Lemma mine_incl : forall l r,
  In r (Tally.mine WeeklyStats.login RivalrySpec.rank_readable l records) ->
  In r records /\ RivalrySpec.rank_readable r = true /\ WeeklyStats.login r = l.
Proof.
  intros l r H. pose proof (mine_key _ _ _ _ _ H) as [Hk Hs].
  unfold Tally.mine in H. apply filter_In in H. tauto.
Qed.

(** An entry of the result, for a count that the loop raises by one for
    the records of rank [k]. *)
Lemma most_spec : forall (field : PerformanceElite.elite_stats float -> Z) k,
  field (PerformanceElite.new_stats float) = 0 ->
  (forall s r, In r records -> RivalrySpec.rank_readable r = true ->
     field (upd s r)
     = field s
       + if WeeklyStats.rank_int (WeeklyStats.rank r) =? k then 1 else 0) ->
  PerformanceElite.most_of_rank k records nicks
    (PerformanceElite.most float field (stats_of records)).
Proof.
  intros field k H0 Hupd.
  assert (Hfield : forall l x m,
    Tally.mine WeeklyStats.login RivalrySpec.rank_readable l records = x :: m ->
    field (fold_left upd (x :: m) (PerformanceElite.new_stats float))
    = PerformanceElite.rank_count k records l).
  { intros l x m Em. rewrite rank_count_mine, Em.
    rewrite (fold_count_field upd field
               (fun r => WeeklyStats.rank_int (WeeklyStats.rank r) =? k)).
    - rewrite H0. lia.
    - intros s r Hr. rewrite <- Em in Hr. apply mine_incl in Hr.
      apply Hupd; tauto. }
  assert (Hall : forall l s,
    ODict.lookup WeeklyStats.opt_eqb (stats_of records) l = Some s ->
    field s = PerformanceElite.rank_count k records l /\
    PerformanceElite.nick float s = WeeklyStats.nick_or_login nicks l).
  { intros l s Hl. rewrite tally_lookup in Hl.
    destruct (Tally.mine WeeklyStats.login RivalrySpec.rank_readable l records)
      as [|x m] eqn:Em; [discriminate|].
    injection Hl as Hs.
    change (fold_left upd (x :: m) (PerformanceElite.new_stats float) = s) in Hs.
    rewrite <- Hs. split; [now apply Hfield|].
    assert (Hlast : exists m' y, x :: m = (m' ++ [y])%list).
    { destruct (exists_last (l := x :: m)) as (m' & y & E); [discriminate|].
      eauto. }
    destruct Hlast as (m' & y & E). rewrite E, fold_left_app. cbn [fold_left].
    assert (Hy : In y (Tally.mine WeeklyStats.login RivalrySpec.rank_readable
                         l records)).
    { rewrite Em, E. apply in_or_app. right. now left. }
    apply mine_incl in Hy. destruct Hy as (Hy & Hr & <-).
    now apply update_nick. }
  assert (Hzero : forall l,
    ODict.lookup WeeklyStats.opt_eqb (stats_of records) l = None ->
    PerformanceElite.rank_count k records l = 0).
  { intros l Hl. rewrite tally_lookup in Hl. rewrite rank_count_mine.
    destruct (Tally.mine WeeklyStats.login RivalrySpec.rank_readable l records);
      [reflexivity | discriminate]. }
  assert (Hnonneg : forall l, 0 <= PerformanceElite.rank_count k records l).
  { intro l. unfold PerformanceElite.rank_count. lia. }
  unfold PerformanceElite.most, PerformanceElite.most_of_rank.
  destruct (Py.max_by (fun x => field (snd x)) (stats_of records))
    as [[l s]|] eqn:Em.
  - apply max_by_spec in Em. destruct Em as [Hin Hmax].
    pose proof (In_lookup _ opt_eqb_eq _ _ _ (tally_nodup _ _ _ _ records) Hin)
      as Hl.
    destruct (Hall l s Hl) as [Hf Hn].
    assert (Hle : forall l', PerformanceElite.rank_count k records l' <= field s).
    { intro l'.
      destruct (ODict.lookup WeeklyStats.opt_eqb (stats_of records) l')
        as [s'|] eqn:El'.
      - destruct (Hall l' s' El') as [Hf' _]. rewrite <- Hf'.
        apply (lookup_In _ opt_eqb_eq) in El'. exact (Hmax _ El').
      - rewrite (Hzero l' El'), Hf. apply Hnonneg. }
    destruct (Z.ltb_spec 0 (field s)) as [Hpos|Hpos].
    + exists l. auto.
    + intro l'. specialize (Hle l'). specialize (Hnonneg l'). lia.
  - intro l. apply Hzero.
    apply (lookup_None_keys _ opt_eqb_eq).
    destruct (stats_of records) as [|y d] eqn:Ed; [intros []|].
    exfalso. apply (max_by_nonempty _ (fun x => field (snd x)) (y :: d));
      [discriminate | exact Em].
Qed.

End EliteFacts.

(** X23.  When no weighting overflows, the lucky number, the bridesmaid
    and the third-time entries of [analyze_performance_elite] each name a
    player with the largest number of records of rank 1, 2 and 3, with that
    number, and an entry is absent exactly when no record has the rank. *)
Theorem elite_entries_most_of_rank :
  forall float weighted_rank cache records self results self',
  PerformanceElite.no_overflow float weighted_rank cache records ->
  PerformanceElite.analyze_performance_elite float weighted_rank cache records
    self = (Some results, self') ->
  exists nicks,
    fst (WeeklyStats.get_all_latest_nicknames records self) = Some nicks /\
    PerformanceElite.most_of_rank 1 records nicks
      (PerformanceElite.lucky_number results) /\
    PerformanceElite.most_of_rank 2 records nicks
      (PerformanceElite.always_the_bridesmaid results) /\
    PerformanceElite.most_of_rank 3 records nicks
      (PerformanceElite.third_times_the_charm results).
Proof.
  intros float weighted_rank cache records self results self' Hno H.
  unfold PerformanceElite.analyze_performance_elite in H.
  destruct (WeeklyStats.get_all_latest_nicknames records self)
    as [[nicks|] g]; [|discriminate].
  exists nicks. split; [reflexivity|]. injection H as <- _.
  cbv zeta.
  rewrite (fold_left_ext_eq _ _ _ _
             (elite_step_tally float weighted_rank nicks cache)).
  cbn [PerformanceElite.lucky_number PerformanceElite.always_the_bridesmaid
       PerformanceElite.third_times_the_charm].
  split; [|split];
    apply (most_spec float weighted_rank nicks cache records);
    try reflexivity;
    intros s r Hr Hread;
    apply (update_fields float weighted_rank nicks cache records Hno s r Hr Hread).
Qed.

Lemma elite_entries_most_of_rank_witness :
  exists results self',
    PerformanceElite.analyze_performance_elite Q
      PerformanceElite.exact_weighted [(Some "A01", 12)] VolumeChampions.week
      WeeklyStats.new_generator = (Some results, self') /\
    PerformanceElite.lucky_number results = Some (Some "Alice", 2) /\
    PerformanceElite.always_the_bridesmaid results = Some (Some "Bob", 1) /\
    PerformanceElite.third_times_the_charm results = None /\
    exists nicks,
      PerformanceElite.most_of_rank 1 VolumeChampions.week nicks
        (PerformanceElite.lucky_number results).
Proof.
  destruct (PerformanceElite.analyze_performance_elite Q
              PerformanceElite.exact_weighted [(Some "A01", 12)]
              VolumeChampions.week WeeklyStats.new_generator)
    as [[results|] self'] eqn:E; [|vm_compute in E; discriminate].
  exists results, self'. split; [reflexivity|].
  assert (Hno : PerformanceElite.no_overflow Q PerformanceElite.exact_weighted
                  [(Some "A01", 12)] VolumeChampions.week).
  { intros r n p _ _ _ _. discriminate. }
  destruct (elite_entries_most_of_rank Q PerformanceElite.exact_weighted
              [(Some "A01", 12)] VolumeChampions.week
              WeeklyStats.new_generator results self' Hno E)
    as (nicks & _ & H & _).
  vm_compute in E. injection E as <- <-.
  split; [reflexivity|]. split; [reflexivity|]. split; [reflexivity|].
  exists nicks. exact H.
Defined.

(* ================================================================== *)
(** * Track ownership *)
(* ================================================================== *)

(** What [track_owners] holds after the loop has read [records]. *)
Lemma ownership_inv : forall nicks records,
  (forall r, In r records -> WeeklyStats.date r <> None) ->
  exists owners,
    WeeklyStats.loop (TrackOwnership.ownership_step nicks) records []
    = Some owners /\
    forall t,
      match ODict.lookup WeeklyStats.opt_eqb owners t with
      | Some o =>
          exists r, NicknameSpec.first_latest (TrackOwnership.wins_on t)
                      records r /\
                    o = TrackOwnership.owner_of nicks r
      | None =>
          forall r, In r records -> TrackOwnership.wins_on t r = false
      end.
Proof.
  intros nicks. induction records as [|x records IH] using rev_ind;
    intro Hdates.
  - exists []. split; [reflexivity|]. intros t r [].
  - destruct IH as (owners & Hloop & Hinv).
    { intros r Hr. apply Hdates. apply in_or_app. now left. }
    rewrite loop_app, Hloop. cbn [WeeklyStats.loop].
    assert (Hx : exists dx, WeeklyStats.date x = Some dx).
    { destruct (WeeklyStats.date x) as [dx|] eqn:E; [eauto|].
      exfalso. apply (Hdates x); [apply in_or_app; right; now left | exact E]. }
    destruct Hx as [dx Hdx].
    assert (Hskip : forall t,
      TrackOwnership.wins_on t x = false ->
      match ODict.lookup WeeklyStats.opt_eqb owners t with
      | Some o =>
          exists r, NicknameSpec.first_latest (TrackOwnership.wins_on t)
                      (records ++ [x]) r /\
                    o = TrackOwnership.owner_of nicks r
      | None =>
          forall r, In r (records ++ [x]) -> TrackOwnership.wins_on t r = false
      end).
    { intros t Ht. specialize (Hinv t).
      destruct (ODict.lookup WeeklyStats.opt_eqb owners t) as [o|].
      - destruct Hinv as (r & Hlat & Ho). exists r. split; [|exact Ho].
        apply first_latest_later; [exact Hlat | congruence].
      - intros r Hr. apply in_app_or in Hr.
        destruct Hr as [Hr|[<-|[]]]; [now apply Hinv | exact Ht]. }
    unfold TrackOwnership.ownership_step.
    destruct (TrackOwnership.world_record x) eqn:Ew.
    2:{ exists owners. split; [reflexivity|]. intro t. apply Hskip.
        unfold TrackOwnership.wins_on. now rewrite Ew. }
    assert (Hwins : forall t,
              TrackOwnership.wins_on t x
              = WeeklyStats.opt_eqb (WeeklyStats.track x) t).
    { intro t. unfold TrackOwnership.wins_on. now rewrite Ew. }
    assert (Hupd : forall t,
      (forall y, In y records ->
         TrackOwnership.wins_on (WeeklyStats.track x) y = true ->
         (NicknameSpec.date_text y <? NicknameSpec.date_text x)%string = true) ->
      match ODict.lookup WeeklyStats.opt_eqb
              (ODict.set WeeklyStats.opt_eqb owners (WeeklyStats.track x)
                 (TrackOwnership.owner_of nicks x)) t with
      | Some o =>
          exists r, NicknameSpec.first_latest (TrackOwnership.wins_on t)
                      (records ++ [x]) r /\
                    o = TrackOwnership.owner_of nicks r
      | None =>
          forall r, In r (records ++ [x]) -> TrackOwnership.wins_on t r = false
      end).
    { intros t Hall.
      destruct (WeeklyStats.opt_eqb (WeeklyStats.track x) t) eqn:Et.
      - apply opt_eqb_eq in Et. subst t.
        rewrite lookup_set_same by exact opt_eqb_eq.
        exists x. split; [|reflexivity].
        apply first_latest_new; [|exact Hall].
        rewrite Hwins. now apply opt_eqb_eq.
      - assert (Hne : WeeklyStats.track x <> t).
        { intro Heq. apply opt_eqb_eq in Heq. congruence. }
        rewrite lookup_set_other by (exact opt_eqb_eq || exact Hne).
        apply Hskip. now rewrite Hwins. }
    pose proof (Hinv (WeeklyStats.track x)) as Hmine.
    destruct (ODict.lookup WeeklyStats.opt_eqb owners (WeeklyStats.track x))
      as [existing|] eqn:Elat.
    + destruct Hmine as (r & Hlat & Ho).
      destruct (first_latest_In _ _ _ Hlat) as [Hr _].
      assert (Hd : exists d0, WeeklyStats.date r = Some d0).
      { destruct (WeeklyStats.date r) as [d0|] eqn:E; [eauto|].
        exfalso. apply (Hdates r); [apply in_or_app; now left | exact E]. }
      destruct Hd as [d0 Hd0].
      rewrite Hdx, Ho. cbn [TrackOwnership.owner_of TrackOwnership.o_date].
      rewrite Hd0.
      assert (Hd0' : NicknameSpec.date_text r = d0).
      { unfold NicknameSpec.date_text. now rewrite Hd0. }
      assert (Hdx' : NicknameSpec.date_text x = dx).
      { unfold NicknameSpec.date_text. now rewrite Hdx. }
      destruct (d0 <? dx)%string eqn:Elt.
      * eexists. split; [reflexivity|]. intro t. apply Hupd.
        intros y Hy Hyw.
        apply (first_latest_before _ _ _ _ Hlat Hy Hyw).
        now rewrite Hd0', Hdx'.
      * exists owners. split; [reflexivity|]. intro t.
        destruct (WeeklyStats.opt_eqb (WeeklyStats.track x) t) eqn:Et.
        -- apply opt_eqb_eq in Et. subst t. rewrite Elat.
           exists r. split; [|exact Ho].
           apply first_latest_later; [exact Hlat|].
           intros _. now rewrite Hd0', Hdx'.
        -- apply Hskip. now rewrite Hwins.
    + eexists. split; [reflexivity|]. intro t. apply Hupd.
      intros y Hy Hyw. rewrite (Hmine y Hy) in Hyw. discriminate.
Qed.

(** X24.  On records that all carry a date, [analyze_track_ownership]
    raises nothing; a track is in the result exactly when it has a record
    of rank ["1"], and its owner is taken from the first such record with
    the latest date, under the name [get_all_latest_nicknames] gives the
    login. *)
Theorem track_owner_is_latest_first_place : forall records self,
  (forall r, In r records -> WeeklyStats.date r <> None) ->
  exists nicks owners,
    fst (WeeklyStats.get_all_latest_nicknames records self) = Some nicks /\
    fst (TrackOwnership.analyze_track_ownership records self) = Some owners /\
    forall t,
      match ODict.lookup WeeklyStats.opt_eqb owners t with
      | Some o =>
          exists r, NicknameSpec.first_latest (TrackOwnership.wins_on t)
                      records r /\
                    o = TrackOwnership.owner_of nicks r
      | None =>
          forall r, In r records -> TrackOwnership.wins_on t r = false
      end.
Proof.
  intros records self Hdates.
  assert (Hn : exists nicks g,
            WeeklyStats.get_all_latest_nicknames records self = (Some nicks, g)).
  { unfold WeeklyStats.get_all_latest_nicknames.
    destruct (WeeklyStats.latest_nicks_cache self) as [c|]; [eauto|].
    destruct (latest_nicknames_total records Hdates) as [nicks Hnicks].
    rewrite Hnicks. eauto. }
  destruct Hn as (nicks & g & Hn).
  destruct (ownership_inv nicks records Hdates) as (owners & Hloop & Hinv).
  exists nicks, owners. unfold TrackOwnership.analyze_track_ownership.
  rewrite Hn. cbn [fst]. auto.
Qed.

Lemma track_owner_is_latest_first_place_witness :
  exists nicks owners,
    fst (WeeklyStats.get_all_latest_nicknames TrackOwnership.week
           WeeklyStats.new_generator) = Some nicks /\
    fst (TrackOwnership.analyze_track_ownership TrackOwnership.week
           WeeklyStats.new_generator) = Some owners /\
    option_map TrackOwnership.owner
      (ODict.lookup WeeklyStats.opt_eqb owners (Some "A01"))
    = Some (Some "Bob") /\
    ODict.lookup WeeklyStats.opt_eqb owners (Some "B02") = None.
Proof.
  destruct (track_owner_is_latest_first_place TrackOwnership.week
              WeeklyStats.new_generator) as (nicks & owners & Hn & Ho & _).
  - intros r Hr. vm_compute in Hr.
    repeat (destruct Hr as [<-|Hr]; [discriminate|]). destruct Hr.
  - exists nicks, owners. split; [exact Hn|]. split; [exact Ho|].
    vm_compute in Ho. injection Ho as <-. split; reflexivity.
Defined.

(* ================================================================== *)
(** * The order of the competition multipliers *)
(* ================================================================== *)

(** X25.  From one record on, the competition multiplier never falls as
    the number of records of the track grows; a track that is not in the
    table, or is there with a count of zero or less, has a multiplier above
    that of every track with one to nine records. *)
Theorem competition_multiplier_monotone : forall n m : Z,
  1 <= n <= m ->
  (Leaderboard.get_competition_multiplier (Some n)
   <= Leaderboard.get_competition_multiplier (Some m))%Q /\
  (n < 10 ->
   (Leaderboard.get_competition_multiplier (Some n)
    < Leaderboard.get_competition_multiplier None)%Q /\
   forall k, k <= 0 ->
     (Leaderboard.get_competition_multiplier (Some n)
      < Leaderboard.get_competition_multiplier (Some k))%Q).
Proof.
  intros n m [Hn Hm]. unfold Leaderboard.get_competition_multiplier.
  split; [|intro Hlt; split; [|intros k Hk]].
  - destruct (Z.leb_spec n 0); [lia|]. destruct (Z.leb_spec m 0); [lia|].
    destruct (Z.eqb_spec n 1); destruct (Z.eqb_spec m 1);
      destruct (Z.ltb_spec n 5); destruct (Z.ltb_spec m 5);
      destruct (Z.ltb_spec n 10); destruct (Z.ltb_spec m 10);
      destruct (Z.ltb_spec n 15); destruct (Z.ltb_spec m 15);
      destruct (Z.ltb_spec n 20); destruct (Z.ltb_spec m 20);
      try lia; unfold Qle; simpl; lia.
  - destruct (Z.leb_spec n 0); [lia|].
    destruct (Z.eqb_spec n 1); destruct (Z.ltb_spec n 5);
      destruct (Z.ltb_spec n 10); try lia; reflexivity.
  - destruct (Z.leb_spec n 0); [lia|]. destruct (Z.leb_spec k 0); [|lia].
    destruct (Z.eqb_spec n 1); destruct (Z.ltb_spec n 5);
      destruct (Z.ltb_spec n 10); try lia; reflexivity.
Qed.

Lemma competition_multiplier_monotone_witness :
  (Leaderboard.get_competition_multiplier (Some 7%Z)
   <= Leaderboard.get_competition_multiplier (Some 12%Z))%Q /\
  (Leaderboard.get_competition_multiplier (Some 7%Z)
   < Leaderboard.get_competition_multiplier None)%Q.
Proof.
  destruct (competition_multiplier_monotone 7 12 ltac:(lia)) as [H1 H2].
  split; [exact H1 | exact (proj1 (H2 ltac:(lia)))].
Defined.

(* ================================================================== *)
(** * When the nickname mapping cannot be computed *)
(* ================================================================== *)

Lemma named_spec : forall l r,
  NicknameSpec.named l r = true
  <-> WeeklyStats.login r = l /\ Py.truthy (WeeklyStats.nick r) = true.
Proof.
  intros l r. unfold NicknameSpec.named. rewrite andb_true_iff.
  now rewrite (opt_eqb_eq (WeeklyStats.login r) l).
Qed.

Lemma nick_step_unnamed : forall st r,
  Py.truthy (WeeklyStats.nick r) = false -> WeeklyStats.nick_step st r = Some st.
Proof.
  intros [nicks dates] r H. unfold WeeklyStats.nick_step.
  destruct (WeeklyStats.nick r) as [n|]; [|reflexivity].
  simpl in H. apply negb_false_iff in H. now rewrite H.
Qed.

Lemma nick_step_named : forall nicks dates r,
  Py.truthy (WeeklyStats.nick r) = true ->
  exists n,
    WeeklyStats.nick_step (nicks, dates) r
    = let updated :=
        (ODict.set WeeklyStats.opt_eqb nicks (WeeklyStats.login r) n,
         ODict.set WeeklyStats.opt_eqb dates (WeeklyStats.login r)
           (WeeklyStats.date r)) in
      match ODict.lookup WeeklyStats.opt_eqb dates (WeeklyStats.login r) with
      | None => Some updated
      | Some latest =>
          match WeeklyStats.date r, latest with
          | Some d, Some d0 =>
              if (d0 <? d)%string then Some updated else Some (nicks, dates)
          | _, _ => None
          end
      end.
Proof.
  intros nicks dates r H. unfold WeeklyStats.nick_step.
  destruct (WeeklyStats.nick r) as [n|]; [|discriminate].
  simpl in H. apply negb_true_iff in H. rewrite H. exists n. reflexivity.
Qed.

(** The dates stored while the loop runs, and why it stops. *)
Lemma nick_loop_inv : forall records,
  match WeeklyStats.loop WeeklyStats.nick_step records ([], []) with
  | Some (_, dates) =>
      forall l,
        match ODict.lookup WeeklyStats.opt_eqb dates l with
        | None => forall r, In r records -> NicknameSpec.named l r = false
        | Some None =>
            exists r, In r records /\ NicknameSpec.named l r = true /\
                      WeeklyStats.date r = None
        | Some (Some _) =>
            (exists r, In r records /\ NicknameSpec.named l r = true) /\
            forall r, In r records -> NicknameSpec.named l r = true ->
                      WeeklyStats.date r <> None
        end
  | None => NicknameErrors.undated_pair records
  end.
Proof.
  induction records as [|x records IH] using rev_ind.
  - simpl. intros l r [].
  - rewrite loop_app. cbn [WeeklyStats.loop].
    destruct (WeeklyStats.loop WeeklyStats.nick_step records ([], []))
      as [[nicks dates]|].
    2:{ destruct IH as (b & r1 & m & r2 & a & -> & H).
        exists b, r1, m, r2, (a ++ [x])%list. split; [|exact H].
        now rewrite <- !app_assoc, <- !app_comm_cons, <- app_assoc. }
    assert (Hkeep : forall l,
      NicknameSpec.named l x = false ->
      match ODict.lookup WeeklyStats.opt_eqb dates l with
      | None =>
          forall r, In r (records ++ [x]) -> NicknameSpec.named l r = false
      | Some None =>
          exists r, In r (records ++ [x]) /\ NicknameSpec.named l r = true /\
                    WeeklyStats.date r = None
      | Some (Some _) =>
          (exists r, In r (records ++ [x]) /\ NicknameSpec.named l r = true) /\
          forall r, In r (records ++ [x]) -> NicknameSpec.named l r = true ->
                    WeeklyStats.date r <> None
      end).
    { intros l Hl. specialize (IH l).
      destruct (ODict.lookup WeeklyStats.opt_eqb dates l) as [[d|]|].
      - destruct IH as [(r & Hr & Hn) Hall]. split.
        + exists r. split; [apply in_or_app; now left | exact Hn].
        + intros y Hy Hyn. apply in_app_or in Hy.
          destruct Hy as [Hy|[<-|[]]]; [now apply Hall | congruence].
      - destruct IH as (r & Hr & Hn). exists r.
        split; [apply in_or_app; now left | exact Hn].
      - intros y Hy. apply in_app_or in Hy.
        destruct Hy as [Hy|[<-|[]]]; [now apply IH | exact Hl]. }
    destruct (Py.truthy (WeeklyStats.nick x)) eqn:Ex.
    2:{ rewrite (nick_step_unnamed _ _ Ex). intro l. apply Hkeep.
        unfold NicknameSpec.named. rewrite Ex. apply andb_false_r. }
    assert (Hnamed : forall l,
              NicknameSpec.named l x = WeeklyStats.opt_eqb (WeeklyStats.login x) l).
    { intro l. unfold NicknameSpec.named. rewrite Ex. apply andb_true_r. }
    assert (Hself : NicknameSpec.named (WeeklyStats.login x) x = true).
    { rewrite Hnamed. now apply opt_eqb_eq. }
    assert (Hlast : In x (records ++ [x])) by (apply in_or_app; right; now left).
    assert (Hupd : forall l,
      (forall r, In r records ->
         NicknameSpec.named (WeeklyStats.login x) r = true ->
         WeeklyStats.date r <> None) ->
      match ODict.lookup WeeklyStats.opt_eqb
              (ODict.set WeeklyStats.opt_eqb dates (WeeklyStats.login x)
                 (WeeklyStats.date x)) l with
      | None =>
          forall r, In r (records ++ [x]) -> NicknameSpec.named l r = false
      | Some None =>
          exists r, In r (records ++ [x]) /\ NicknameSpec.named l r = true /\
                    WeeklyStats.date r = None
      | Some (Some _) =>
          (exists r, In r (records ++ [x]) /\ NicknameSpec.named l r = true) /\
          forall r, In r (records ++ [x]) -> NicknameSpec.named l r = true ->
                    WeeklyStats.date r <> None
      end).
    { intros l Hall.
      destruct (WeeklyStats.opt_eqb (WeeklyStats.login x) l) eqn:El.
      - apply opt_eqb_eq in El. subst l.
        rewrite lookup_set_same by exact opt_eqb_eq.
        destruct (WeeklyStats.date x) as [d|] eqn:Ed; [|eauto].
        split; [eauto|]. intros y Hy Hyn. apply in_app_or in Hy.
        destruct Hy as [Hy|[<-|[]]]; [now apply Hall | congruence].
      - assert (Hne : WeeklyStats.login x <> l).
        { intro Heq. apply opt_eqb_eq in Heq. congruence. }
        rewrite lookup_set_other by (exact opt_eqb_eq || exact Hne).
        apply Hkeep. now rewrite Hnamed. }
    assert (Hpair : forall r,
      In r records -> NicknameSpec.named (WeeklyStats.login x) r = true ->
      WeeklyStats.date r = None \/ WeeklyStats.date x = None ->
      NicknameErrors.undated_pair (records ++ [x])).
    { intros r Hr Hn Hd. apply in_split in Hr. destruct Hr as (b & a & ->).
      apply named_spec in Hn. destruct Hn as [Hl Hn].
      exists b, r, a, x, []. split; [now rewrite <- app_assoc|]. auto. }
    destruct (nick_step_named nicks dates x Ex) as [n Hstep]. rewrite Hstep.
    cbv zeta. pose proof (IH (WeeklyStats.login x)) as Hmine.
    destruct (ODict.lookup WeeklyStats.opt_eqb dates (WeeklyStats.login x))
      as [latest|] eqn:Elat.
    + destruct (WeeklyStats.date x) as [d|] eqn:Ed; destruct latest as [d0|].
      * destruct Hmine as [Hex Hall]. destruct (d0 <? d)%string.
        -- intro l. apply Hupd. exact Hall.
        -- intro l.
           destruct (WeeklyStats.opt_eqb (WeeklyStats.login x) l) eqn:El.
           ++ apply opt_eqb_eq in El. subst l. rewrite Elat.
              split; [eauto|]. intros y Hy Hyn. apply in_app_or in Hy.
              destruct Hy as [Hy|[<-|[]]]; [now apply Hall | congruence].
           ++ apply Hkeep. now rewrite Hnamed.
      * destruct Hmine as (r & Hr & Hn & Hd). apply (Hpair r Hr Hn). now left.
      * destruct Hmine as [(r & Hr & Hn) _]. apply (Hpair r Hr Hn). now right.
      * destruct Hmine as (r & Hr & Hn & Hd). apply (Hpair r Hr Hn). now left.
    + intro l. apply Hupd. intros r Hr Hrn.
      rewrite (Hmine r Hr) in Hrn. discriminate.
Qed.

(** X26.  A fresh instance's [get_all_latest_nicknames] raises exactly
    when two records of one login both have a nickname and one of the two
    has no date. *)
Theorem latest_nicknames_raise_on_undated_pair : forall records,
  fst (WeeklyStats.get_all_latest_nicknames records WeeklyStats.new_generator)
  = None
  <-> NicknameErrors.undated_pair records.
Proof.
  intro records.
  assert (Hfst :
    fst (WeeklyStats.get_all_latest_nicknames records WeeklyStats.new_generator)
    = None
    <-> WeeklyStats.loop WeeklyStats.nick_step records ([], []) = None).
  { unfold WeeklyStats.get_all_latest_nicknames, WeeklyStats.latest_nicknames.
    cbn [WeeklyStats.new_generator WeeklyStats.latest_nicks_cache].
    destruct (WeeklyStats.loop WeeklyStats.nick_step records ([], []))
      as [[nicks dates]|]; simpl; split; congruence. }
  rewrite Hfst. split.
  - intro Hnone. pose proof (nick_loop_inv records) as H.
    now rewrite Hnone in H.
  - intros (before & r1 & mid & r2 & after & -> & Hn1 & Hn2 & Hl & Hd).
    replace (before ++ r1 :: mid ++ r2 :: after)%list
      with ((before ++ r1 :: mid) ++ r2 :: after)%list
      by now rewrite <- app_assoc.
    rewrite loop_app.
    pose proof (nick_loop_inv (before ++ r1 :: mid)) as H.
    destruct (WeeklyStats.loop WeeklyStats.nick_step (before ++ r1 :: mid)
                ([], [])) as [[nicks dates]|]; [|reflexivity].
    cbn [WeeklyStats.loop].
    destruct (nick_step_named nicks dates r2 Hn2) as [n Hstep].
    rewrite Hstep. cbv zeta. specialize (H (WeeklyStats.login r2)).
    assert (Hin1 : In r1 (before ++ r1 :: mid))
      by (apply in_or_app; right; now left).
    assert (Hnamed1 : NicknameSpec.named (WeeklyStats.login r2) r1 = true)
      by (apply named_spec; auto).
    destruct (ODict.lookup WeeklyStats.opt_eqb dates (WeeklyStats.login r2))
      as [latest|].
    + destruct (WeeklyStats.date r2) as [d|] eqn:Ed; [|reflexivity].
      destruct latest as [d0|]; [|reflexivity].
      destruct H as [_ Hall]. destruct Hd as [Hd|Hd]; [|discriminate].
      exfalso. exact (Hall r1 Hin1 Hnamed1 Hd).
    + rewrite (H r1 Hin1) in Hnamed1. discriminate.
Qed.

(* ================================================================== *)
(** * When the rivalries cannot be computed *)
(* ================================================================== *)

Lemma loop_none_iff : forall (S A : Type) (body : S -> A -> option S)
    (fails : A -> Prop) (l : list A),
  (forall s x, In x l -> (body s x = None <-> fails x)) ->
  forall s, WeeklyStats.loop body l s = None <-> exists x, In x l /\ fails x.
Proof.
  intros S A body fails. induction l as [|a l IH]; intros Hbody s; simpl.
  - split; [discriminate | intros (x & [] & _)].
  - destruct (body s a) as [s'|] eqn:E.
    + rewrite IH by (intros s0 x Hx; apply Hbody; now right).
      split.
      * intros (x & Hx & Hf). exists x. split; [now right | exact Hf].
      * intros (x & [<-|Hx] & Hf).
        -- apply (Hbody s a (or_introl eq_refl)) in Hf. congruence.
        -- exists x. auto.
    + split; [|reflexivity]. intros _. exists a. split; [now left|].
      now apply (Hbody s a (or_introl eq_refl)).
Qed.

Lemma compare_pair_none : forall t best rd p,
  In (fst p) (ODict.keys best) -> In (snd p) (ODict.keys best) ->
  (WeeklyStats.compare_pair t best rd p = None <-> RivalryErrors.anonymous p).
Proof.
  intros t best rd [p1 p2] H1 H2. cbn [fst snd] in *.
  unfold WeeklyStats.compare_pair, RivalryErrors.anonymous. cbn [fst snd].
  destruct (ODict.lookup WeeklyStats.opt_eqb best p1) as [r1|] eqn:E1.
  2:{ apply (lookup_None_keys _ opt_eqb_eq) in E1. contradiction. }
  destruct (ODict.lookup WeeklyStats.opt_eqb best p2) as [r2|] eqn:E2.
  2:{ apply (lookup_None_keys _ opt_eqb_eq) in E2. contradiction. }
  destruct p1 as [l1|]; destruct p2 as [l2|]; try (split; [auto | reflexivity]).
  cbv zeta.
  destruct (WeeklyStats.e_rank r1 <? WeeklyStats.e_rank r2);
    [|destruct (WeeklyStats.e_rank r2 <? WeeklyStats.e_rank r1)];
    (split; [discriminate | intros [H|H]; discriminate]).
Qed.

(** The loop of one track raises exactly when the track has an entry
    without a login and an entry of a player other than the excluded one. *)
Lemma track_step_none : forall rd t es,
  WeeklyStats.track_step rd (t, es) = None
  <-> (exists e, In e es /\ WeeklyStats.e_login e = None) /\
      (exists e l, In e es /\ WeeklyStats.e_login e = Some l /\
                   l <> WeeklyStats.excluded_login).
Proof.
  intros rd t es. unfold WeeklyStats.track_step.
  set (best := WeeklyStats.player_best es).
  assert (Hplayers : forall p,
    In p (WeeklyStats.players_of best)
    <-> (exists e, In e es /\ WeeklyStats.e_login e = p) /\
        p <> Some WeeklyStats.excluded_login).
  { intro p. rewrite players_of_In. split; intros [H Hne]; (split; [|exact Hne]).
    - destruct (player_best_key es p H) as (e & _ & He & Hl). eauto.
    - destruct H as (e & He & <-).
      destruct (player_best_finds es e He) as (e' & Hlk & _).
      apply (lookup_In _ opt_eqb_eq) in Hlk.
      unfold ODict.keys. apply in_map_iff. exists (WeeklyStats.e_login e, e').
      auto. }
  assert (Hloop : forall rd0,
    WeeklyStats.loop (WeeklyStats.compare_pair t best)
      (WeeklyStats.pairs (WeeklyStats.players_of best)) rd0 = None
    <-> exists p, In p (WeeklyStats.pairs (WeeklyStats.players_of best))
                  /\ RivalryErrors.anonymous p).
  { intro rd0. apply loop_none_iff. intros s [p1 p2] Hp.
    apply pairs_In in Hp. destruct Hp as [H1 H2].
    apply players_of_In in H1. apply players_of_In in H2.
    apply compare_pair_none; tauto. }
  assert (Hpairs :
    (exists p, In p (WeeklyStats.pairs (WeeklyStats.players_of best))
               /\ RivalryErrors.anonymous p)
    <-> (exists e, In e es /\ WeeklyStats.e_login e = None) /\
        (exists e l, In e es /\ WeeklyStats.e_login e = Some l /\
                     l <> WeeklyStats.excluded_login)).
  { split.
    - intros ([p1 p2] & Hp & Hanon).
      pose proof (pairs_distinct _ _ _ _ (players_of_nodup es) Hp) as Hne.
      apply pairs_In in Hp. destruct Hp as [H1 H2].
      apply Hplayers in H1. apply Hplayers in H2.
      destruct H1 as [(e1 & He1 & Hl1) Hx1].
      destruct H2 as [(e2 & He2 & Hl2) Hx2].
      unfold RivalryErrors.anonymous in Hanon. cbn [fst snd] in Hanon.
      destruct Hanon as [-> | ->].
      + split; [eauto|]. destruct p2 as [l|]; [|contradiction].
        exists e2, l. split; [exact He2|]. split; [exact Hl2|]. congruence.
      + split; [eauto|]. destruct p1 as [l|]; [|contradiction].
        exists e1, l. split; [exact He1|]. split; [exact Hl1|]. congruence.
    - intros [(e1 & He1 & Hl1) (e2 & l & He2 & Hl2 & Hx)].
      assert (H1 : In None (WeeklyStats.players_of best)).
      { apply Hplayers. split; [eauto | discriminate]. }
      assert (H2 : In (Some l) (WeeklyStats.players_of best)).
      { apply Hplayers. split; [eauto | congruence]. }
      destruct (pairs_complete _ _ None (Some l) H1 H2 ltac:(discriminate))
        as [Hp|Hp].
      + exists (None, Some l). split; [exact Hp | now left].
      + exists (Some l, None). split; [exact Hp | now right]. }
  destruct (Z.leb_spec 2 (Z.of_nat (List.length es))) as [Hlen|Hlen].
  - rewrite Hloop. exact Hpairs.
  - split; [discriminate|].
    intros [(e1 & He1 & Hl1) (e2 & l & He2 & Hl2 & _)]. exfalso.
    assert (Hne : e1 <> e2) by (intros ->; congruence).
    pose proof (two_in_length _ es e1 e2 He1 He2 Hne). lia.
Qed.

Lemma head_to_head_none : forall records,
  WeeklyStats.head_to_head (WeeklyStats.group_by_track records) = None
  <-> RivalryErrors.anonymous_meeting records.
Proof.
  intro records. unfold WeeklyStats.head_to_head.
  rewrite (loop_none_iff _ _ WeeklyStats.track_step
             (fun item =>
                (exists e, In e (snd item) /\ WeeklyStats.e_login e = None) /\
                (exists e l, In e (snd item) /\ WeeklyStats.e_login e = Some l /\
                             l <> WeeklyStats.excluded_login))).
  2:{ intros s [t es] _. apply track_step_none. }
  unfold RivalryErrors.anonymous_meeting. split.
  - intros ([t es] & Hin & (e1 & He1 & Hl1) & (e2 & l & He2 & Hl2 & Hx)).
    cbn [snd] in *. apply group_by_track_In in Hin. destruct Hin as [-> _].
    apply entries_on_In in He1. destruct He1 as (r1 & n1 & Hr1 & Ht1 & Hn1 & ->).
    apply entries_on_In in He2. destruct He2 as (r2 & n2 & Hr2 & Ht2 & Hn2 & ->).
    cbn [WeeklyStats.e_login] in *.
    exists r1, r2, l. unfold RivalrySpec.rank_readable. rewrite Hn1, Hn2.
    repeat split; try assumption; congruence.
  - intros (r1 & r2 & l & Hr1 & Hr2 & Ht & Hk1 & Hk2 & Hl1 & Hl2 & Hx).
    unfold RivalrySpec.rank_readable in Hk1, Hk2.
    destruct (WeeklyStats.int_or_999 (WeeklyStats.rank r1)) as [n1|] eqn:E1;
      [|discriminate].
    destruct (WeeklyStats.int_or_999 (WeeklyStats.rank r2)) as [n2|] eqn:E2;
      [|discriminate].
    set (t := WeeklyStats.track r2) in *.
    set (e1 := WeeklyStats.mkEntry (WeeklyStats.login r1) (WeeklyStats.nick r1)
                 n1 (WeeklyStats.time r1)).
    set (e2 := WeeklyStats.mkEntry (WeeklyStats.login r2) (WeeklyStats.nick r2)
                 n2 (WeeklyStats.time r2)).
    assert (He1 : In e1 (RivalrySpec.entries_on records t)).
    { apply entries_on_In. exists r1, n1. auto. }
    assert (He2 : In e2 (RivalrySpec.entries_on records t)).
    { apply entries_on_In. exists r2, n2. auto. }
    exists (t, RivalrySpec.entries_on records t). split.
    + apply group_by_track_In. split; [reflexivity|].
      intro Hnil. rewrite Hnil in He1. destruct He1.
    + cbn [snd]. split; [exists e1; auto|]. exists e2, l. auto.
Qed.

(** X27.  [detect_rivalries] raises exactly when the nickname mapping
    cannot be obtained, or some track has a record without a login together
    with a record of a player other than the excluded login, both of a rank
    that is empty, missing or accepted by [int]. *)
Theorem detect_rivalries_raises_on_anonymous_record : forall records self,
  fst (WeeklyStats.detect_rivalries records self) = None
  <-> fst (WeeklyStats.get_all_latest_nicknames records self) = None
      \/ RivalryErrors.anonymous_meeting records.
Proof.
  intros records self. rewrite <- head_to_head_none.
  unfold WeeklyStats.detect_rivalries.
  destruct (WeeklyStats.get_all_latest_nicknames records self)
    as [[nicks|] self'].
  - destruct (WeeklyStats.head_to_head (WeeklyStats.group_by_track records));
      cbn [fst]; split.
    + discriminate.
    + intros [H|H]; discriminate.
    + now right.
    + reflexivity.
  - cbn [fst]. split; [now left | reflexivity].
Qed.
